(** * wirebalancer: a SOCKS5 gateway over WireGuard tunnels

    Shallow embedding of the routing plane of the Go sources
    ([internal/wireguard], [internal/proxy], [main.go]) and the properties
    the specification states about it.

    Conventions of the embedding:
    - Go [int], [int32] and [int64] values are [Z]; where the source
      converts or adds on a fixed width the wrap-around is written out.
    - Go strings are byte strings: [string] (a list of 8-bit [ascii]).
    - Atomic fields of a [Connection] are plain record fields. In
      [Wireguard] one call of a method is one step on that record (a
      sequential run of the prober); [Goroutines] has the atomic operations
      one by one, and the goroutines interleaved.
    - A run-time panic in any goroutine ends the process with code 2.
    - The network, the kernel and the clock are inputs of the functions
      (probe outcomes, dial results, the time read by [time.Now]).
    - [log.Printf] lines are not part of the model; [log.Fatalf] is, since it
      ends the process. *)

From Stdlib Require Import ZArith NArith List Bool Lia.
From Stdlib Require Import Strings.String Strings.Ascii Strings.Byte.
From Stdlib Require Import DecimalString.
Import ListNotations.

Local Open Scope string_scope.
Local Open Scope Z_scope.

(** ** Go primitives used by the sources *)

Module Go.

(** Result of a Go function returning [(T, error)]. [Panic] stands for a
    run-time panic (an index out of range). *)
Inductive result (A : Type) : Type :=
| Ok (a : A)
| Err (e : string)
| Panic (msg : string).
Arguments Ok {A} a.
Arguments Err {A} e.
Arguments Panic {A} msg.

(** Two's complement conversion to a signed integer of [w] bits. *)
Definition wrap_signed (w : Z) (z : Z) : Z :=
  (z + 2 ^ (w - 1)) mod 2 ^ w - 2 ^ (w - 1).

Definition int32 (z : Z) : Z := wrap_signed 32 z.

Definition max_int32 : Z := 2 ^ 31 - 1.
Definition min_int32 : Z := - 2 ^ 31.

(** [fmt.Sprintf("%d", z)]. *)
Definition fmt_d (z : Z) : string := NilEmpty.string_of_int (Z.to_int z).

(** [s[i]] on a slice: a panic outside the bounds. *)
Definition index {A : Type} (s : list A) (i : Z) : result A :=
  if (i <? 0) || (Z.of_nat (List.length s) <=? i) then
    Panic ("index out of range [" ++ fmt_d i ++ "] with length "
           ++ fmt_d (Z.of_nat (List.length s)))
  else
    match nth_error s (Z.to_nat i) with
    | Some a => Ok a
    | None => Panic "index out of range"
    end.

End Go.
Import Go.

(** ** Package [strings] of the Go library, as far as the sources use it *)

Module GoStrings.

Definition LF : string := String "010"%char EmptyString.

Definition code (c : ascii) : N := N_of_ascii c.

(** The ASCII members of [unicode.IsSpace]: tab, LF, VT, FF, CR, space. *)
Definition asciiSpace (c : ascii) : bool :=
  let n := code c in
  (((9 <=? n) && (n <=? 13)) || (n =? 32))%N.

(** UTF-8 encodings of the other members of [unicode.IsSpace]:
    U+0085 and U+00A0 on two bytes; U+1680, U+2000..U+200A, U+2028, U+2029,
    U+202F, U+205F and U+3000 on three. *)
Definition space2 (a b : N) : bool :=
  ((a =? 194) && ((b =? 133) || (b =? 160)))%N.

Definition space3 (a b c : N) : bool :=
  (((a =? 225) && (b =? 154) && (c =? 128))
   || ((a =? 226) && (b =? 128)
       && (((128 <=? c) && (c <=? 138)) || (c =? 168) || (c =? 169)
           || (c =? 175)))
   || ((a =? 226) && (b =? 129) && (c =? 159))
   || ((a =? 227) && (b =? 128) && (c =? 128)))%N.

(** Drops white-space runes from the front of [l]. With [back] the list is
    a reversed string, so a rune's bytes come last byte first. *)
Fixpoint trim_runes (back : bool) (l : list ascii) : list ascii :=
  match l with
  | [] => []
  | a :: l1 =>
      if asciiSpace a then trim_runes back l1
      else
        match l1 with
        | [] => l
        | b :: l2 =>
            if (if back then space2 (code b) (code a)
                else space2 (code a) (code b))
            then trim_runes back l2
            else
              match l2 with
              | [] => l
              | c :: l3 =>
                  if (if back then space3 (code c) (code b) (code a)
                      else space3 (code a) (code b) (code c))
                  then trim_runes back l3
                  else l
              end
        end
  end.

(** [strings.TrimSpace]: leading white space goes first, then trailing. *)
Definition TrimSpace (s : string) : string :=
  string_of_list_ascii
    (rev (trim_runes true (rev (trim_runes false (list_ascii_of_string s))))).

(** [strings.HasPrefix]. *)
Definition HasPrefix (s pre : string) : bool := String.prefix pre s.

(** [strings.Contains] for a one-byte substring. *)
Fixpoint Contains (s : string) (sep : ascii) : bool :=
  match s with
  | EmptyString => false
  | String c s' => Ascii.eqb c sep || Contains s' sep
  end.

(** [strings.Split] for a one-byte separator: all the pieces, also the
    empty ones; the empty string gives one empty piece. *)
Fixpoint Split (s : string) (sep : ascii) : list string :=
  match s with
  | EmptyString => [EmptyString]
  | String c s' =>
      if Ascii.eqb c sep then EmptyString :: Split s' sep
      else
        match Split s' sep with
        | piece :: pieces => String c piece :: pieces
        | [] => [String c EmptyString]
        end
  end.

(** The text before and after the first [sep]. *)
Fixpoint cut (s : string) (sep : ascii) : option (string * string) :=
  match s with
  | EmptyString => None
  | String c s' =>
      if Ascii.eqb c sep then Some (EmptyString, s')
      else
        match cut s' sep with
        | Some (before, after) => Some (String c before, after)
        | None => None
        end
  end.

(** [strings.SplitN(s, sep, 2)] for a one-byte separator. *)
Definition SplitN2 (s : string) (sep : ascii) : list string :=
  match cut s sep with
  | Some (before, after) => [before; after]
  | None => [s]
  end.

End GoStrings.

(** ** internal/stats: the calls the core makes on the tracker *)

Module Stats.

Inductive Call : Type :=
| IncrementRequests (connectionIndex : Z)
| SetConnectionHealth (connectionIndex : Z) (healthy : bool)
| RecordLatency (connectionIndex : Z) (latency : Z).

End Stats.

(** ** internal/config *)

Module Config.

Record ConnectionConfig : Type := {
  cc_Name : string;
  cc_InterfaceName : string;
  cc_ConfigPath : string
}.

Record WireGuardConfig : Type := {
  Connections : list ConnectionConfig;
  HealthCheckURL : string;
  HealthCheckInterval : Z;
  FailureThreshold : Z
}.

Record ProxyConfig : Type := {
  BasePort : Z;
  ReadTimeout : Z;
  WriteTimeout : Z;
  FailureHTTPCode : Z;
  BufferSize : Z
}.

Record WebServerConfig : Type := { Port : Z }.

Record Config : Type := {
  WireGuard : WireGuardConfig;
  Proxy : ProxyConfig;
  WebServer : WebServerConfig
}.

(** The defaults [Load] fills in once the YAML is parsed. *)
Definition dflt (d v : Z) : Z := if v =? 0 then d else v.

Definition set_defaults (c : Config) : Config :=
  {| WireGuard :=
       {| Connections := Connections (WireGuard c);
          HealthCheckURL :=
            if String.eqb (HealthCheckURL (WireGuard c)) ""
            then "http://1.1.1.1/cdn-cgi/trace"
            else HealthCheckURL (WireGuard c);
          HealthCheckInterval := dflt 30 (HealthCheckInterval (WireGuard c));
          FailureThreshold := dflt 3 (FailureThreshold (WireGuard c)) |};
     Proxy :=
       {| BasePort := dflt 9930 (BasePort (Proxy c));
          ReadTimeout := dflt 30 (ReadTimeout (Proxy c));
          WriteTimeout := dflt 30 (WriteTimeout (Proxy c));
          FailureHTTPCode := dflt 580 (FailureHTTPCode (Proxy c));
          BufferSize := dflt 32768 (BufferSize (Proxy c)) |};
     WebServer := {| Port := dflt 9929 (Port (WebServer c)) |} |}.

(** [Load]: the file system and the YAML decoder are the environment;
    [read] is the outcome of [os.ReadFile] followed by [yaml.Unmarshal]. *)
Definition Load (read : result Config) : result Config :=
  match read with
  | Ok c => Ok (set_defaults c)
  | Err e => Err e
  | Panic p => Panic p
  end.

End Config.

(** ** internal/wireguard: tunnels, prober and selection pool *)

Module Wireguard.

Record Connection : Type := {
  Index : Z;
  Name : string;
  InterfaceName : string;
  ConfigPath : string;
  healthy : bool;
  failureCount : Z;   (* atomic.Int32 *)
  lastCheck : Z       (* atomic.Int64, unix seconds *)
}.

Record Manager : Type := {
  connections : list Connection;
  cfg : Config.WireGuardConfig;
  checkInterval : Z;
  failureThreshold : Z
}.

Definition set_lastCheck (now : Z) (c : Connection) : Connection :=
  {| Index := Index c; Name := Name c; InterfaceName := InterfaceName c;
     ConfigPath := ConfigPath c; healthy := healthy c;
     failureCount := failureCount c; lastCheck := now |}.

Definition set_failureCount (n : Z) (c : Connection) : Connection :=
  {| Index := Index c; Name := Name c; InterfaceName := InterfaceName c;
     ConfigPath := ConfigPath c; healthy := healthy c;
     failureCount := n; lastCheck := lastCheck c |}.

Definition set_healthy (h : bool) (c : Connection) : Connection :=
  {| Index := Index c; Name := Name c; InterfaceName := InterfaceName c;
     ConfigPath := ConfigPath c; healthy := h;
     failureCount := failureCount c; lastCheck := lastCheck c |}.

(** The loop of [NewManager]: one connection per configured tunnel, index
    [i], unhealthy, zero counters. *)
Fixpoint new_connections (i : Z) (l : list Config.ConnectionConfig)
  : list Connection :=
  match l with
  | [] => []
  | connCfg :: rest =>
      {| Index := i;
         Name := Config.cc_Name connCfg;
         InterfaceName := Config.cc_InterfaceName connCfg;
         ConfigPath := Config.cc_ConfigPath connCfg;
         healthy := false;
         failureCount := 0;
         lastCheck := 0 |} :: new_connections (i + 1) rest
  end.

(** [checkInterval] is kept in seconds. *)
Definition NewManager (cfg : Config.WireGuardConfig) : Manager :=
  {| connections := new_connections 0 (Config.Connections cfg);
     cfg := cfg;
     checkInterval := Config.HealthCheckInterval cfg;
     failureThreshold := Config.FailureThreshold cfg |}.

(** What one HTTPS probe through the tunnel's interface observed. *)
Inductive ProbeOutcome : Type :=
| ProbeResponse (statusCode : Z) (latency : Z)
| ProbeTransportError (e : string).

(** [checkHealth]: [None] is the [nil] error. The latency is published only
    for a 200 response. *)
Definition checkHealth (conn : Connection) (o : ProbeOutcome)
  : option string * list Stats.Call :=
  match o with
  | ProbeTransportError e => (Some e, [])
  | ProbeResponse code latency =>
      if code =? 200 then (None, [Stats.RecordLatency (Index conn) latency])
      else (Some ("unexpected status code: " ++ fmt_d code), [])
  end.

(** [performHealthCheck] after [checkHealth] returned [err] and
    [time.Now().Unix()] returned [now]. *)
Definition recordOutcome (m : Manager) (conn : Connection)
           (err : option string) (now : Z)
  : Connection * list Stats.Call :=
  let conn := set_lastCheck now conn in
  match err with
  | Some _ =>
      let failures := int32 (failureCount conn + 1) in
      let conn := set_failureCount failures conn in
      if failures >=? int32 (failureThreshold m) then
        if healthy conn then
          (set_healthy false conn,
           [Stats.SetConnectionHealth (Index conn) false])
        else (conn, [])
      else (conn, [])
  | None =>
      let conn := set_failureCount 0 conn in
      if negb (healthy conn) then
        (set_healthy true conn,
         [Stats.SetConnectionHealth (Index conn) true])
      else (conn, [])
  end.

Definition performHealthCheck (m : Manager) (conn : Connection)
           (o : ProbeOutcome) (now : Z) : Connection * list Stats.Call :=
  let '(err, calls) := checkHealth conn o in
  let '(conn', calls') := recordOutcome m conn err now in
  (conn', (calls ++ calls')%list).

Definition GetHealthyConnection (m : Manager) (index : Z)
  : result Connection :=
  if (index <? 0) || (index >=? Z.of_nat (List.length (connections m))) then
    Err ("invalid connection index: " ++ fmt_d index)
  else
    match Go.index (connections m) index with
    | Ok conn =>
        if negb (healthy conn) then
          Err ("connection " ++ Name conn ++ " is not healthy")
        else Ok conn
    | Err e => Err e
    | Panic p => Panic p
    end.

(** The snapshot loop of [GetRandomHealthyConnection]. *)
Definition healthyConns (m : Manager) : list Connection :=
  fold_left
    (fun acc conn => if healthy conn then (acc ++ [conn])%list else acc)
    (connections m) [].

(** [nowNano] is [time.Now().UnixNano()]; Go's [%] truncates toward zero
    ([Z.rem]); [int64(len(healthyConns))] and [int(...)] change nothing on
    values of these sizes. *)
Definition GetRandomHealthyConnection (m : Manager) (nowNano : Z)
  : result Connection :=
  let hs := healthyConns m in
  if Z.of_nat (List.length hs) =? 0 then
    Err "no healthy connections available"
  else
    let idx := Z.rem nowNano (Z.of_nat (List.length hs)) in
    Go.index hs idx.

(** *** Provisioning *)

(** The host as [bringUpConnection] sees it: the file system and the
    outcome of the [ip] and [wg] commands it runs. *)
Record Host : Type := {
  Stat : string -> result Z;              (* permission bits, or an error *)
  ReadFile : string -> result string;
  CreateTemp : result string;             (* name of the temporary file *)
  WriteString : string -> string -> option string;
                                          (* file name, content; the error *)
  Run : list string -> option (string * string)
                                          (* argv; the error and the output
                                             of a command that fails *)
}.

(** Settings that wg-quick understands but wg does not. *)
Definition interfaceOnlySettings (key : string) : bool :=
  existsb (String.eqb key)
    ["Address"; "DNS"; "MTU"; "Table"; "PreUp"; "PostUp"; "PreDown";
     "PostDown"; "SaveConfig"].

(** The variables the loop of [parseWireGuardConfig] updates. *)
Record ParseState : Type := {
  wgConfig : string;
  addresses : list string;
  inInterface : bool
}.

Definition writeLine (st : ParseState) (line : string) : ParseState :=
  {| wgConfig := wgConfig st ++ line ++ GoStrings.LF;
     addresses := addresses st;
     inInterface := inInterface st |}.

Definition setSection (b : bool) (st : ParseState) : ParseState :=
  {| wgConfig := wgConfig st;
     addresses := addresses st;
     inInterface := b |}.

(** The inner loop over the comma-separated pieces of an Address value. *)
Definition appendAddresses (acc : list string) (addrList : list string)
  : list string :=
  fold_left
    (fun acc addr =>
       let addr := GoStrings.TrimSpace addr in
       if negb (String.eqb addr "") then (acc ++ [addr])%list else acc)
    addrList acc.

Definition addAddresses (st : ParseState) (value : string) : ParseState :=
  {| wgConfig := wgConfig st;
     addresses :=
       appendAddresses (addresses st) (GoStrings.Split value ","%char);
     inInterface := inInterface st |}.

(** One iteration of the loop over the lines. *)
Definition parseLine (st : ParseState) (line : string) : ParseState :=
  let trimmedLine := GoStrings.TrimSpace line in
  if String.eqb trimmedLine "[Interface]" then
    writeLine (setSection true st) line
  else if GoStrings.HasPrefix trimmedLine "[" then
    writeLine (setSection false st) line
  else if String.eqb trimmedLine ""
          || GoStrings.HasPrefix trimmedLine "#"
          || GoStrings.HasPrefix trimmedLine ";" then
    writeLine st line
  else if GoStrings.Contains trimmedLine "="%char then
    match GoStrings.SplitN2 trimmedLine "="%char with
    | [part0; part1] =>
        let key := GoStrings.TrimSpace part0 in
        let value := GoStrings.TrimSpace part1 in
        if inInterface st && String.eqb key "Address" then
          addAddresses st value
        else if inInterface st && interfaceOnlySettings key then st
        else writeLine st line
    | _ => writeLine st line
    end
  else writeLine st line.

Definition parseInit : ParseState :=
  {| wgConfig := ""; addresses := []; inInterface := false |}.

Definition parseLines (data : string) : ParseState :=
  fold_left parseLine (GoStrings.Split data "010"%char) parseInit.

Definition parseWireGuardConfig (host : Host) (configPath : string)
  : result (string * list string) :=
  match ReadFile host configPath with
  | Err e => Err e
  | Panic p => Panic p
  | Ok data =>
      let st := parseLines data in
      if Z.of_nat (List.length (addresses st)) =? 0 then
        Err "no Address found in config"
      else Ok (wgConfig st, addresses st)
  end.

(** [bringUpConnection]: [None] is the [nil] error. The steps whose failure
    the source ignores (chmod, [ip link del], [ip link add], [ip address
    add], the MTU) have no influence on the error returned and are left
    out. *)
Definition bringUpConnection (host : Host) (conn : Connection)
  : option string :=
  match Stat host (ConfigPath conn) with
  | Err e | Panic e => Some ("config file error: " ++ e)
  | Ok _ =>
      match parseWireGuardConfig host (ConfigPath conn) with
      | Err e | Panic e => Some ("failed to parse config: " ++ e)
      | Ok (wgConfig, addresses) =>
          match CreateTemp host with
          | Err e | Panic e => Some ("failed to create temp file: " ++ e)
          | Ok tmpFile =>
              match WriteString host tmpFile wgConfig with
              | Some e => Some ("failed to write temp config: " ++ e)
              | None =>
                  match Run host ["wg"; "setconf"; InterfaceName conn;
                                  tmpFile] with
                  | Some (e, output) =>
                      Some ("failed to set wireguard config: " ++ e
                            ++ " (output: " ++ output ++ ")")
                  | None =>
                      match Run host ["ip"; "link"; "set"; "up"; "dev";
                                      InterfaceName conn] with
                      | Some (e, output) =>
                          Some ("failed to bring up interface: " ++ e
                                ++ " (output: " ++ output ++ ")")
                      | None => None
                      end
                  end
              end
          end
      end
  end.

(** What [Initialize] did: the warnings it logged, the probes it made and
    the calls on the stats tracker. *)
Record InitReport : Type := {
  warnings : list string;
  probed : list Z;
  statsCalls : list Stats.Call
}.

(** [Initialize]: brings every tunnel up, logs the errors as warnings,
    probes every tunnel once with [checkHealth] and returns [nil]
    ([None]). The manager it leaves behind is the first component. The
    source brings the tunnels up in parallel; the warnings are listed here
    in the order of the tunnels. *)
Definition Initialize (host : Host) (probe : Connection -> ProbeOutcome)
           (m : Manager) : Manager * InitReport * option string :=
  let errs :=
    flat_map
      (fun c =>
         match bringUpConnection host c with
         | Some err => ["connection " ++ Name c ++ ": " ++ err]
         | None => []
         end)
      (connections m) in
  (m,
   {| warnings := errs;
      probed := map Index (connections m);
      statsCalls :=
        flat_map (fun c => snd (checkHealth c (probe c))) (connections m) |},
   None).

(** *** The prober *)

(** One [performHealthCheck] per tunnel: the round [StartHealthChecks]
    issues when it starts and at every tick. [probe] gives for each tunnel
    what its probe observed, [now] the clock read after it. *)
Definition healthCheckRound (probe : Connection -> ProbeOutcome)
           (now : Connection -> Z) (m : Manager)
  : Manager * list Stats.Call :=
  let rs := map (fun c => performHealthCheck m c (probe c) (now c))
                (connections m) in
  ({| connections := map fst rs;
      cfg := cfg m;
      checkInterval := checkInterval m;
      failureThreshold := failureThreshold m |},
   flat_map snd rs).

(** A run of probes on one tunnel, in the order the prober applies them:
    the states after each probe. *)
Fixpoint probeRun (m : Manager) (conn : Connection)
         (probes : list (option string * Z)) : list Connection :=
  match probes with
  | [] => []
  | (err, now) :: rest =>
      let conn' := fst (recordOutcome m conn err now) in
      conn' :: probeRun m conn' rest
  end.

(** Runs of like outcomes. *)
Definition all_failures (probes : list (option string * Z)) : Prop :=
  Forall (fun p => fst p <> None) probes.

Definition all_successes (probes : list (option string * Z)) : Prop :=
  Forall (fun p => fst p = None) probes.

(** Number of changes of the healthy flag along a run that starts at [h]. *)
Fixpoint transitions (h : bool) (hs : list bool) : nat :=
  match hs with
  | [] => 0
  | h' :: rest => (if Bool.eqb h h' then 0 else 1) + transitions h' rest
  end.

(** A healthy tunnel has fewer failures in a row than the threshold. *)
Definition below_threshold (m : Manager) (conn : Connection) : Prop :=
  healthy conn = true -> 0 <= failureCount conn < failureThreshold m.

(** Every tunnel of [l] carries its position, counted from [base], as its
    index. *)
Definition well_indexed (base : Z) (l : list Connection) : Prop :=
  forall i conn, nth_error l i = Some conn -> Index conn = base + Z.of_nat i.

(** The managers the process goes through: the one [NewManager] builds and
    those the rounds of the prober leave behind. *)
Inductive reachable (c : Config.WireGuardConfig) : Manager -> Prop :=
| reach_new : reachable c (NewManager c)
| reach_round : forall m probe now,
    reachable c m -> reachable c (fst (healthCheckRound probe now m)).

(** [time.Duration(cfg.HealthCheckInterval) * time.Second] of [NewManager]:
    the interval of the prober in nanoseconds, a product on [int64]. *)
Definition tickerInterval (m : Manager) : Z :=
  wrap_signed 64 (checkInterval m * 1000000000).

(** The first statement of [StartHealthChecks]: [time.NewTicker] panics on
    an interval that is not positive. [None]: the ticker is there, and the
    rounds of the prober go on until the context is cancelled. *)
Definition StartHealthChecks (m : Manager) : option string :=
  if tickerInterval m <=? 0 then Some "non-positive interval for NewTicker"
  else None.

End Wireguard.

(** ** Package [net] of the Go library: [IP.String] *)

Module GoNet.

Definition u8 (b : byte) : Z := Z.of_N (Byte.to_N b).

(** Dotted decimal, the text of an IPv4 address. *)
Definition string4 (a b c d : byte) : string :=
  fmt_d (u8 a) ++ "." ++ fmt_d (u8 b) ++ "." ++ fmt_d (u8 c) ++ "."
  ++ fmt_d (u8 d).

Definition isZeros (p : list byte) : bool := forallb (Byte.eqb x00) p.

(** [IP.To4]: the four bytes of an IPv4 address, also when it comes as an
    IPv4-mapped IPv6 address [::ffff:a.b.c.d]. *)
Definition To4 (ip : list byte) : option (list byte) :=
  if Nat.eqb (List.length ip) 4 then Some ip
  else if Nat.eqb (List.length ip) 16
          && isZeros (firstn 10 ip)
          && Byte.eqb (nth 10 ip x00) xff
          && Byte.eqb (nth 11 ip x00) xff
  then Some (skipn 12 ip)
  else None.

Definition digit (n : Z) : string :=
  String.substring (Z.to_nat n) 1 "0123456789abcdef".

(** [appendHex]: a 16-bit group in lower-case hexadecimal, no leading
    zeros. *)
Definition appendHex (x : Z) : string :=
  (if x >=? 4096 then digit (Z.shiftr x 12) else "")
  ++ (if x >=? 256 then digit (Z.land (Z.shiftr x 8) 15) else "")
  ++ (if x >=? 16 then digit (Z.land (Z.shiftr x 4) 15) else "")
  ++ digit (Z.land x 15).

(** The eight 16-bit groups of a 16-byte address, big endian. *)
Fixpoint groups (ip : list byte) : list Z :=
  match ip with
  | hi :: lo :: rest => Z.lor (Z.shiftl (u8 hi) 8) (u8 lo) :: groups rest
  | _ => []
  end.

Fixpoint zeroRun (gs : list Z) : Z :=
  match gs with
  | g :: rest => if g =? 0 then 1 + zeroRun rest else 0
  | [] => 0
  end.

(** The longest run of two or more zero groups, the first one among equals:
    [(zeroStart, zeroEnd)], both 255 when there is none. *)
Fixpoint longestZeros (i : Z) (gs : list Z) (best : Z * Z) : Z * Z :=
  match gs with
  | [] => best
  | _ :: rest =>
      let l := zeroRun gs in
      let best' :=
        if (l >=? 2) && (l >? snd best - fst best) then (i, i + l)
        else best in
      longestZeros (i + 1) rest best'
  end.

(** The output loop of the IPv6 printer, from group [i] on. *)
Fixpoint emit6 (fuel : nat) (gs : list Z) (zeros : Z * Z) (i : Z) : string :=
  match fuel with
  | O => ""
  | S fuel' =>
      if i >=? 8 then ""
      else if i =? fst zeros then
        "::" ++
        (if snd zeros >=? 8 then ""
         else appendHex (nth (Z.to_nat (snd zeros)) gs 0)
              ++ emit6 fuel' gs zeros (snd zeros + 1))
      else
        (if i >? 0 then ":" else "")
        ++ appendHex (nth (Z.to_nat i) gs 0)
        ++ emit6 fuel' gs zeros (i + 1)
  end.

(** The text of an IPv6 address according to RFC 5952. *)
Definition string6 (ip : list byte) : string :=
  let gs := groups ip in
  emit6 8 gs (longestZeros 0 gs (255, 255)) 0.

(** The 16 bytes are an IPv4-mapped address, [::ffff:a.b.c.d]. *)
Definition isIPv4Mapped (ip : list byte) : bool :=
  isZeros (firstn 10 ip)
  && Byte.eqb (nth 10 ip x00) xff
  && Byte.eqb (nth 11 ip x00) xff.

Definition hexByte (b : byte) : string :=
  digit (Z.shiftr (u8 b) 4) ++ digit (Z.land (u8 b) 15).

(** [net.IP.String]. *)
Definition IP_String (ip : list byte) : string :=
  if Nat.eqb (List.length ip) 0 then "<nil>"
  else if negb (Nat.eqb (List.length ip) 4)
          && negb (Nat.eqb (List.length ip) 16)
  then "?" ++ String.concat "" (map hexByte ip)
  else
    match To4 ip with
    | Some [a; b; c; d] => string4 a b c d
    | _ => string6 ip
    end.

End GoNet.

(** ** internal/proxy: the SOCKS5 front end *)

Module Proxy.

Definition socks5Version : byte := x05.
Definition noAuth : byte := x00.
Definition cmdConnect : byte := x01.
Definition atypIPv4 : byte := x01.
Definition atypDomain : byte := x03.
Definition atypIPv6 : byte := x04.
Definition repSuccess : byte := x00.
Definition repFailure : byte := x01.

(** What a handler does that others can observe. [Relay] is the relay
    phase, the copy of the payload in both directions until both end or the
    process does; [Crash] is a run-time panic, which ends the process. *)
Inductive Event : Type :=
| ClientWrite (data : list byte) (ok : bool)
| Dial (interfaceName targetAddr : string) (ok : bool)
| StatsCall (c : Stats.Call)
| Relay
| Crash (msg : string)
| TargetClose
| ClientClose.

(** The client connection: the bytes the client sends and that are not
    read yet, the number of writes that still succeed, and what happened
    so far. A read deadline that expires is a stream that ends. *)
Record Conn : Type := {
  unread : list byte;
  writable : nat;
  trace : list Event
}.

(** Code that reads from and writes to the client connection. *)
Definition IO (A : Type) : Type := Conn -> result A * Conn.

Definition ret {A : Type} (a : A) : IO A := fun c => (Ok a, c).

Definition fail {A : Type} (e : string) : IO A := fun c => (Err e, c).

Definition bind {A B : Type} (x : IO A) (k : A -> IO B) : IO B :=
  fun c =>
    match x c with
    | (Ok a, c') => k a c'
    | (Err e, c') => (Err e, c')
    | (Panic p, c') => (Panic p, c')
    end.

Notation "x <- c1 ;; c2" := (bind c1 (fun x => c2))
  (at level 61, c1 at next level, right associativity).

Definition emit (e : Event) (c : Conn) : Conn :=
  {| unread := unread c; writable := writable c;
     trace := (trace c ++ [e])%list |}.

(** [io.ReadFull(conn, buf[:n])]. *)
Definition ReadFull (n : nat) : IO (list byte) :=
  fun c =>
    if (n <=? List.length (unread c))%nat then
      (Ok (firstn n (unread c)),
       {| unread := skipn n (unread c); writable := writable c;
          trace := trace c |})
    else
      (Err (match unread c with [] => "EOF" | _ => "unexpected EOF" end),
       {| unread := []; writable := writable c; trace := trace c |}).

(** [conn.Write(data)]. *)
Definition Write (data : list byte) : IO unit :=
  fun c =>
    match writable c with
    | S n =>
        (Ok tt,
         {| unread := unread c; writable := n;
            trace := (trace c ++ [ClientWrite data true])%list |})
    | O => (Err "write: broken pipe", emit (ClientWrite data false) c)
    end.

Definition handleHandshake : IO unit :=
  buf <- ReadFull 2 ;;
  if negb (Byte.eqb (nth 0 buf x00) socks5Version) then
    fail ("unsupported SOCKS version: " ++ fmt_d (GoNet.u8 (nth 0 buf x00)))
  else
    let nmethods := GoNet.u8 (nth 1 buf x00) in
    if nmethods =? 0 then fail "no authentication methods"
    else
      _ <- ReadFull (Z.to_nat nmethods) ;;
      Write [socks5Version; noAuth].

(** [binary.BigEndian.Uint16]. *)
Definition Uint16 (b : list byte) : Z :=
  Z.lor (GoNet.u8 (nth 1 b x00)) (Z.shiftl (GoNet.u8 (nth 0 b x00)) 8).

Definition readPort (addr : string) : IO string :=
  portBuf <- ReadFull 2 ;;
  ret (addr ++ ":" ++ fmt_d (Uint16 portBuf)).

Definition getTargetAddress : IO string :=
  buf <- ReadFull 4 ;;
  if negb (Byte.eqb (nth 0 buf x00) socks5Version) then
    fail ("invalid version: " ++ fmt_d (GoNet.u8 (nth 0 buf x00)))
  else if negb (Byte.eqb (nth 1 buf x00) cmdConnect) then
    fail ("unsupported command: " ++ fmt_d (GoNet.u8 (nth 1 buf x00)))
  else
    let atyp := nth 3 buf x00 in
    if Byte.eqb atyp atypIPv4 then
      ipBuf <- ReadFull 4 ;;
      readPort (GoNet.IP_String ipBuf)
    else if Byte.eqb atyp atypDomain then
      lenBuf <- ReadFull 1 ;;
      domainBuf <- ReadFull (Z.to_nat (GoNet.u8 (nth 0 lenBuf x00))) ;;
      readPort (string_of_list_byte domainBuf)
    else if Byte.eqb atyp atypIPv6 then
      ipBuf <- ReadFull 16 ;;
      readPort (GoNet.IP_String ipBuf)
    else
      fail ("unsupported address type: " ++ fmt_d (GoNet.u8 atyp)).

Definition connectResponse (rep : byte) : list byte :=
  [socks5Version; rep; x00; atypIPv4; x00; x00; x00; x00; x00; x00].

Definition sendConnectResponse (rep : byte) : IO unit :=
  Write (connectResponse rep).

(** What a handler finds around it: the options of the proxy, the tunnels,
    the clock, the network behind the tunnels and the allocator. [allocate n]
    is what the run time does when asked for [n] bytes, [n] not negative:
    [None] when it gives them, the message it ends the process with
    otherwise. *)
Record Env : Type := {
  cfg : Config.ProxyConfig;
  wgManager : Wireguard.Manager;
  nowNano : Z;
  dialThroughInterface : string -> string -> bool;
  allocate : Z -> option string
}.

(** [make([]byte, n)]: a run-time panic for a negative length. [None]: the
    slice is made. *)
Definition makeslice (env : Env) (n : Z) : option string :=
  if n <? 0 then Some "runtime error: makeslice: len out of range"
  else allocate env n.

(** What ends the relay before a byte is copied. Each of its two
    goroutines first takes a buffer from the pool, and the pool makes one
    with [make([]byte, cfg.BufferSize)] when it has none; [io.CopyBuffer]
    then panics on a buffer of length 0. *)
Definition relayPanic (env : Env) : option string :=
  match makeslice env (Config.BufferSize (cfg env)) with
  | Some msg => Some msg
  | None =>
      if Config.BufferSize (cfg env) =? 0 then
        Some "empty buffer in CopyBuffer"
      else None
  end.

(** [m.relay]: two goroutines copy the payload, one in each direction, and
    [relay] returns when both have ended. A panic in one of them is a panic
    in a goroutine of its own: it ends the process at once, and no deferred
    call of another goroutine is run. [Some msg] is that end, [None] a
    relay that returned. *)
Definition relay (env : Env) (c : Conn) : option string * Conn :=
  let c := emit Relay c in
  match relayPanic env with
  | None => (None, c)
  | Some msg => (Some msg, emit (Crash msg) c)
  end.

(** The selection step of [handleConnection]. *)
Definition selectConnection (env : Env) (index : Z)
  : result Wireguard.Connection :=
  if index =? 0 then
    Wireguard.GetRandomHealthyConnection (wgManager env) (nowNano env)
  else
    Wireguard.GetHealthyConnection (wgManager env) (index - 1).

(** [handleConnection] up to its deferred calls. The boolean tells whether
    the goroutine of the handler is still there to run them: it is when the
    handler returns and when the handler itself panics, it is not when the
    process was ended from a goroutine of the relay. *)
Definition serve (env : Env) (index : Z) (c : Conn) : bool * Conn :=
  match handleHandshake c with
  | (Ok _, c) =>
      match getTargetAddress c with
      | (Ok targetAddr, c) =>
          match selectConnection env index with
          | Ok wgConn =>
              let ok :=
                dialThroughInterface env (Wireguard.InterfaceName wgConn)
                                     targetAddr in
              let c :=
                emit (Dial (Wireguard.InterfaceName wgConn) targetAddr ok)
                     c in
              if ok then
                (* defer targetConn.Close() *)
                match sendConnectResponse repSuccess c with
                | (Ok _, c) =>
                    let c :=
                      emit (StatsCall (Stats.IncrementRequests
                                         (Wireguard.Index wgConn))) c in
                    match relay env c with
                    | (None, c) => (true, emit TargetClose c)
                    | (Some _, c) => (false, c)
                    end
                | (_, c) => (true, emit TargetClose c)
                end
              else (true, snd (sendConnectResponse repFailure c))
          | Err _ => (true, snd (sendConnectResponse repFailure c))
          | Panic p => (true, emit (Crash p) c)
          end
      | (_, c) => (true, c)
      end
  | (_, c) => (true, c)
  end.

(** [handleConnection]: [defer clientConn.Close()] comes first and so runs
    last. *)
Definition handleConnection (env : Env) (index : Z) (c : Conn) : Conn :=
  match serve env index c with
  | (true, c) => emit ClientClose c
  | (false, c) => c
  end.

(** The payloads written, or tried to be written, to the client. *)
Fixpoint clientWrites (tr : list Event) : list (list byte) :=
  match tr with
  | [] => []
  | ClientWrite data _ :: rest => data :: clientWrites rest
  | _ :: rest => clientWrites rest
  end.

(** Code that only reads: it writes nothing and does not panic. *)
Definition reads_only {A : Type} (x : IO A) : Prop :=
  forall c,
    trace (snd (x c)) = trace c
    /\ writable (snd (x c)) = writable c
    /\ (forall p, fst (x c) <> Panic p).

(** Whether a run-time panic is among the events. *)
Definition panicked (tr : list Event) : bool :=
  existsb (fun e => match e with Crash _ => true | _ => false end) tr.

(** [StartProxy] as far as its return value goes. [netListen addr] is what
    [net.Listen("tcp", addr)] gives the caller: [None] for a listener, the
    text of the error otherwise. With a listener the accept loop runs until
    the context is cancelled and [StartProxy] then returns [nil]. *)
Definition StartProxy (netListen : string -> option string) (index port : Z)
  : option string :=
  let addr := "0.0.0.0:" ++ fmt_d port in
  match netListen addr with
  | Some err => Some ("failed to listen on " ++ addr ++ ": " ++ err)
  | None => None
  end.

End Proxy.

(** ** internal/webserver: the start of the dashboard *)

Module Webserver.

(** [Start]: the error of [http.ListenAndServe], which is the error of
    [net.Listen] on [0.0.0.0:port] when the address cannot be listened on.
    [None]: the server is serving. *)
Definition Start (netListen : string -> option string) (port : Z)
  : option string :=
  netListen ("0.0.0.0:" ++ fmt_d port).

End Webserver.

(** ** main.go *)

Module Main.

(** How the process ends. [Waiting] is a process that blocks on the signal
    channel for ever. *)
Inductive Outcome : Type :=
| Exit (code : Z)
| Waiting.

(** A client connection that a proxy accepted and whose handler ran before
    the process ended: the index of the proxy, what the handler found
    around it (the tunnels at that time, the clock, the network behind the
    tunnels, the allocator), the bytes the client sent and the number of
    writes it took. *)
Record Client : Type := {
  proxy : Z;
  tunnels : Wireguard.Manager;
  clock : Z;
  dial : string -> string -> bool;
  memory : Z -> option string;
  sent : list byte;
  taken : nat
}.

(** The world around the process. [listen k] is [net.Listen] as the
    goroutine of the proxy of index [k] finds it, [listenWeb] as the web
    server does; [signal] tells whether an interrupt comes. *)
Record Env : Type := {
  readConfig : result Config.Config;
  host : Wireguard.Host;
  probe : Wireguard.Connection -> Wireguard.ProbeOutcome;
  listen : Z -> string -> option string;
  listenWeb : string -> option string;
  clients : list Client;
  signal : bool
}.

(** What a process that got through its startup has logged and opened: the
    warnings of [Initialize], the errors of the proxies that could not
    listen, the ports asked for by the proxies that listen (asking for port
    0 is asking for any free port), and the error of the web server if it
    could not listen. *)
Record Startup : Type := {
  initWarnings : list string;
  proxyErrors : list string;
  listening : list Z;
  webError : option string
}.

(** A run of the process: ended during startup with an exit code, or
    started, with the way it ends. *)
Inductive Run : Type :=
| Ended (code : Z)
| Started (s : Startup) (o : Outcome).

Definition outcome (r : Run) : Outcome :=
  match r with
  | Ended code => Exit code
  | Started _ o => o
  end.

(** The loop that starts the proxies: index and port of each. *)
Definition proxies (cfg : Config.Config) : list (Z * Z) :=
  map (fun i => (Z.of_nat i, Config.BasePort (Config.Proxy cfg) + Z.of_nat i))
      (seq 0 (List.length (Config.Connections (Config.WireGuard cfg)) + 1)).

(** The proxy manager as the handler of a client finds it. *)
Definition handlerEnv (cfg : Config.Config) (cl : Client) : Proxy.Env :=
  {| Proxy.cfg := Config.Proxy cfg;
     Proxy.wgManager := tunnels cl;
     Proxy.nowNano := clock cl;
     Proxy.dialThroughInterface := dial cl;
     Proxy.allocate := memory cl |}.

(** What the handler of a client did. *)
Definition handled (cfg : Config.Config) (cl : Client) : list Proxy.Event :=
  Proxy.trace
    (Proxy.handleConnection (handlerEnv cfg cl) (proxy cl)
       {| Proxy.unread := sent cl; Proxy.writable := taken cl;
          Proxy.trace := [] |}).

(** Whether the proxy of a client is one that [main] started and that
    listens. *)
Definition accepted (env : Env) (cfg : Config.Config) (cl : Client) : bool :=
  existsb (fun ip =>
             (fst ip =? proxy cl)
             && match Proxy.StartProxy (listen env (fst ip)) (fst ip) (snd ip)
                with
                | None => true
                | Some _ => false
                end)
          (proxies cfg).

(** Whether the handler of some client ran into a run-time panic. *)
Definition handlerPanics (env : Env) (cfg : Config.Config) : bool :=
  existsb (fun cl => accepted env cfg cl && Proxy.panicked (handled cfg cl))
          (clients env).

(** [main]. [log.Fatalf] ends the process with code 1, a run-time panic in
    any goroutine with code 2. The goroutine of the prober is started
    first and panics, if it does, in its first statement: the process then
    ends whatever else has been started. Once the startup is over, the
    process ends with code 0 after a signal, unless a handler has ended it
    before. *)
Definition main (env : Env) : Run :=
  match Config.Load (readConfig env) with
  | Err e =>
      (* log.Fatalf *)
      Ended 1
  | Panic p => Ended 2
  | Ok cfg =>
      let wgManager := Wireguard.NewManager (Config.WireGuard cfg) in
      match Wireguard.Initialize (host env) (probe env) wgManager with
      | (_, _, Some e) =>
          (* log.Fatalf *)
          Ended 1
      | (wgManager, report, None) =>
          match Wireguard.StartHealthChecks wgManager with
          | Some p => Ended 2
          | None =>
              let started :=
                map (fun ip =>
                       (snd ip,
                        Proxy.StartProxy (listen env (fst ip)) (fst ip)
                                         (snd ip)))
                    (proxies cfg) in
              Started
                {| initWarnings := Wireguard.warnings report;
                   proxyErrors :=
                     flat_map (fun pr => match snd pr with
                                         | Some e => [e]
                                         | None => []
                                         end) started;
                   listening :=
                     flat_map (fun pr => match snd pr with
                                         | Some _ => []
                                         | None => [fst pr]
                                         end) started;
                   webError :=
                     Webserver.Start (listenWeb env)
                                     (Config.Port (Config.WebServer cfg)) |}
                (if handlerPanics env cfg then Exit 2
                 else if signal env then Exit 0
                 else Waiting)
          end
      end
  end.

End Main.

(** ** Notions of the specification *)

Module Spec.

(** "The canonical textual form of the 16 address bytes": the text RFC 5952
    prescribes for an IPv6 address, eight hexadecimal groups in lower case
    without leading zeros, the longest run of two or more zero groups
    (the first of them when several are as long) written [::]. *)
Definition canonicalIPv6 (ip : list byte) : string := GoNet.string6 ip.

(** The other text RFC 5952 allows for an IPv4-mapped address: the last
    four bytes in dotted decimal after [::ffff:]. *)
Definition mixedIPv6 (ip : list byte) : string :=
  "::ffff:" ++ GoNet.string4 (nth 12 ip x00) (nth 13 ip x00)
                             (nth 14 ip x00) (nth 15 ip x00).

(** *** The wg-quick file, line by line *)

(** What a line is, looked at on its own. *)
Inductive LineKind : Type :=
| InterfaceHeader
| OtherHeader
| CommentOrBlank
| Setting (key value : string)
| Other.

Definition classify (line : string) : LineKind :=
  let t := GoStrings.TrimSpace line in
  if String.eqb t "[Interface]" then InterfaceHeader
  else if GoStrings.HasPrefix t "[" then OtherHeader
  else if String.eqb t "" || GoStrings.HasPrefix t "#"
          || GoStrings.HasPrefix t ";" then CommentOrBlank
  else
    match GoStrings.cut t "="%char with
    | Some (key, value) =>
        Setting (GoStrings.TrimSpace key) (GoStrings.TrimSpace value)
    | None => Other
    end.

(** The section a line belongs to: a header opens its section, any other
    line stays in the section of the line before. *)
Definition sectionOf (inside : bool) (line : string) : bool :=
  match classify line with
  | InterfaceHeader => true
  | OtherHeader => false
  | _ => inside
  end.

(** Each line with the answer to: is it inside the [Interface] section? *)
Fixpoint sections (inside : bool) (lines : list string)
  : list (bool * string) :=
  match lines with
  | [] => []
  | line :: rest =>
      (sectionOf inside line, line) :: sections (sectionOf inside line) rest
  end.

(** The keys of wg-quick that wg does not know. *)
Definition wgQuickOnly (key : string) : bool :=
  existsb (String.eqb key)
    ["Address"; "DNS"; "MTU"; "Table"; "PreUp"; "PostUp"; "PreDown";
     "PostDown"; "SaveConfig"].

(** Split on [,], trim, keep what is not empty, in order. *)
Definition tokens (value : string) : list string :=
  List.filter (fun a => negb (String.eqb a ""))
              (map GoStrings.TrimSpace (GoStrings.Split value ","%char)).

(** The Address tokens of a line: those of an Address setting inside
    [Interface]. *)
Definition addressesOf (l : bool * string) : list string :=
  match classify (snd l) with
  | Setting key value =>
      if fst l && String.eqb key "Address" then tokens value else []
  | _ => []
  end.

(** A line is dropped when it sets a wg-quick-only key inside
    [Interface]. *)
Definition dropped (l : bool * string) : bool :=
  match classify (snd l) with
  | Setting key _ => fst l && wgQuickOnly key
  | _ => false
  end.

(** The lines as they are, each with its line feed. *)
Definition joinLines (lines : list string) : string :=
  fold_right (fun line text => line ++ GoStrings.LF ++ text) "" lines.

Definition fileLines (data : string) : list (bool * string) :=
  sections false (GoStrings.Split data "010"%char).

Definition addressTokens (data : string) : list string :=
  flat_map addressesOf (fileLines data).

Definition filteredConfig (data : string) : string :=
  joinLines
    (map snd (List.filter (fun l => negb (dropped l)) (fileLines data))).

End Spec.

(** ** Sample values the statements below are tried on *)

Module Examples.

Definition tunnelA : Config.ConnectionConfig :=
  {| Config.cc_Name := "A"; Config.cc_InterfaceName := "wg0";
     Config.cc_ConfigPath := "/etc/wireguard/wg0.conf" |}.

Definition tunnelB : Config.ConnectionConfig :=
  {| Config.cc_Name := "B"; Config.cc_InterfaceName := "wg1";
     Config.cc_ConfigPath := "/etc/wireguard/wg1.conf" |}.

Definition wgConfig : Config.WireGuardConfig :=
  {| Config.Connections := [tunnelA; tunnelB];
     Config.HealthCheckURL := "";
     Config.HealthCheckInterval := 30;
     Config.FailureThreshold := 3 |}.

Definition config : Config.Config :=
  {| Config.WireGuard := wgConfig;
     Config.Proxy :=
       {| Config.BasePort := 9930; Config.ReadTimeout := 30;
          Config.WriteTimeout := 30; Config.FailureHTTPCode := 580;
          Config.BufferSize := 32768 |};
     Config.WebServer := {| Config.Port := 9929 |} |}.

(** The manager at start: both tunnels unhealthy. *)
Definition manager : Wireguard.Manager := Wireguard.NewManager wgConfig.

Definition ok200 : Wireguard.ProbeOutcome := Wireguard.ProbeResponse 200 7.
Definition timedOut : Wireguard.ProbeOutcome :=
  Wireguard.ProbeTransportError "context deadline exceeded".

(** After a round in which A answers and B does not: A healthy. *)
Definition managerA : Wireguard.Manager :=
  fst (Wireguard.healthCheckRound
         (fun c => if Wireguard.Index c =? 0 then ok200 else timedOut)
         (fun _ => 1700000000) manager).

(** After a round in which both answer. *)
Definition managerAB : Wireguard.Manager :=
  fst (Wireguard.healthCheckRound (fun _ => ok200) (fun _ => 1700000000)
                                  manager).

Definition connA : Wireguard.Connection :=
  {| Wireguard.Index := 0; Wireguard.Name := "A";
     Wireguard.InterfaceName := "wg0";
     Wireguard.ConfigPath := "/etc/wireguard/wg0.conf";
     Wireguard.healthy := true; Wireguard.failureCount := 0;
     Wireguard.lastCheck := 1700000000 |}.

Definition connB : Wireguard.Connection :=
  {| Wireguard.Index := 1; Wireguard.Name := "B";
     Wireguard.InterfaceName := "wg1";
     Wireguard.ConfigPath := "/etc/wireguard/wg1.conf";
     Wireguard.healthy := false; Wireguard.failureCount := 1;
     Wireguard.lastCheck := 1700000000 |}.

Definition fourFailures : list (option string * Z) :=
  [(Some "timeout", 1700000030); (Some "timeout", 1700000060);
   (Some "reset", 1700000090); (Some "timeout", 1700000120)].

Definition twoSuccesses : list (option string * Z) :=
  [(None, 1700000030); (None, 1700000060)].

(** A host on which everything works. *)
Definition interfaceConf : string :=
  "[Interface]" ++ GoStrings.LF
  ++ "PrivateKey = kA=" ++ GoStrings.LF
  ++ "Address = 10.0.0.2/32, fd00::2/128" ++ GoStrings.LF
  ++ "DNS = 1.1.1.1" ++ GoStrings.LF
  ++ GoStrings.LF
  ++ "[Peer]" ++ GoStrings.LF
  ++ "PublicKey = kB=" ++ GoStrings.LF
  ++ "AllowedIPs = 0.0.0.0/0" ++ GoStrings.LF.

Definition goodHost : Wireguard.Host :=
  {| Wireguard.Stat := fun _ => Ok 384;
     Wireguard.ReadFile := fun _ => Ok interfaceConf;
     Wireguard.CreateTemp := Ok "/tmp/wg-1.conf";
     Wireguard.WriteString := fun _ _ => None;
     Wireguard.Run := fun _ => None |}.

(** A host without the configuration files of the tunnels. *)
Definition badHost : Wireguard.Host :=
  {| Wireguard.Stat := fun _ => Err "no such file or directory";
     Wireguard.ReadFile := fun _ => Err "no such file or directory";
     Wireguard.CreateTemp := Ok "/tmp/wg-1.conf";
     Wireguard.WriteString := fun _ _ => None;
     Wireguard.Run := fun _ => None |}.

(** Every tunnel fails to come up, no port can be bound, and the operator
    then stops the process. *)
Definition failingStart : Main.Env :=
  {| Main.readConfig := Ok config;
     Main.host := badHost;
     Main.probe := fun _ => timedOut;
     Main.listen := fun _ _ => Some "bind: address already in use";
     Main.listenWeb := fun _ => Some "bind: address already in use";
     Main.clients := [];
     Main.signal := true |}.

Definition goodStart : Main.Env :=
  {| Main.readConfig := Ok config;
     Main.host := goodHost;
     Main.probe := fun _ => ok200;
     Main.listen := fun _ _ => None;
     Main.listenWeb := fun _ => None;
     Main.clients := [];
     Main.signal := true |}.

Definition noConfig : Main.Env :=
  {| Main.readConfig := Err "reading config file: no such file";
     Main.host := goodHost;
     Main.probe := fun _ => ok200;
     Main.listen := fun _ _ => None;
     Main.listenWeb := fun _ => None;
     Main.clients := [];
     Main.signal := false |}.

Definition proxyEnv (m : Wireguard.Manager) : Proxy.Env :=
  {| Proxy.cfg := Config.Proxy config;
     Proxy.wgManager := m;
     Proxy.nowNano := 1700000000123456789;
     Proxy.dialThroughInterface := fun _ _ => true;
     Proxy.allocate := fun _ => None |}.

Definition client (bs : list byte) : Proxy.Conn :=
  {| Proxy.unread := bs; Proxy.writable := 2; Proxy.trace := [] |}.

Definition greeting : list byte := [x05; x01; x00].

(** CONNECT 93.184.216.34:443 *)
Definition connectIPv4 : list byte :=
  [x05; x01; x00; x01; x5d; xb8; xd8; x22; x01; xbb].

(** CONNECT ab:80 *)
Definition connectDomain : list byte :=
  [x05; x01; x00; x03; x02; x61; x62; x00; x50].

(** 2001:db8::1 *)
Definition ip6 : list byte :=
  [x20; x01; x0d; xb8; x00; x00; x00; x00; x00; x00; x00; x00; x00; x00;
   x00; x01].

(** ::ffff:1.2.3.4 *)
Definition ip4in6 : list byte :=
  [x00; x00; x00; x00; x00; x00; x00; x00; x00; x00; xff; xff; x01; x02;
   x03; x04].

Definition connectIPv6 (ip : list byte) : list byte :=
  ([x05; x01; x00; x04] ++ ip ++ [x01; xbb])%list.

End Examples.

(** ** internal/stats: the tracker *)

Module Tracker.

Definition int64 (z : Z) : Z := wrap_signed 64 z.

Definition max_int64 : Z := 2 ^ 63 - 1.

Record ConnectionStats : Type := {
  RequestCount : Z;    (* atomic.Int64 *)
  IsHealthy : bool;
  LatencySum : Z;      (* atomic.Int64, nanoseconds *)
  LatencyCount : Z;    (* atomic.Int64 *)
  LastCheckTime : Z    (* atomic.Int64, unix seconds *)
}.

Record Tracker : Type := {
  totalRequests : Z;   (* atomic.Int64 *)
  connections : list ConnectionStats;
  startTime : Z
}.

Definition zeroStats : ConnectionStats :=
  {| RequestCount := 0; IsHealthy := false; LatencySum := 0;
     LatencyCount := 0; LastCheckTime := 0 |}.

(** [NewTracker]: [make] panics on a negative length. [now] is the clock
    read for [startTime]. *)
Definition NewTracker (numConnections : Z) (now : Z) : result Tracker :=
  if numConnections <? 0 then Panic "makeslice: len out of range"
  else
    Ok {| totalRequests := 0;
          connections := repeat zeroStats (Z.to_nat numConnections);
          startTime := now |}.

(** The test every method makes on its index. *)
Definition inRange (t : Tracker) (connectionIndex : Z) : bool :=
  (connectionIndex >=? 0)
  && (connectionIndex <? Z.of_nat (List.length (connections t))).

(** [l[i] = f(l[i])] for [i] below the length. *)
Fixpoint alter {A : Type} (f : A -> A) (i : nat) (l : list A) : list A :=
  match l, i with
  | [], _ => []
  | x :: rest, O => f x :: rest
  | x :: rest, S j => x :: alter f j rest
  end.

Definition at_index (t : Tracker) (connectionIndex : Z) : ConnectionStats :=
  nth (Z.to_nat connectionIndex) (connections t) zeroStats.

Definition set_connections (l : list ConnectionStats) (t : Tracker)
  : Tracker :=
  {| totalRequests := totalRequests t; connections := l;
     startTime := startTime t |}.

Definition IncrementRequests (t : Tracker) (connectionIndex : Z) : Tracker :=
  let t :=
    {| totalRequests := int64 (totalRequests t + 1);
       connections := connections t; startTime := startTime t |} in
  if inRange t connectionIndex then
    set_connections
      (alter (fun c =>
                {| RequestCount := int64 (RequestCount c + 1);
                   IsHealthy := IsHealthy c; LatencySum := LatencySum c;
                   LatencyCount := LatencyCount c;
                   LastCheckTime := LastCheckTime c |})
             (Z.to_nat connectionIndex) (connections t)) t
  else t.

(** [now] is the [time.Now().Unix()] the method reads. *)
Definition SetConnectionHealth (t : Tracker) (connectionIndex : Z)
           (healthy : bool) (now : Z) : Tracker :=
  if inRange t connectionIndex then
    set_connections
      (alter (fun c =>
                {| RequestCount := RequestCount c;
                   IsHealthy := healthy; LatencySum := LatencySum c;
                   LatencyCount := LatencyCount c;
                   LastCheckTime := now |})
             (Z.to_nat connectionIndex) (connections t)) t
  else t.

Definition RecordLatency (t : Tracker) (connectionIndex : Z) (latency : Z)
  : Tracker :=
  if inRange t connectionIndex then
    set_connections
      (alter (fun c =>
                {| RequestCount := RequestCount c;
                   IsHealthy := IsHealthy c;
                   LatencySum := int64 (LatencySum c + int64 latency);
                   LatencyCount := int64 (LatencyCount c + 1);
                   LastCheckTime := LastCheckTime c |})
             (Z.to_nat connectionIndex) (connections t)) t
  else t.

Definition GetTotalRequests (t : Tracker) : Z := totalRequests t.

Definition GetConnectionRequests (t : Tracker) (connectionIndex : Z) : Z :=
  if inRange t connectionIndex then RequestCount (at_index t connectionIndex)
  else 0.

Definition IsConnectionHealthy (t : Tracker) (connectionIndex : Z) : bool :=
  if inRange t connectionIndex then IsHealthy (at_index t connectionIndex)
  else false.

(** Go's [/] on [int64] truncates toward zero ([Z.quot]). *)
Definition GetAverageLatency (t : Tracker) (connectionIndex : Z) : Z :=
  if inRange t connectionIndex then
    let sum := LatencySum (at_index t connectionIndex) in
    let count := LatencyCount (at_index t connectionIndex) in
    if count =? 0 then 0 else int64 (Z.quot sum count)
  else 0.

(** [None] is the zero [time.Time], [Some s] is [time.Unix(s, 0)]. *)
Definition GetLastCheckTime (t : Tracker) (connectionIndex : Z) : option Z :=
  if inRange t connectionIndex then
    let timestamp := LastCheckTime (at_index t connectionIndex) in
    if timestamp =? 0 then None else Some timestamp
  else None.

Definition GetNumConnections (t : Tracker) : Z :=
  Z.of_nat (List.length (connections t)).

(** The tracker after one of the calls the core makes; [now] is the clock
    [SetConnectionHealth] reads. *)
Definition apply (now : Z) (t : Tracker) (c : Stats.Call) : Tracker :=
  match c with
  | Stats.IncrementRequests i => IncrementRequests t i
  | Stats.SetConnectionHealth i h => SetConnectionHealth t i h now
  | Stats.RecordLatency i latency => RecordLatency t i latency
  end.

Definition applyCalls (now : Z) (t : Tracker) (calls : list Stats.Call)
  : Tracker :=
  fold_left (apply now) calls t.

(** The requests counted so far, one index per call of
    [IncrementRequests]. *)
Definition countRequests (t : Tracker) (indexes : list Z) : Tracker :=
  fold_left IncrementRequests indexes t.

Definition sumZ (l : list Z) : Z := fold_right Z.add 0 l.

(** The latencies recorded so far for the tunnel [i]. *)
Definition recordLatencies (t : Tracker) (i : Z) (latencies : list Z)
  : Tracker :=
  fold_left (fun t l => RecordLatency t i l) latencies t.

End Tracker.

(** ** The prober together with the tracker *)

Module System.

(** The tracker after the [performHealthCheck] of one tunnel: the calls it
    makes, [SetConnectionHealth] reading the clock [nowT]. *)
Definition trackProbe (m : Wireguard.Manager) (o : Wireguard.ProbeOutcome)
           (now nowT : Z) (t : Tracker.Tracker) (conn : Wireguard.Connection)
  : Tracker.Tracker :=
  Tracker.applyCalls nowT t (snd (Wireguard.performHealthCheck m conn o now)).

End System.

(** ** The goroutines of the prober and of the handlers *)

Module Goroutines.

(** The atomic operations on the fields of the tracker. *)
Inductive StatOp : Type :=
| TotalRequestsAdd
| RequestCountAdd (i : Z)
| IsHealthyStore (i : Z) (h : bool)
| LastCheckTimeStore (i : Z) (now : Z)
| LatencySumAdd (i : Z) (latency : Z)
| LatencyCountAdd (i : Z).

(** What a goroutine has left to do on its tunnel and on the tracker, one
    atomic operation after the other; the continuation takes what the
    operation returns. [Now] is [time.Now().Unix()], [InRange] the test
    [connectionIndex >= 0 && connectionIndex < len(t.connections)]. *)
Inductive Prog : Type :=
| Done
| Now (k : Z -> Prog)
| LastCheckStore (v : Z) (k : Prog)
| FailureCountAdd (delta : Z) (k : Z -> Prog)
| FailureCountStore (v : Z) (k : Prog)
| HealthyLoad (k : bool -> Prog)
| HealthyStore (h : bool) (k : Prog)
| InRange (i : Z) (k : bool -> Prog)
| Stat (op : StatOp) (k : Prog).

(** *** The methods of the tracker *)

Definition IncrementRequests (connectionIndex : Z) (k : Prog) : Prog :=
  Stat TotalRequestsAdd
    (InRange connectionIndex
       (fun ok =>
          if ok then Stat (RequestCountAdd connectionIndex) k else k)).

Definition SetConnectionHealth (connectionIndex : Z) (healthy : bool)
           (k : Prog) : Prog :=
  InRange connectionIndex
    (fun ok =>
       if ok then
         Stat (IsHealthyStore connectionIndex healthy)
           (Now (fun now => Stat (LastCheckTimeStore connectionIndex now) k))
       else k).

Definition RecordLatency (connectionIndex : Z) (latency : Z) (k : Prog)
  : Prog :=
  InRange connectionIndex
    (fun ok =>
       if ok then
         Stat (LatencySumAdd connectionIndex latency)
           (Stat (LatencyCountAdd connectionIndex) k)
       else k).

(** *** The prober *)

(** [checkHealth], the request through the tunnel having observed [o]. *)
Definition checkHealth (conn : Wireguard.Connection)
           (o : Wireguard.ProbeOutcome) (k : option string -> Prog) : Prog :=
  match o with
  | Wireguard.ProbeTransportError e => k (Some e)
  | Wireguard.ProbeResponse code latency =>
      if code =? 200 then
        RecordLatency (Wireguard.Index conn) latency (k None)
      else k (Some ("unexpected status code: " ++ fmt_d code))
  end.

Definition performHealthCheck (m : Wireguard.Manager)
           (conn : Wireguard.Connection) (o : Wireguard.ProbeOutcome)
  : Prog :=
  checkHealth conn o (fun err =>
  Now (fun now =>
  LastCheckStore now
    match err with
    | Some _ =>
        FailureCountAdd 1 (fun failures =>
          if failures >=? int32 (Wireguard.failureThreshold m) then
            HealthyLoad (fun h =>
              if h then
                HealthyStore false
                  (SetConnectionHealth (Wireguard.Index conn) false Done)
              else Done)
          else Done)
    | None =>
        FailureCountStore 0
          (HealthyLoad (fun h =>
             if negb h then
               HealthyStore true
                 (SetConnectionHealth (Wireguard.Index conn) true Done)
             else Done))
    end)).

(** *** One operation on the shared state *)

Definition update (f : Tracker.ConnectionStats -> Tracker.ConnectionStats)
           (i : Z) (t : Tracker.Tracker) : Tracker.Tracker :=
  if Tracker.inRange t i then
    Tracker.set_connections
      (Tracker.alter f (Z.to_nat i) (Tracker.connections t)) t
  else t.

(** The operations on an entry are reached only behind [InRange]; outside
    the range nothing is done here. *)
Definition statOp (op : StatOp) (t : Tracker.Tracker) : Tracker.Tracker :=
  match op with
  | TotalRequestsAdd =>
      {| Tracker.totalRequests :=
           Tracker.int64 (Tracker.totalRequests t + 1);
         Tracker.connections := Tracker.connections t;
         Tracker.startTime := Tracker.startTime t |}
  | RequestCountAdd i =>
      update (fun c =>
                {| Tracker.RequestCount :=
                     Tracker.int64 (Tracker.RequestCount c + 1);
                   Tracker.IsHealthy := Tracker.IsHealthy c;
                   Tracker.LatencySum := Tracker.LatencySum c;
                   Tracker.LatencyCount := Tracker.LatencyCount c;
                   Tracker.LastCheckTime := Tracker.LastCheckTime c |}) i t
  | IsHealthyStore i h =>
      update (fun c =>
                {| Tracker.RequestCount := Tracker.RequestCount c;
                   Tracker.IsHealthy := h;
                   Tracker.LatencySum := Tracker.LatencySum c;
                   Tracker.LatencyCount := Tracker.LatencyCount c;
                   Tracker.LastCheckTime := Tracker.LastCheckTime c |}) i t
  | LastCheckTimeStore i now =>
      update (fun c =>
                {| Tracker.RequestCount := Tracker.RequestCount c;
                   Tracker.IsHealthy := Tracker.IsHealthy c;
                   Tracker.LatencySum := Tracker.LatencySum c;
                   Tracker.LatencyCount := Tracker.LatencyCount c;
                   Tracker.LastCheckTime := now |}) i t
  | LatencySumAdd i latency =>
      update (fun c =>
                {| Tracker.RequestCount := Tracker.RequestCount c;
                   Tracker.IsHealthy := Tracker.IsHealthy c;
                   Tracker.LatencySum :=
                     Tracker.int64 (Tracker.LatencySum c
                                    + Tracker.int64 latency);
                   Tracker.LatencyCount := Tracker.LatencyCount c;
                   Tracker.LastCheckTime := Tracker.LastCheckTime c |}) i t
  | LatencyCountAdd i =>
      update (fun c =>
                {| Tracker.RequestCount := Tracker.RequestCount c;
                   Tracker.IsHealthy := Tracker.IsHealthy c;
                   Tracker.LatencySum := Tracker.LatencySum c;
                   Tracker.LatencyCount :=
                     Tracker.int64 (Tracker.LatencyCount c + 1);
                   Tracker.LastCheckTime := Tracker.LastCheckTime c |}) i t
  end.

(** The next operation of a goroutine whose tunnel is the one at position
    [i] of the manager; [now] is the clock if the operation reads it. *)
Definition step (now : Z) (i : nat) (p : Prog)
           (cs : list Wireguard.Connection) (t : Tracker.Tracker)
  : Prog * list Wireguard.Connection * Tracker.Tracker :=
  match p with
  | Done => (Done, cs, t)
  | Now k => (k now, cs, t)
  | LastCheckStore v k =>
      (k, Tracker.alter (Wireguard.set_lastCheck v) i cs, t)
  | FailureCountAdd delta k =>
      match nth_error cs i with
      | Some conn =>
          let v := int32 (Wireguard.failureCount conn + delta) in
          (k v, Tracker.alter (Wireguard.set_failureCount v) i cs, t)
      | None => (Done, cs, t)
      end
  | FailureCountStore v k =>
      (k, Tracker.alter (Wireguard.set_failureCount v) i cs, t)
  | HealthyLoad k =>
      match nth_error cs i with
      | Some conn => (k (Wireguard.healthy conn), cs, t)
      | None => (Done, cs, t)
      end
  | HealthyStore h k => (k, Tracker.alter (Wireguard.set_healthy h) i cs, t)
  | InRange j k => (k (Tracker.inRange t j), cs, t)
  | Stat op k => (k, cs, statOp op t)
  end.

(** A goroutine run to its end with no other in between, the clock
    standing at [now]. *)
Fixpoint alone (now : Z) (i : nat) (p : Prog)
         (cs : list Wireguard.Connection) (t : Tracker.Tracker)
  : list Wireguard.Connection * Tracker.Tracker :=
  match p with
  | Done => (cs, t)
  | Now k => alone now i (k now) cs t
  | LastCheckStore v k =>
      alone now i k (Tracker.alter (Wireguard.set_lastCheck v) i cs) t
  | FailureCountAdd delta k =>
      match nth_error cs i with
      | Some conn =>
          let v := int32 (Wireguard.failureCount conn + delta) in
          alone now i (k v)
                (Tracker.alter (Wireguard.set_failureCount v) i cs) t
      | None => (cs, t)
      end
  | FailureCountStore v k =>
      alone now i k (Tracker.alter (Wireguard.set_failureCount v) i cs) t
  | HealthyLoad k =>
      match nth_error cs i with
      | Some conn => alone now i (k (Wireguard.healthy conn)) cs t
      | None => (cs, t)
      end
  | HealthyStore h k =>
      alone now i k (Tracker.alter (Wireguard.set_healthy h) i cs) t
  | InRange j k => alone now i (k (Tracker.inRange t j)) cs t
  | Stat op k => alone now i k cs (statOp op t)
  end.

(** *** The goroutines together *)

Inductive Kind : Type :=
| Prober    (* go m.performHealthCheck(conn), from StartHealthChecks *)
| Startup   (* m.checkHealth(conn), from Initialize *)
| Handler.  (* m.stats.IncrementRequests(wgConn.Index), from a handler *)

Record Goroutine : Type := {
  kind : Kind;
  tunnel : nat;
  prog : Prog
}.

Record State : Type := {
  conns : list Wireguard.Connection;
  stats : Tracker.Tracker;
  goroutines : list Goroutine
}.

Definition live (g : Goroutine) : bool :=
  match prog g with Done => false | _ => true end.

Definition probes (g : Goroutine) : bool :=
  match kind g with Prober => live g | _ => false end.

(** The tunnels a health check is under way on, one entry per check. *)
Definition probing (l : list Goroutine) : list nat :=
  map tunnel (List.filter probes l).

Definition spawn (g : Goroutine) (s : State) : State :=
  {| conns := conns s; stats := stats s;
     goroutines := (goroutines s ++ [g])%list |}.

(** What happens next: a goroutine is started, or the goroutine at
    position [j] makes its next operation. *)
Inductive Move : Type :=
| GoProbe (i : nat) (o : Wireguard.ProbeOutcome)
| GoStartup (i : nat) (o : Wireguard.ProbeOutcome)
| GoRequest (connectionIndex : Z)
| Next (j : nat) (now : Z).

Definition move (m : Wireguard.Manager) (mv : Move) (s : State) : State :=
  match mv with
  | GoProbe i o =>
      match nth_error (conns s) i with
      | Some conn =>
          spawn {| kind := Prober; tunnel := i;
                   prog := performHealthCheck m conn o |} s
      | None => s
      end
  | GoStartup i o =>
      match nth_error (conns s) i with
      | Some conn =>
          spawn {| kind := Startup; tunnel := i;
                   prog := checkHealth conn o (fun _ => Done) |} s
      | None => s
      end
  | GoRequest connectionIndex =>
      spawn {| kind := Handler; tunnel := 0;
               prog := IncrementRequests connectionIndex Done |} s
  | Next j now =>
      match nth_error (goroutines s) j with
      | Some g =>
          let '(p, cs, t) :=
            step now (tunnel g) (prog g) (conns s) (stats s) in
          {| conns := cs; stats := t;
             goroutines :=
               Tracker.alter
                 (fun _ => {| kind := kind g; tunnel := tunnel g; prog := p |})
                 j (goroutines s) |}
      | None => s
      end
  end.

Definition play (m : Wireguard.Manager) (mvs : list Move) (s : State)
  : State :=
  fold_left (fun s mv => move m mv s) mvs s.

(** The state [main] starts the goroutines on. *)
Definition start (c : Config.WireGuardConfig) (t : Tracker.Tracker) : State :=
  {| conns := Wireguard.connections (Wireguard.NewManager c);
     stats := t; goroutines := [] |}.

(** The states of a process in which the health checks of one tunnel do
    not overlap: a check of a tunnel has ended when the next one of that
    tunnel starts. Checks of different tunnels, the startup probes and the
    handlers interleave as they like. *)
Inductive runs (c : Config.WireGuardConfig) : State -> Prop :=
| runs_start : forall now t,
    Tracker.NewTracker (Z.of_nat (List.length (Config.Connections c))) now
    = Ok t ->
    runs c (start c t)
| runs_move : forall s mv,
    runs c s ->
    NoDup (probing (goroutines (move (Wireguard.NewManager c) mv s))) ->
    runs c (move (Wireguard.NewManager c) mv s).

(** What the goroutine has left to do brings the healthy flag of its
    tunnel, now [h], and the flag of the tracker for the index [i], now
    [th], to the same value, if no other goroutine writes them. *)
Fixpoint agree (i : Z) (p : Prog) (h th : bool) : Prop :=
  match p with
  | Done => h = th
  | Now k => forall v, agree i (k v) h th
  | LastCheckStore _ k => agree i k h th
  | FailureCountAdd _ k => forall v, agree i (k v) h th
  | FailureCountStore _ k => agree i k h th
  | HealthyLoad k => agree i (k h) h th
  | HealthyStore b k => agree i k b th
  | InRange j k => j = i /\ agree i (k true) h th
  | Stat (IsHealthyStore j b) k => j = i /\ agree i k h b
  | Stat _ k => agree i k h th
  end.

(** The goroutine writes neither the tunnels nor a health flag of the
    tracker. *)
Fixpoint harmless (p : Prog) : Prop :=
  match p with
  | Done => True
  | Now k => forall v, harmless (k v)
  | HealthyLoad k => forall b, harmless (k b)
  | InRange _ k => forall b, harmless (k b)
  | Stat (IsHealthyStore _ _) _ => False
  | Stat _ k => harmless k
  | _ => False
  end.

(** The health flag the tracker holds for the tunnel at position [i]. *)
Definition flagOf (t : Tracker.Tracker) (i : nat) : bool :=
  Tracker.IsHealthy (nth i (Tracker.connections t) Tracker.zeroStats).

(** What holds of every state of [runs] on [n] tunnels. *)
Definition settled (n : nat) (s : State) : Prop :=
  List.length (conns s) = n
  /\ List.length (Tracker.connections (stats s)) = n
  /\ Wireguard.well_indexed 0 (conns s)
  /\ (forall g,
         In g (goroutines s) ->
         match kind g with
         | Prober =>
             exists conn,
               nth_error (conns s) (tunnel g) = Some conn
               /\ (live g = true ->
                   agree (Z.of_nat (tunnel g)) (prog g)
                         (Wireguard.healthy conn)
                         (flagOf (stats s) (tunnel g)))
         | _ => harmless (prog g)
         end)
  /\ (forall i conn,
         nth_error (conns s) i = Some conn ->
         ~ In i (probing (goroutines s)) ->
         Wireguard.healthy conn = flagOf (stats s) i)
  /\ NoDup (probing (goroutines s)).

Fixpoint distinct (l : list nat) : bool :=
  match l with
  | [] => true
  | x :: rest => negb (existsb (Nat.eqb x) rest) && distinct rest
  end.

(** Whether no two health checks of one tunnel overlap in any state the
    moves go through. *)
Fixpoint orderly (m : Wireguard.Manager) (mvs : list Move) (s : State)
  : bool :=
  match mvs with
  | [] => true
  | mv :: rest =>
      distinct (probing (goroutines (move m mv s)))
      && orderly m rest (move m mv s)
  end.

End Goroutines.

(** ** Looking at what a handler did *)

Module Handling.

Definition isDial (e : Proxy.Event) : bool :=
  match e with Proxy.Dial _ _ _ => true | _ => false end.

Definition isDialOk (e : Proxy.Event) : bool :=
  match e with Proxy.Dial _ _ ok => ok | _ => false end.

Definition isTargetClose (e : Proxy.Event) : bool :=
  match e with Proxy.TargetClose => true | _ => false end.

Definition isClientClose (e : Proxy.Event) : bool :=
  match e with Proxy.ClientClose => true | _ => false end.

Definition isCounted (e : Proxy.Event) : bool :=
  match e with
  | Proxy.StatsCall (Stats.IncrementRequests _) => true
  | _ => false
  end.

Definition count (p : Proxy.Event -> bool) (tr : list Proxy.Event) : nat :=
  List.length (List.filter p tr).

(** The reply that reports success, written and taken by the client. *)
Definition served : Proxy.Event :=
  Proxy.ClientWrite (Proxy.connectResponse Proxy.repSuccess) true.

End Handling.

(** ** Code that leaves the rest of the input *)

Module Reading.

(** What is left unread after [x] is an end piece of what was unread. *)
Definition leaves_suffix {A : Type} (x : Proxy.IO A) : Prop :=
  forall c, exists consumed,
    Proxy.unread c = (consumed ++ Proxy.unread (snd (x c)))%list.

End Reading.

(** ** More sample values *)

Module Samples.

(** The tracker [main] builds for two tunnels. *)
Definition tracker : Tracker.Tracker :=
  {| Tracker.totalRequests := 0;
     Tracker.connections := [Tracker.zeroStats; Tracker.zeroStats];
     Tracker.startTime := 1700000000 |}.

(** A file whose header is in lower case. *)
Definition lowerCaseConf : string :=
  "[interface]" ++ GoStrings.LF
  ++ "Address = 10.0.0.2/32" ++ GoStrings.LF.

Definition lowerCaseHost : Wireguard.Host :=
  {| Wireguard.Stat := fun _ => Ok 384;
     Wireguard.ReadFile := fun _ => Ok lowerCaseConf;
     Wireguard.CreateTemp := Ok "/tmp/wg-1.conf";
     Wireguard.WriteString := fun _ _ => None;
     Wireguard.Run := fun _ => None |}.

(** A host whose file is what the parser made of [Examples.interfaceConf]. *)
Definition filteredHost : Wireguard.Host :=
  {| Wireguard.Stat := fun _ => Ok 384;
     Wireguard.ReadFile :=
       fun _ => Ok (Wireguard.wgConfig
                      (Wireguard.parseLines Examples.interfaceConf));
     Wireguard.CreateTemp := Ok "/tmp/wg-1.conf";
     Wireguard.WriteString := fun _ _ => None;
     Wireguard.Run := fun _ => None |}.

(** A file that sets the base port and the tunnels and nothing else. *)
Definition sparseConfig : Config.Config :=
  {| Config.WireGuard :=
       {| Config.Connections := Config.Connections Examples.wgConfig;
          Config.HealthCheckURL := "";
          Config.HealthCheckInterval := 0;
          Config.FailureThreshold := 0 |};
     Config.Proxy :=
       {| Config.BasePort := 1080; Config.ReadTimeout := 0;
          Config.WriteTimeout := 0; Config.FailureHTTPCode := 0;
          Config.BufferSize := 0 |};
     Config.WebServer := {| Config.Port := 0 |} |}.

(** A proxy whose buffer size is -1, tunnel A healthy. *)
Definition negativeBuffer : Proxy.Env :=
  {| Proxy.cfg :=
       {| Config.BasePort := 9930; Config.ReadTimeout := 30;
          Config.WriteTimeout := 30; Config.FailureHTTPCode := 580;
          Config.BufferSize := -1 |};
     Proxy.wgManager := Examples.managerA;
     Proxy.nowNano := 1700000000123456789;
     Proxy.dialThroughInterface := fun _ _ => true;
     Proxy.allocate := fun _ => None |}.

(** Only the port 9931 cannot be bound. *)
Definition onePortTaken : Main.Env :=
  {| Main.readConfig := Ok Examples.config;
     Main.host := Examples.goodHost;
     Main.probe := fun _ => Examples.ok200;
     Main.listen :=
       fun _ addr =>
         if String.eqb addr "0.0.0.0:9931"
         then Some "listen tcp 0.0.0.0:9931: bind: address already in use"
         else None;
     Main.listenWeb := fun _ => None;
     Main.clients := [];
     Main.signal := false |}.

(** The configuration of the examples with a health check every -5
    seconds. *)
Definition negativeInterval : Main.Env :=
  {| Main.readConfig :=
       Ok {| Config.WireGuard :=
               {| Config.Connections :=
                    Config.Connections Examples.wgConfig;
                  Config.HealthCheckURL :=
                    Config.HealthCheckURL Examples.wgConfig;
                  Config.HealthCheckInterval := -5;
                  Config.FailureThreshold := 3 |};
             Config.Proxy := Config.Proxy Examples.config;
             Config.WebServer := Config.WebServer Examples.config |};
     Main.host := Examples.goodHost;
     Main.probe := fun _ => Examples.ok200;
     Main.listen := fun _ _ => None;
     Main.listenWeb := fun _ => None;
     Main.clients := [];
     Main.signal := true |}.

(** Two health checks, of tunnel A which answers and of tunnel B which does
    not, their operations taking turns. *)
Definition interleaved : list Goroutines.Move :=
  [Goroutines.GoProbe 0 Examples.ok200;
   Goroutines.GoProbe 1 Examples.timedOut;
   Goroutines.Next 0 1700000030; Goroutines.Next 1 1700000030;
   Goroutines.Next 0 1700000030; Goroutines.Next 1 1700000030;
   Goroutines.Next 0 1700000030; Goroutines.GoRequest 0;
   Goroutines.Next 1 1700000031; Goroutines.Next 2 1700000031;
   Goroutines.Next 0 1700000031; Goroutines.Next 0 1700000031;
   Goroutines.Next 2 1700000031; Goroutines.Next 0 1700000031;
   Goroutines.Next 0 1700000031; Goroutines.Next 2 1700000031;
   Goroutines.Next 0 1700000031; Goroutines.Next 0 1700000031;
   Goroutines.Next 0 1700000032; Goroutines.Next 0 1700000032;
   Goroutines.Next 0 1700000032].

(** Tunnel A fails twice; then a probe that answers (goroutine 2) and one
    that does not (goroutine 3) run at once. *)
Definition overlapping : list Goroutines.Move :=
  [Goroutines.GoProbe 0 Examples.timedOut;
   Goroutines.Next 0 1700000030; Goroutines.Next 0 1700000030;
   Goroutines.Next 0 1700000030;
   Goroutines.GoProbe 0 Examples.timedOut;
   Goroutines.Next 1 1700000060; Goroutines.Next 1 1700000060;
   Goroutines.Next 1 1700000060;
   Goroutines.GoProbe 0 Examples.ok200;
   Goroutines.GoProbe 0 Examples.timedOut;
   (* the failing probe counts its failure: 3 *)
   Goroutines.Next 3 1700000090; Goroutines.Next 3 1700000090;
   Goroutines.Next 3 1700000090;
   (* the probe that answers, up to the store of healthy *)
   Goroutines.Next 2 1700000090; Goroutines.Next 2 1700000090;
   Goroutines.Next 2 1700000090; Goroutines.Next 2 1700000090;
   Goroutines.Next 2 1700000090; Goroutines.Next 2 1700000090;
   Goroutines.Next 2 1700000090; Goroutines.Next 2 1700000090;
   (* the failing probe loads healthy, stores unhealthy, tells the tracker *)
   Goroutines.Next 3 1700000090; Goroutines.Next 3 1700000090;
   Goroutines.Next 3 1700000090; Goroutines.Next 3 1700000090;
   Goroutines.Next 3 1700000090; Goroutines.Next 3 1700000090;
   (* the probe that answers tells the tracker *)
   Goroutines.Next 2 1700000091; Goroutines.Next 2 1700000091;
   Goroutines.Next 2 1700000091; Goroutines.Next 2 1700000091].

End Samples.

(** * Properties *)

Import GoStrings Wireguard.

(** ** Fixed-width integers *)

Lemma int32_small (z : Z) : min_int32 <= z <= max_int32 -> int32 z = z.
Proof.
  unfold int32, wrap_signed, min_int32, max_int32.
  change (2 ^ (32 - 1)) with 2147483648.
  change (2 ^ 32) with 4294967296.
  change (2 ^ 31) with 2147483648.
  intros H. rewrite Z.mod_small; lia.
Qed.

Lemma int32_overflow : int32 (max_int32 + 1) = min_int32.
Proof. reflexivity. Qed.

(** ** The health state machine *)

Section HealthStep.

Variable m : Manager.

Lemma performHealthCheck_recordOutcome conn o now :
  fst (performHealthCheck m conn o now)
  = fst (recordOutcome m conn (fst (checkHealth conn o)) now).
Proof.
  unfold performHealthCheck.
  destruct (checkHealth conn o) as [err calls]; simpl.
  destruct (recordOutcome m conn err now); reflexivity.
Qed.

Lemma checkHealth_success conn o :
  fst (checkHealth conn o) = None
  <-> exists latency, o = ProbeResponse 200 latency.
Proof.
  destruct o as [code latency | e]; simpl.
  - destruct (code =? 200) eqn:E; simpl.
    + apply Z.eqb_eq in E; subst. split; eauto.
    + split; [discriminate |].
      intros [l H]. inversion H; subst. discriminate.
  - split; [discriminate | intros [l H]; discriminate].
Qed.

Lemma success_step conn now :
  let conn' := fst (recordOutcome m conn None now) in
  failureCount conn' = 0 /\ healthy conn' = true /\ lastCheck conn' = now.
Proof.
  unfold recordOutcome; simpl.
  destruct (healthy conn) eqn:H; simpl; auto.
Qed.

Lemma failure_step conn e now :
  let conn' := fst (recordOutcome m conn (Some e) now) in
  failureCount conn' = int32 (failureCount conn + 1)
  /\ healthy conn'
     = healthy conn
       && (failureCount conn' <? int32 (failureThreshold m))
  /\ lastCheck conn' = now.
Proof.
  unfold recordOutcome; simpl.
  rewrite Z.geb_leb.
  destruct (int32 (failureThreshold m) <=? int32 (failureCount conn + 1))
    eqn:E; simpl.
  - apply Z.leb_le in E.
    destruct (healthy conn) eqn:H; simpl; repeat split; auto;
      symmetry; apply Z.ltb_ge; assumption.
  - apply Z.leb_gt in E. repeat split; auto.
    symmetry. rewrite (proj2 (Z.ltb_lt _ _) E). apply andb_true_r.
Qed.

Lemma step_identity conn err now :
  let conn' := fst (recordOutcome m conn err now) in
  Index conn' = Index conn /\ Name conn' = Name conn
  /\ InterfaceName conn' = InterfaceName conn
  /\ ConfigPath conn' = ConfigPath conn.
Proof.
  unfold recordOutcome.
  destruct err as [e |]; simpl.
  - destruct (_ >=? _); [destruct (healthy conn) |]; simpl; auto.
  - destruct (healthy conn); simpl; auto.
Qed.

End HealthStep.

(** C1. One probe moves a tunnel as the state machine says. A success sets
    the failure count to 0 and leaves the tunnel healthy; a failure adds one
    to the count and a healthy tunnel becomes unhealthy when the new count
    has reached the threshold; the flag changes in these two cases only.
    On a healthy tunnel whose count was below the threshold, as it is in
    every run of the prober, a failure makes it unhealthy exactly when the
    new count equals the threshold. The count is below the largest 32-bit
    integer and the threshold is a 32-bit integer. *)
Theorem performHealthCheck_state_machine :
  forall (m : Manager) (conn : Connection) (o : ProbeOutcome) (now : Z),
    min_int32 <= failureThreshold m <= max_int32 ->
    min_int32 <= failureCount conn < max_int32 ->
    let conn' := fst (performHealthCheck m conn o now) in
    let success := fst (checkHealth conn o) = None in
    (success ->
     failureCount conn' = 0 /\ healthy conn' = true)
    /\ (~ success ->
        failureCount conn' = failureCount conn + 1
        /\ healthy conn'
           = healthy conn && (failureCount conn' <? failureThreshold m))
    /\ (healthy conn' <> healthy conn <->
        (success /\ healthy conn = false)
        \/ (~ success /\ healthy conn = true
            /\ failureThreshold m <= failureCount conn'))
    /\ (below_threshold m conn -> ~ success -> healthy conn = true ->
        (healthy conn' = false <-> failureCount conn' = failureThreshold m)).
Proof.
  intros m conn o now Hthr Hcnt conn' success.
  subst conn' success.
  rewrite performHealthCheck_recordOutcome.
  destruct (fst (checkHealth conn o)) as [e |] eqn:Herr.
  - destruct (failure_step m conn e now) as (Hc & Hh & _).
    rewrite int32_small in Hc by (unfold min_int32, max_int32 in *; lia).
    rewrite int32_small in Hh by assumption.
    split; [intros; discriminate |].
    split; [intros _; split; assumption |].
    rewrite Hh. split.
    + split.
      * intros Hne. right. split; [discriminate |].
        destruct (healthy conn);
          [rewrite andb_true_l in Hne
          | rewrite andb_false_l in Hne; congruence].
        split; [reflexivity |].
        apply Z.ltb_ge.
        destruct (_ <? _); [exfalso; apply Hne; reflexivity | reflexivity].
      * intros [[Hs _] | (_ & Hh1 & Hle)]; [discriminate |].
        rewrite Hh1, andb_true_l.
        rewrite (proj2 (Z.ltb_ge _ _) Hle). discriminate.
    + intros Hinv _ Hh1. specialize (Hinv Hh1).
      rewrite Hh1, andb_true_l, Z.ltb_ge, Hc. lia.
  - destruct (success_step m conn now) as (Hc & Hh & _).
    split; [intros _; split; assumption |].
    split; [intros Hn; exfalso; apply Hn; reflexivity |].
    rewrite Hh. split.
    + split.
      * intros Hne. left. split; [reflexivity |].
        destruct (healthy conn); congruence.
      * intros [[_ Hf] | (Hn & _)]; [rewrite Hf; discriminate |].
        exfalso; apply Hn; reflexivity.
    + intros _ Hn. exfalso; apply Hn; reflexivity.
Qed.

Lemma performHealthCheck_state_machine_witness :
  healthy (fst (performHealthCheck Examples.manager Examples.connB
                                   Examples.ok200 1700000030))
  <> healthy Examples.connB.
Proof.
  apply (performHealthCheck_state_machine Examples.manager Examples.connB
           Examples.ok200 1700000030).
  - vm_compute. split; discriminate.
  - vm_compute. split; [discriminate | reflexivity].
  - left. split; reflexivity.
Defined.

(** ** Runs of like outcomes *)

Arguments recordOutcome : simpl never.

Section HealthRuns.

Variable m : Manager.

Lemma transitions_constant b hs :
  Forall (fun h => h = b) hs -> transitions b hs = 0%nat.
Proof.
  induction 1 as [| h hs Hh _ IH]; simpl; [reflexivity |].
  subst h. rewrite Bool.eqb_reflx. exact IH.
Qed.

Lemma failures_stay_unhealthy probes : forall conn,
  all_failures probes -> healthy conn = false ->
  Forall (fun h => h = false) (map healthy (probeRun m conn probes)).
Proof.
  induction probes as [| [err now] rest IH]; intros conn Hall Hh; simpl.
  - constructor.
  - inversion Hall as [| p ps Hp Hrest]; subst. simpl in Hp.
    destruct err as [e |]; [| congruence].
    destruct (failure_step m conn e now) as (_ & Hh' & _).
    rewrite Hh in Hh'. simpl in Hh'.
    constructor; [exact Hh' | apply IH; assumption].
Qed.

Lemma successes_all_healthy probes : forall conn,
  all_successes probes ->
  Forall (fun h => h = true) (map healthy (probeRun m conn probes)).
Proof.
  induction probes as [| [err now] rest IH]; intros conn Hall; simpl.
  - constructor.
  - inversion Hall as [| p ps Hp Hrest]; subst. simpl in Hp. subst err.
    destruct (success_step m conn now) as (_ & Hh' & _).
    constructor; [exact Hh' | apply IH; assumption].
Qed.

Lemma failures_flip_at_most_once probes : forall conn,
  all_failures probes ->
  (transitions (healthy conn) (map healthy (probeRun m conn probes)) <= 1)%nat.
Proof.
  induction probes as [| [err now] rest IH]; intros conn Hall; simpl.
  - lia.
  - inversion Hall as [| p ps Hp Hrest]; subst.
    simpl in Hp. destruct err as [e |]; [| congruence].
    pose proof (failure_step m conn e now) as Hstep. cbv zeta in Hstep.
    remember (fst (recordOutcome m conn (Some e) now)) as conn' eqn:Econn'.
    destruct Hstep as (_ & Hh' & _).
    destruct (Bool.eqb (healthy conn) (healthy conn')) eqn:E.
    + specialize (IH conn' Hrest). lia.
    +
      destruct (healthy conn) eqn:Hc.
      * destruct (healthy conn') eqn:Hc'; [discriminate |].
        rewrite transitions_constant; [lia |].
        apply failures_stay_unhealthy; assumption.
      * rewrite andb_false_l in Hh'. rewrite Hh' in E. discriminate.
Qed.

Lemma successes_flip_at_most_once probes : forall conn,
  all_successes probes ->
  (transitions (healthy conn) (map healthy (probeRun m conn probes)) <= 1)%nat.
Proof.
  destruct probes as [| [err now] rest]; intros conn Hall; simpl; [lia |].
  inversion Hall as [| p ps Hp Hrest]; subst. simpl in Hp. subst err.
  destruct (success_step m conn now) as (_ & Hh' & _).
  rewrite Hh'.
  rewrite transitions_constant by (apply successes_all_healthy; assumption).
  destruct (Bool.eqb (healthy conn) true); lia.
Qed.

(** While the count has not reached the threshold a healthy tunnel stays
    healthy, and from the probe that reaches it on it is unhealthy. *)
Lemma failures_from_healthy probes : forall conn k,
  all_failures probes ->
  healthy conn = true ->
  0 <= failureCount conn < failureThreshold m ->
  failureThreshold m <= max_int32 ->
  (k < List.length probes)%nat ->
  nth k (map healthy (probeRun m conn probes)) false
  = (failureCount conn + Z.of_nat k + 1 <? failureThreshold m).
Proof.
  induction probes as [| [err now] rest IH]; intros conn k Hall Hh Hc Hmax Hk;
    simpl in Hk; [lia |].
  inversion Hall as [| p ps Hp Hrest]; subst. simpl in Hp.
  destruct err as [e |]; [| congruence].
  simpl probeRun.
  pose proof (failure_step m conn e now) as Hstep. cbv zeta in Hstep.
  remember (fst (recordOutcome m conn (Some e) now)) as conn' eqn:Econn'.
  destruct Hstep as (Hc' & Hh' & _).
  rewrite int32_small in Hc' by (unfold min_int32, max_int32 in *; lia).
  rewrite int32_small in Hh' by (unfold min_int32, max_int32 in *; lia).
  rewrite Hh, andb_true_l in Hh'.
  destruct k as [| k]; simpl.
  - rewrite Hh', Hc'. f_equal. lia.
  - destruct (failureCount conn' <? failureThreshold m) eqn:E.
    + apply Z.ltb_lt in E.
      rewrite (IH conn' k) by (try assumption; lia).
      f_equal. lia.
    + apply Z.ltb_ge in E.
      assert (Hall' := failures_stay_unhealthy rest conn' Hrest Hh').
      rewrite Forall_forall in Hall'.
      destruct (nth_in_or_default k (map healthy (probeRun m conn' rest)) false)
        as [Hin | Hd].
      * rewrite (Hall' _ Hin). symmetry. apply Z.ltb_ge. lia.
      * rewrite Hd. symmetry. apply Z.ltb_ge. lia.
Qed.

Lemma failures_flip_exactly_once probes : forall conn,
  all_failures probes ->
  healthy conn = true ->
  0 <= failureCount conn < failureThreshold m ->
  failureThreshold m <= max_int32 ->
  failureThreshold m - failureCount conn <= Z.of_nat (List.length probes) ->
  transitions true (map healthy (probeRun m conn probes)) = 1%nat.
Proof.
  induction probes as [| [err now] rest IH]; intros conn Hall Hh Hc Hmax Hlen;
    simpl in Hlen; [lia |].
  inversion Hall as [| p ps Hp Hrest]; subst. simpl in Hp.
  destruct err as [e |]; [| congruence].
  simpl probeRun.
  pose proof (failure_step m conn e now) as Hstep. cbv zeta in Hstep.
  remember (fst (recordOutcome m conn (Some e) now)) as conn' eqn:Econn'.
  destruct Hstep as (Hc' & Hh' & _).
  rewrite int32_small in Hc' by (unfold min_int32, max_int32 in *; lia).
  rewrite int32_small in Hh' by (unfold min_int32, max_int32 in *; lia).
  rewrite Hh, andb_true_l in Hh'.
  simpl. rewrite Hh'.
  destruct (failureCount conn' <? failureThreshold m) eqn:E; simpl.
  - apply Z.ltb_lt in E. apply IH; try assumption; lia.
  - rewrite transitions_constant; [reflexivity |].
    apply failures_stay_unhealthy; assumption.
Qed.

(** The prober keeps a healthy tunnel below the threshold. *)
Lemma probeRun_below_threshold probes : forall conn,
  1 <= failureThreshold m <= max_int32 ->
  below_threshold m conn ->
  Forall (below_threshold m) (probeRun m conn probes).
Proof.
  induction probes as [| [err now] rest IH]; intros conn Hthr Hinv; simpl.
  - constructor.
  - assert (Hinv' : below_threshold m (fst (recordOutcome m conn err now))).
    { destruct err as [e |].
      - destruct (failure_step m conn e now) as (Hc & Hh & _).
        intros Hh'. rewrite Hh' in Hh. symmetry in Hh.
        apply andb_prop in Hh. destruct Hh as [Hh1 Hlt].
        specialize (Hinv Hh1).
        rewrite int32_small in Hc by (unfold min_int32, max_int32 in *; lia).
        rewrite int32_small in Hlt by (unfold min_int32, max_int32 in *; lia).
        apply Z.ltb_lt in Hlt. lia.
      - destruct (success_step m conn now) as (Hc & _ & _).
        intros _. rewrite Hc. lia. }
    constructor; [exact Hinv' | apply IH; assumption].
Qed.


End HealthRuns.

(** C9. In a run of like probe outcomes on one tunnel the healthy flag
    changes at most once. A run of failures on a healthy tunnel whose count
    is 0 leaves it healthy up to the probe before the one at which the count
    reaches the threshold and unhealthy from that probe on: one change when
    the run is at least as long as the threshold. A run of successes on an
    unhealthy tunnel makes it healthy at the first success and keeps it so. *)
Theorem like_outcomes_change_health_once :
  forall (m : Manager) (conn : Connection) (probes : list (option string * Z)),
    let run := map healthy (probeRun m conn probes) in
    (all_failures probes ->
     (transitions (healthy conn) run <= 1)%nat
     /\ (healthy conn = true -> failureCount conn = 0 ->
         1 <= failureThreshold m <= max_int32 ->
         (forall k, (k < List.length probes)%nat ->
                    nth k run false = (Z.of_nat k + 1 <? failureThreshold m))
         /\ (failureThreshold m <= Z.of_nat (List.length probes) ->
             transitions true run = 1%nat)))
    /\ (all_successes probes ->
        (transitions (healthy conn) run <= 1)%nat
        /\ (healthy conn = false -> probes <> [] ->
            (forall k, (k < List.length probes)%nat -> nth k run false = true)
            /\ transitions false run = 1%nat)).
Proof.
  intros m conn probes run. subst run. split.
  - intros Hall. split; [apply failures_flip_at_most_once; assumption |].
    intros Hh Hc Hthr. split.
    + intros k Hk.
      rewrite (failures_from_healthy m probes conn k) by (try assumption; lia).
      rewrite Hc. reflexivity.
    + intros Hlen. apply failures_flip_exactly_once; try assumption; lia.
  - intros Hall. split; [apply successes_flip_at_most_once; assumption |].
    intros Hh Hne.
    assert (Hrun := successes_all_healthy m probes conn Hall).
    split.
    + intros k Hk. rewrite Forall_forall in Hrun. apply Hrun.
      apply nth_In. rewrite length_map.
      clear - Hk. revert conn k Hk.
      induction probes as [| [e n] rest IH]; intros conn k Hk; simpl in *; [lia |].
      destruct k; [lia |]. specialize (IH (fst (recordOutcome m conn e n)) k).
      lia.
    + destruct probes as [| [err now] rest]; [congruence |].
      simpl in Hrun |- *. inversion Hrun as [| h hs H1 H2]; subst.
      rewrite H1. simpl.
      rewrite transitions_constant by assumption. reflexivity.
Qed.

Lemma like_outcomes_change_health_once_witness :
  transitions true
    (map healthy (probeRun Examples.manager Examples.connA
                           Examples.fourFailures)) = 1%nat
  /\ transitions false
       (map healthy (probeRun Examples.manager Examples.connB
                              Examples.twoSuccesses)) = 1%nat.
Proof.
  split.
  - apply (like_outcomes_change_health_once Examples.manager Examples.connA
             Examples.fourFailures).
    + repeat constructor; discriminate.
    + reflexivity.
    + reflexivity.
    + vm_compute. split; discriminate.
    + vm_compute. discriminate.
  - apply (like_outcomes_change_health_once Examples.manager Examples.connB
             Examples.twoSuccesses).
    + repeat constructor.
    + reflexivity.
    + discriminate.
Defined.

(** ** The selection pool *)

Lemma index_in_range {A : Type} (s : list A) (i : Z) :
  0 <= i < Z.of_nat (List.length s) ->
  exists a, nth_error s (Z.to_nat i) = Some a /\ Go.index s i = Ok a.
Proof.
  intros H. unfold Go.index.
  destruct (i <? 0) eqn:E1; [apply Z.ltb_lt in E1; lia |].
  destruct (Z.of_nat (List.length s) <=? i) eqn:E2;
    [apply Z.leb_le in E2; lia |].
  simpl.
  destruct (nth_error s (Z.to_nat i)) as [a |] eqn:E.
  - exists a. split; reflexivity.
  - apply nth_error_None in E. lia.
Qed.

Lemma snapshot_loop (l : list Connection) : forall acc,
  fold_left (fun acc conn => if healthy conn then (acc ++ [conn])%list else acc)
            l acc
  = (acc ++ List.filter healthy l)%list.
Proof.
  induction l as [| c l IH]; intros acc; simpl.
  - rewrite app_nil_r. reflexivity.
  - rewrite IH. destruct (healthy c); [| reflexivity].
    rewrite <- app_assoc. reflexivity.
Qed.

Lemma healthyConns_filter (m : Manager) :
  healthyConns m = List.filter healthy (connections m).
Proof. unfold healthyConns. apply snapshot_loop. Qed.

Lemma GetHealthyConnection_invalid (m : Manager) (index : Z) :
  index < 0 \/ Z.of_nat (List.length (connections m)) <= index ->
  GetHealthyConnection m index
  = Err ("invalid connection index: " ++ fmt_d index).
Proof.
  intros H. unfold GetHealthyConnection.
  destruct H as [H | H].
  - rewrite (proj2 (Z.ltb_lt _ _) H). reflexivity.
  - rewrite Z.geb_leb, (proj2 (Z.leb_le _ _) H), orb_true_r. reflexivity.
Qed.

(** C10. An index outside [0, N) gets the "invalid connection index" error:
    neither a tunnel nor a "not healthy" error. *)
Theorem GetHealthyConnection_out_of_range :
  forall (m : Manager) (index : Z),
    index < 0 \/ Z.of_nat (List.length (connections m)) <= index ->
    GetHealthyConnection m index
    = Err ("invalid connection index: " ++ fmt_d index)
    /\ (forall conn, GetHealthyConnection m index <> Ok conn)
    /\ (forall name,
           GetHealthyConnection m index
           <> Err ("connection " ++ name ++ " is not healthy")).
Proof.
  intros m index H.
  rewrite (GetHealthyConnection_invalid m index H).
  repeat split; intros; simpl; discriminate.
Qed.

Lemma GetHealthyConnection_out_of_range_witness :
  GetHealthyConnection Examples.managerAB 2 = Err "invalid connection index: 2"
  /\ GetHealthyConnection Examples.managerAB (-1)
     = Err "invalid connection index: -1".
Proof.
  split.
  - apply (GetHealthyConnection_out_of_range Examples.managerAB 2).
    right. vm_compute. discriminate.
  - apply (GetHealthyConnection_out_of_range Examples.managerAB (-1)).
    left. reflexivity.
Defined.

Lemma GetHealthyConnection_in_range (m : Manager) (index : Z) :
  0 <= index < Z.of_nat (List.length (connections m)) ->
  exists conn,
    nth_error (connections m) (Z.to_nat index) = Some conn
    /\ GetHealthyConnection m index
       = if healthy conn then Ok conn
         else Err ("connection " ++ Name conn ++ " is not healthy").
Proof.
  intros H. unfold GetHealthyConnection.
  destruct (index <? 0) eqn:E1; [apply Z.ltb_lt in E1; lia |].
  rewrite Z.geb_leb.
  destruct (Z.of_nat (List.length (connections m)) <=? index) eqn:E2;
    [apply Z.leb_le in E2; lia |].
  simpl.
  destruct (index_in_range (connections m) index H) as (conn & Hn & Hi).
  exists conn. rewrite Hi. split; [assumption |].
  destruct (healthy conn); reflexivity.
Qed.

(** C3. The snapshot is the list of the healthy tunnels in the order of the
    tunnel slice. When it is not empty the tunnel at position (clock mod
    size) is returned; the "no healthy connections" error comes exactly when
    it is empty. The clock is not before 1970. *)
Theorem GetRandomHealthyConnection_snapshot :
  forall (m : Manager) (nowNano : Z),
    0 <= nowNano ->
    let snapshot := List.filter healthy (connections m) in
    healthyConns m = snapshot
    /\ (snapshot <> [] ->
        exists conn,
          nth_error snapshot
            (Z.to_nat (nowNano mod Z.of_nat (List.length snapshot)))
          = Some conn
          /\ GetRandomHealthyConnection m nowNano = Ok conn)
    /\ (GetRandomHealthyConnection m nowNano
        = Err "no healthy connections available"
        <-> snapshot = []).
Proof.
  intros m nowNano Hnow snapshot.
  assert (Hs : healthyConns m = snapshot) by apply healthyConns_filter.
  split; [exact Hs |].
  unfold GetRandomHealthyConnection. rewrite Hs.
  destruct snapshot as [| c rest] eqn:E.
  - simpl. split; [congruence | split; reflexivity].
  - rewrite <- E.
    assert (Hlen : 0 < Z.of_nat (List.length snapshot))
      by (subst snapshot; rewrite E; simpl; lia).
    destruct (Z.of_nat (List.length snapshot) =? 0) eqn:E0;
      [apply Z.eqb_eq in E0; lia |].
    rewrite Z.rem_mod_nonneg by assumption.
    destruct (index_in_range snapshot
                (nowNano mod Z.of_nat (List.length snapshot)))
      as (conn & Hn & Hi).
    { apply Z.mod_pos_bound. assumption. }
    split.
    + intros _. exists conn. split; assumption.
    + rewrite Hi. split; [discriminate |].
      subst snapshot. rewrite E. discriminate.
Qed.

Lemma GetRandomHealthyConnection_snapshot_witness :
  healthyConns Examples.managerAB
  = List.filter healthy (connections Examples.managerAB)
  /\ (GetRandomHealthyConnection Examples.manager 1700000000123456789
      = Err "no healthy connections available"
      <-> List.filter healthy (connections Examples.manager) = []).
Proof.
  split.
  - apply (GetRandomHealthyConnection_snapshot Examples.managerAB
             1700000000123456789). lia.
  - apply (GetRandomHealthyConnection_snapshot Examples.manager
             1700000000123456789). lia.
Defined.

(** Before 1970 the remainder is negative and indexing the snapshot panics. *)
Lemma GetRandomHealthyConnection_negative_clock :
  GetRandomHealthyConnection Examples.managerAB (-1)
  = Panic "index out of range [-1] with length 2".
Proof. reflexivity. Qed.

(** ** Tunnels keep their place and their identity *)

Lemma new_connections_length l : forall i,
  List.length (new_connections i l) = List.length l.
Proof. induction l; intros i; simpl; [| rewrite IHl]; reflexivity. Qed.

Lemma new_connections_indexed l : forall base,
  well_indexed base (new_connections base l).
Proof.
  induction l as [| c l IH]; intros base i conn H.
  - destruct i; discriminate.
  - destruct i as [| i]; simpl in H.
    + inversion H; subst. simpl. lia.
    + apply IH in H. lia.
Qed.

Lemma round_connections probe now m :
  connections (fst (healthCheckRound probe now m))
  = map (fun c => fst (performHealthCheck m c (probe c) (now c)))
        (connections m).
Proof. unfold healthCheckRound. simpl. rewrite map_map. reflexivity. Qed.

Lemma reachable_shape (c : Config.WireGuardConfig) (m : Manager) :
  reachable c m ->
  List.length (connections m) = List.length (Config.Connections c)
  /\ well_indexed 0 (connections m).
Proof.
  induction 1 as [| m probe now Hr [IHlen IHidx]].
  - simpl. split; [apply new_connections_length | apply new_connections_indexed].
  - rewrite round_connections. split.
    + rewrite length_map. exact IHlen.
    + intros i conn Hn. rewrite nth_error_map in Hn.
      destruct (nth_error (connections m) i) as [c0 |] eqn:E; [| discriminate].
      inversion Hn; subst conn.
      rewrite performHealthCheck_recordOutcome.
      destruct (step_identity m c0 (fst (checkHealth c0 (probe c0))) (now c0))
        as (Hi & _).
      rewrite Hi. apply IHidx. exact E.
Qed.

Lemma proxies_spec (cfg : Config.Config) (k port : Z) :
  In (k, port) (Main.proxies cfg) <->
  0 <= k <= Z.of_nat (List.length (Config.Connections (Config.WireGuard cfg)))
  /\ port = Config.BasePort (Config.Proxy cfg) + k.
Proof.
  unfold Main.proxies. rewrite in_map_iff. split.
  - intros (i & Heq & Hin). inversion Heq; subst.
    apply in_seq in Hin. lia.
  - intros [Hk Hp]. exists (Z.to_nat k). split.
    + rewrite Z2Nat.id by lia. subst. reflexivity.
    + apply in_seq. lia.
Qed.

(** C2. A connection accepted on the listener with index k > 0, on port
    base_port + k, is served by [GetHealthyConnection (k - 1)]: the tunnel at
    position k - 1, whose index is k - 1, when that tunnel is healthy, and
    the "not healthy" error when it is not; never another tunnel. *)
Theorem pinned_listener_selects_own_tunnel :
  forall (cfg : Config.Config) (env : Proxy.Env) (k port : Z),
    reachable (Config.WireGuard cfg) (Proxy.wgManager env) ->
    In (k, port) (Main.proxies cfg) ->
    0 < k ->
    port = Config.BasePort (Config.Proxy cfg) + k
    /\ Proxy.selectConnection env k
       = GetHealthyConnection (Proxy.wgManager env) (k - 1)
    /\ exists conn,
        nth_error (connections (Proxy.wgManager env)) (Z.to_nat (k - 1))
        = Some conn
        /\ Index conn = k - 1
        /\ Proxy.selectConnection env k
           = (if healthy conn then Ok conn
              else Err ("connection " ++ Name conn ++ " is not healthy"))
        /\ (forall c, Proxy.selectConnection env k = Ok c -> c = conn).
Proof.
  intros cfg env k port Hr Hin Hk.
  apply proxies_spec in Hin. destruct Hin as [Hrange Hport].
  destruct (reachable_shape _ _ Hr) as [Hlen Hidx].
  split; [exact Hport |].
  assert (Hsel : Proxy.selectConnection env k
                 = GetHealthyConnection (Proxy.wgManager env) (k - 1)).
  { unfold Proxy.selectConnection.
    destruct (k =? 0) eqn:E; [apply Z.eqb_eq in E; lia | reflexivity]. }
  split; [exact Hsel |].
  destruct (GetHealthyConnection_in_range (Proxy.wgManager env) (k - 1))
    as (conn & Hn & Hget).
  { rewrite Hlen. lia. }
  exists conn. split; [exact Hn |].
  split; [rewrite (Hidx _ _ Hn), Z2Nat.id; lia |].
  rewrite Hsel, Hget.
  split; [reflexivity |].
  intros c Hc. destruct (healthy conn); congruence.
Qed.

Lemma pinned_listener_selects_own_tunnel_witness :
  Proxy.selectConnection (Examples.proxyEnv Examples.managerA) 2
  = GetHealthyConnection Examples.managerA 1
  /\ Proxy.selectConnection (Examples.proxyEnv Examples.managerA) 2
     = Err "connection B is not healthy".
Proof.
  destruct (pinned_listener_selects_own_tunnel Examples.config
              (Examples.proxyEnv Examples.managerA) 2 9932)
    as (_ & Hsel & conn & Hn & _ & Hres & _).
  - apply reach_round. apply reach_new.
  - vm_compute. right. right. left. reflexivity.
  - reflexivity.
  - split; [exact Hsel |].
    rewrite Hres. vm_compute in Hn. inversion Hn; subst conn. reflexivity.
Defined.

(** ** The clock of the last probe *)

Lemma performHealthCheck_lastCheck (m : Manager) conn o now :
  lastCheck (fst (performHealthCheck m conn o now)) = now.
Proof.
  rewrite performHealthCheck_recordOutcome.
  destruct (fst (checkHealth conn o)) as [e |].
  - apply (failure_step m conn e now).
  - apply (success_step m conn now).
Qed.

Lemma Initialize_keeps_manager host probe (m : Manager) :
  fst (fst (Initialize host probe m)) = m.
Proof. reflexivity. Qed.

(** The round of probes [Initialize] makes at startup leaves the time of
    the last probe, the failure count and the healthy flag of every tunnel
    as they were, whatever the probes observe. *)
Lemma Initialize_probes_leave_state :
  forall (host : Host) (probe : Connection -> ProbeOutcome) (m : Manager),
    let m' := fst (fst (Initialize host probe m)) in
    let report := snd (fst (Initialize host probe m)) in
    probed report = map Index (connections m)
    /\ map lastCheck (connections m') = map lastCheck (connections m)
    /\ map healthy (connections m') = map healthy (connections m)
    /\ map failureCount (connections m') = map failureCount (connections m).
Proof. intros host probe m. simpl. repeat split. Qed.

(** C8. The startup round of [Initialize] on two tunnels that both answer
    200: both were probed and their latency was recorded, and yet the time
    of the last probe is still 0 and both are still unhealthy. The same
    probe made by the prober stores the time it is given. *)
Theorem Initialize_startup_round :
  let r := Initialize Examples.goodHost (fun _ => Examples.ok200)
                      Examples.manager in
  probed (snd (fst r)) = [0; 1]
  /\ statsCalls (snd (fst r)) = [Stats.RecordLatency 0 7; Stats.RecordLatency 1 7]
  /\ map lastCheck (connections (fst (fst r))) = [0; 0]
  /\ map healthy (connections (fst (fst r))) = [false; false]
  /\ snd r = None
  /\ map (fun c => lastCheck (fst (performHealthCheck Examples.manager c
                                                     Examples.ok200
                                                     1700000000)))
         (connections Examples.manager)
     = [1700000000; 1700000000].
Proof. vm_compute. repeat split. Qed.

(** ** Reading a SOCKS5 request *)

Section Requests.

Import GoNet Proxy.

Lemma Uint16_big_endian (p1 p2 : byte) :
  Uint16 [p1; p2] = 256 * u8 p1 + u8 p2.
Proof.
  unfold Uint16. simpl nth.
  assert (H1 : 0 <= u8 p1) by (unfold u8; lia).
  assert (H2 : 0 <= u8 p2 < 2 ^ 8).
  { unfold u8. pose proof (Byte.to_N_bounded p2).
    change (2 ^ 8) with 256. lia. }
  pose proof (Z.add_lor_land (u8 p2) (Z.shiftl (u8 p1) 8)) as Hadd.
  assert (Hland : Z.land (u8 p2) (Z.shiftl (u8 p1) 8) = 0).
  { apply Z.bits_inj'. intros n Hn.
    rewrite Z.land_spec, Z.bits_0.
    destruct (Z.ltb_spec n 8).
    - rewrite Z.shiftl_spec_low by assumption. apply andb_false_r.
    - replace (Z.testbit (u8 p2) n) with false; [reflexivity |].
      symmetry. apply Z.bits_above_log2; [lia |].
      destruct (Z.eq_dec (u8 p2) 0) as [E | E]; [rewrite E; simpl; lia |].
      apply Z.log2_lt_pow2; [lia |].
      apply Z.lt_le_trans with (2 ^ 8); [lia |].
      apply Z.pow_le_mono_r; lia. }
  rewrite Hland in Hadd.
  rewrite Z.shiftl_mul_pow2 in Hadd by lia.
  rewrite Z.shiftl_mul_pow2 by lia.
  change (2 ^ 8) with 256 in *. lia.
Qed.

Lemma ReadFull_app (n : nat) (l rest : list byte) (w : nat)
      (tr : list Event) :
  List.length l = n ->
  ReadFull n {| unread := (l ++ rest)%list; writable := w; trace := tr |}
  = (Ok l, {| unread := rest; writable := w; trace := tr |}).
Proof.
  intros <-. unfold ReadFull. simpl unread. simpl writable. simpl trace.
  rewrite length_app.
  rewrite (proj2 (Nat.leb_le _ _)) by lia.
  rewrite firstn_app, Nat.sub_diag, firstn_all, skipn_app, Nat.sub_diag,
    skipn_all.
  simpl. rewrite app_nil_r. reflexivity.
Qed.

(** The next read finds the bytes [l], followed by [rest]. *)
Ltac read l rest :=
  match goal with
  | |- context [ReadFull ?n {| unread := ?u; writable := ?w; trace := ?tr |}] =>
      change (ReadFull n {| unread := u; writable := w; trace := tr |})
        with (ReadFull n {| unread := (l ++ rest)%list; writable := w;
                            trace := tr |});
      rewrite (ReadFull_app n l rest w tr) by reflexivity
  end.

(** Decides the tests of [getTargetAddress] on a header of known bytes. *)
Ltac header :=
  cbn [nth];
  unfold socks5Version, cmdConnect, atypIPv4, atypDomain, atypIPv6;
  repeat match goal with
         | |- context [Byte.eqb ?x ?y] =>
             let v := eval vm_compute in (Byte.eqb x y) in
             change (Byte.eqb x y) with v
         end;
  cbn [negb]; cbv beta.

Lemma readPort_app (addr : string) (p1 p2 : byte) rest w tr :
  readPort addr
    {| unread := ([p1; p2] ++ rest)%list; writable := w; trace := tr |}
  = (Ok (addr ++ ":" ++ fmt_d (256 * u8 p1 + u8 p2)),
     {| unread := rest; writable := w; trace := tr |}).
Proof.
  unfold readPort, bind. read [p1; p2] rest.
  unfold ret. rewrite Uint16_big_endian. reflexivity.
Qed.

Lemma IP_String_4 (a b c d : byte) : IP_String [a; b; c; d] = string4 a b c d.
Proof.
  unfold IP_String, To4. cbn [List.length Nat.eqb negb andb]. reflexivity.
Qed.

Lemma IP_String_16 (ip : list byte) :
  List.length ip = 16%nat ->
  IP_String ip
  = if isIPv4Mapped ip
    then string4 (nth 12 ip x00) (nth 13 ip x00) (nth 14 ip x00)
                 (nth 15 ip x00)
    else Spec.canonicalIPv6 ip.
Proof.
  intros H.
  do 16 (destruct ip as [| ? ip]; [discriminate H |]).
  destruct ip; [| discriminate H].
  unfold IP_String, To4, isIPv4Mapped, Spec.canonicalIPv6.
  cbn [List.length Nat.eqb negb andb].
  destruct (isZeros _ && _ && _); cbn [skipn nth]; reflexivity.
Qed.

Lemma header_rejected (ver cmd rsv atyp : byte) rest w tr :
  ver <> x05 \/ cmd <> x01 \/ (atyp <> x01 /\ atyp <> x03 /\ atyp <> x04) ->
  exists e,
    fst (getTargetAddress
           {| unread := ver :: cmd :: rsv :: atyp :: rest;
              writable := w; trace := tr |}) = Err e.
Proof.
  intros H. unfold getTargetAddress, bind.
  read [ver; cmd; rsv; atyp] rest.
  cbn [nth].
  unfold socks5Version, cmdConnect, atypIPv4, atypDomain, atypIPv6.
  destruct (Byte.eqb ver x05) eqn:E1; cbn [negb]; [| eexists; reflexivity].
  destruct (Byte.eqb cmd x01) eqn:E2; cbn [negb]; [| eexists; reflexivity].
  apply Byte.byte_dec_bl in E1, E2.
  destruct H as [H | [H | (H1 & H3 & H4)]]; [congruence | congruence |].
  destruct (Byte.eqb atyp x01) eqn:E3;
    [apply Byte.byte_dec_bl in E3; congruence |].
  destruct (Byte.eqb atyp x03) eqn:E4;
    [apply Byte.byte_dec_bl in E4; congruence |].
  destruct (Byte.eqb atyp x04) eqn:E5;
    [apply Byte.byte_dec_bl in E5; congruence |].
  eexists; reflexivity.
Qed.

Lemma short_header_rejected (c : Conn) :
  (List.length (unread c) < 4)%nat ->
  exists e, fst (getTargetAddress c) = Err e.
Proof.
  intros H. unfold getTargetAddress, bind, ReadFull.
  rewrite (proj2 (Nat.leb_gt _ _)) by assumption.
  eexists; reflexivity.
Qed.

Lemma accepted_header (c : Conn) (t : string) :
  fst (getTargetAddress c) = Ok t ->
  exists rsv atyp rest,
    unread c = x05 :: x01 :: rsv :: atyp :: rest
    /\ (atyp = x01 \/ atyp = x03 \/ atyp = x04).
Proof.
  destruct c as [bs w tr]. intros H.
  destruct bs as [| ver [| cmd [| rsv [| atyp rest]]]];
    try (destruct (short_header_rejected
                     {| unread := []; writable := w; trace := tr |})
           as [e He]; [simpl; lia | congruence]).
  - destruct (short_header_rejected
                {| unread := [ver]; writable := w; trace := tr |})
      as [e He]; [simpl; lia | congruence].
  - destruct (short_header_rejected
                {| unread := [ver; cmd]; writable := w; trace := tr |})
      as [e He]; [simpl; lia | congruence].
  - destruct (short_header_rejected
                {| unread := [ver; cmd; rsv]; writable := w; trace := tr |})
      as [e He]; [simpl; lia | congruence].
  - destruct (Byte.eqb ver x05) eqn:E1.
    2:{ apply Byte.eqb_false in E1.
        destruct (header_rejected ver cmd rsv atyp rest w tr) as [e He];
          [tauto | congruence]. }
    destruct (Byte.eqb cmd x01) eqn:E2.
    2:{ apply Byte.eqb_false in E2.
        destruct (header_rejected ver cmd rsv atyp rest w tr) as [e He];
          [tauto | congruence]. }
    apply Byte.byte_dec_bl in E1, E2. subst ver cmd.
    exists rsv, atyp, rest. split; [reflexivity |].
    destruct (Byte.eqb atyp x01) eqn:E3;
      [apply Byte.byte_dec_bl in E3; tauto |].
    destruct (Byte.eqb atyp x03) eqn:E4;
      [apply Byte.byte_dec_bl in E4; tauto |].
    destruct (Byte.eqb atyp x04) eqn:E5;
      [apply Byte.byte_dec_bl in E5; tauto |].
    apply Byte.eqb_false in E3, E4, E5.
    destruct (header_rejected x05 x01 rsv atyp rest w tr) as [e He];
      [tauto | congruence].
Qed.

Lemma request_IPv4 rsv a b c d p1 p2 rest w tr :
  getTargetAddress
    {| unread := ([x05; x01; rsv; x01; a; b; c; d; p1; p2] ++ rest)%list;
       writable := w; trace := tr |}
  = (Ok (string4 a b c d ++ ":" ++ fmt_d (256 * u8 p1 + u8 p2)),
     {| unread := rest; writable := w; trace := tr |}).
Proof.
  unfold getTargetAddress, bind.
  read [x05; x01; rsv; x01] ([a; b; c; d; p1; p2] ++ rest)%list.
  header.
  read [a; b; c; d] ([p1; p2] ++ rest)%list.
  rewrite IP_String_4. apply readPort_app.
Qed.

Lemma request_domain rsv len dom p1 p2 rest w tr :
  Z.of_nat (List.length dom) = u8 len ->
  getTargetAddress
    {| unread := ([x05; x01; rsv; x03; len] ++ dom ++ [p1; p2] ++ rest)%list;
       writable := w; trace := tr |}
  = (Ok (string_of_list_byte dom ++ ":" ++ fmt_d (256 * u8 p1 + u8 p2)),
     {| unread := rest; writable := w; trace := tr |}).
Proof.
  intros Hlen. unfold getTargetAddress, bind.
  read [x05; x01; rsv; x03] ([len] ++ dom ++ [p1; p2] ++ rest)%list.
  header.
  read [len] (dom ++ [p1; p2] ++ rest)%list.
  cbn [nth]. rewrite <- Hlen, Nat2Z.id.
  rewrite (ReadFull_app (List.length dom) dom ([p1; p2] ++ rest) w tr)
    by reflexivity.
  apply readPort_app.
Qed.

Lemma request_IPv6 rsv ip p1 p2 rest w tr :
  List.length ip = 16%nat ->
  getTargetAddress
    {| unread := ([x05; x01; rsv; x04] ++ ip ++ [p1; p2] ++ rest)%list;
       writable := w; trace := tr |}
  = (Ok (IP_String ip ++ ":" ++ fmt_d (256 * u8 p1 + u8 p2)),
     {| unread := rest; writable := w; trace := tr |}).
Proof.
  intros Hlen. unfold getTargetAddress, bind.
  read [x05; x01; rsv; x04] (ip ++ [p1; p2] ++ rest)%list.
  header.
  rewrite (ReadFull_app 16 ip ([p1; p2] ++ rest) w tr) by assumption.
  apply readPort_app.
Qed.

Lemma length_byte (dom : list byte) :
  (List.length dom <= 255)%nat ->
  exists len : byte, Z.of_nat (List.length dom) = u8 len.
Proof.
  intros H.
  pose proof (Byte.to_of_N_option_map (N.of_nat (List.length dom))) as E.
  rewrite (proj2 (N.leb_le _ _)) in E by lia.
  destruct (Byte.of_N (N.of_nat (List.length dom))) as [len |] eqn:Eb;
    [| discriminate E].
  exists len. unfold u8. simpl in E. inversion E as [E'].
  rewrite E'. lia.
Qed.

End Requests.

(** C5, as the code has it. A request is accepted only with version 0x05,
    command 0x01 and address type 0x01, 0x03 or 0x04; any other version,
    command or address type is an error. The target is host:port with the
    port read big endian from the two bytes after the address. The host is
    the dotted quad of the 4 address bytes for type 0x01; the L bytes after
    the length byte as they come, for every L from 0 to 255, for type 0x03;
    and for type 0x04 the dotted quad of the last 4 bytes when the 16 bytes
    are an IPv4-mapped address, the canonical IPv6 text of the 16 bytes when
    they are not. *)
Theorem getTargetAddress_target :
  forall (w : nat) (tr : list Proxy.Event),
    let conn bs := {| Proxy.unread := bs; Proxy.writable := w;
                      Proxy.trace := tr |} in
    let port p1 p2 := fmt_d (256 * GoNet.u8 p1 + GoNet.u8 p2) in
    (forall bs t,
        fst (Proxy.getTargetAddress (conn bs)) = Ok t ->
        exists rsv atyp rest,
          bs = x05 :: x01 :: rsv :: atyp :: rest
          /\ (atyp = x01 \/ atyp = x03 \/ atyp = x04))
    /\ (forall ver cmd rsv atyp rest,
           ver <> x05 \/ cmd <> x01
           \/ (atyp <> x01 /\ atyp <> x03 /\ atyp <> x04) ->
           exists e,
             fst (Proxy.getTargetAddress
                    (conn (ver :: cmd :: rsv :: atyp :: rest))) = Err e)
    /\ (forall rsv a b c d p1 p2 rest,
           Proxy.getTargetAddress
             (conn ([x05; x01; rsv; x01; a; b; c; d; p1; p2] ++ rest)%list)
           = (Ok (GoNet.string4 a b c d ++ ":" ++ port p1 p2), conn rest))
    /\ (forall rsv dom p1 p2 rest,
           (List.length dom <= 255)%nat ->
           exists len,
             GoNet.u8 len = Z.of_nat (List.length dom)
             /\ Proxy.getTargetAddress
                  (conn ([x05; x01; rsv; x03; len] ++ dom ++ [p1; p2]
                         ++ rest)%list)
                = (Ok (string_of_list_byte dom ++ ":" ++ port p1 p2),
                   conn rest))
    /\ (forall rsv ip p1 p2 rest,
           List.length ip = 16%nat ->
           Proxy.getTargetAddress
             (conn ([x05; x01; rsv; x04] ++ ip ++ [p1; p2] ++ rest)%list)
           = (Ok ((if GoNet.isIPv4Mapped ip
                   then GoNet.string4 (nth 12 ip x00) (nth 13 ip x00)
                                      (nth 14 ip x00) (nth 15 ip x00)
                   else Spec.canonicalIPv6 ip)
                  ++ ":" ++ port p1 p2),
              conn rest)).
Proof.
  intros w tr conn port. subst conn port. cbv beta.
  split; [| split; [| split; [| split]]].
  - intros bs t H. apply accepted_header in H. exact H.
  - intros. apply header_rejected. assumption.
  - intros. apply request_IPv4.
  - intros rsv dom p1 p2 rest Hlen.
    destruct (length_byte dom Hlen) as [len Hl].
    exists len. split; [symmetry; exact Hl |].
    apply request_domain. exact Hl.
  - intros rsv ip p1 p2 rest Hlen.
    rewrite <- (IP_String_16 ip Hlen). apply request_IPv6. exact Hlen.
Qed.

Lemma getTargetAddress_target_witness :
  fst (Proxy.getTargetAddress
         (Examples.client (Examples.connectIPv6 Examples.ip6)))
  = Ok "2001:db8::1:443"
  /\ exists e,
      fst (Proxy.getTargetAddress
             (Examples.client [x04; x01; x00; x01; x01; x02; x03; x04; x00;
                               x50])) = Err e.
Proof.
  split.
  - pose proof (getTargetAddress_target 2 []) as (_ & _ & _ & _ & H6).
    specialize (H6 x00 Examples.ip6 x01 xbb [] eq_refl).
    unfold Examples.client, Examples.connectIPv6.
    rewrite app_nil_r in H6. rewrite H6. reflexivity.
  - pose proof (getTargetAddress_target 2 []) as (_ & Hrej & _).
    apply (Hrej x04 x01 x00 x01). left. discriminate.
Defined.

(** The 16 address bytes of [::ffff:1.2.3.4] with port 443 give the target
    [1.2.3.4:443]: the host is neither of the texts RFC 5952 has for these
    bytes, and the target is the one a request of type 0x01 for 1.2.3.4
    gives. *)
Lemma getTargetAddress_ipv4_mapped :
  let request := Examples.connectIPv6 Examples.ip4in6 in
  let target := fst (Proxy.getTargetAddress (Examples.client request)) in
  target = Ok "1.2.3.4:443"
  /\ Spec.canonicalIPv6 Examples.ip4in6 = "::ffff:102:304"
  /\ target <> Ok (Spec.canonicalIPv6 Examples.ip4in6 ++ ":443")
  /\ target <> Ok (Spec.mixedIPv6 Examples.ip4in6 ++ ":443")
  /\ target
     = fst (Proxy.getTargetAddress
              (Examples.client [x05; x01; x00; x01; x01; x02; x03; x04; x01;
                                xbb])).
Proof.
  vm_compute. repeat split; discriminate.
Qed.

(** ** The reply to a CONNECT request *)

Section Replies.

Import Proxy.

Lemma clientWrites_app (a b : list Event) :
  clientWrites (a ++ b) = (clientWrites a ++ clientWrites b)%list.
Proof.
  induction a as [| e a IH]; simpl; [reflexivity |].
  destruct e; simpl; rewrite ?IH; reflexivity.
Qed.

Lemma reads_only_ReadFull n : reads_only (ReadFull n).
Proof.
  intros c. unfold ReadFull.
  destruct (n <=? List.length (unread c))%nat; simpl;
    repeat split; discriminate.
Qed.

Lemma reads_only_ret {A : Type} (a : A) : reads_only (ret a).
Proof. intros c. simpl. repeat split; discriminate. Qed.

Lemma reads_only_fail {A : Type} (e : string) : reads_only (@fail A e).
Proof. intros c. simpl. repeat split; discriminate. Qed.

Lemma reads_only_bind {A B : Type} (x : IO A) (k : A -> IO B) :
  reads_only x -> (forall a, reads_only (k a)) -> reads_only (bind x k).
Proof.
  intros Hx Hk c. unfold bind.
  destruct (Hx c) as (Ht & Hw & Hp).
  destruct (x c) as [[a | e | p] c'] eqn:E; simpl in *.
  - destruct (Hk a c') as (Ht' & Hw' & Hp').
    repeat split; congruence.
  - repeat split; try assumption. discriminate.
  - exfalso. apply (Hp p). reflexivity.
Qed.

Lemma reads_only_readPort addr : reads_only (readPort addr).
Proof.
  unfold readPort. apply reads_only_bind; [apply reads_only_ReadFull |].
  intros. apply reads_only_ret.
Qed.

Lemma reads_only_getTargetAddress : reads_only getTargetAddress.
Proof.
  unfold getTargetAddress.
  apply reads_only_bind; [apply reads_only_ReadFull |]. intros buf.
  destruct (negb _); [apply reads_only_fail |].
  destruct (negb _); [apply reads_only_fail |].
  destruct (Byte.eqb _ atypIPv4).
  { apply reads_only_bind; [apply reads_only_ReadFull |].
    intros. apply reads_only_readPort. }
  destruct (Byte.eqb _ atypDomain).
  { apply reads_only_bind; [apply reads_only_ReadFull |]. intros.
    apply reads_only_bind; [apply reads_only_ReadFull |].
    intros. apply reads_only_readPort. }
  destruct (Byte.eqb _ atypIPv6).
  { apply reads_only_bind; [apply reads_only_ReadFull |].
    intros. apply reads_only_readPort. }
  apply reads_only_fail.
Qed.

Lemma Write_trace data c :
  (fst (Write data c) = Ok tt
   /\ trace (snd (Write data c)) = (trace c ++ [ClientWrite data true])%list)
  \/ (fst (Write data c) = Err "write: broken pipe"
      /\ trace (snd (Write data c))
         = (trace c ++ [ClientWrite data false])%list).
Proof.
  unfold Write. destruct (writable c); simpl; [right | left]; split;
    reflexivity.
Qed.

Lemma handleHandshake_trace c :
  match handleHandshake c with
  | (Ok _, c1) => trace c1 = (trace c ++ [ClientWrite [x05; x00] true])%list
  | (Err _, c1) =>
      trace c1 = trace c
      \/ trace c1 = (trace c ++ [ClientWrite [x05; x00] false])%list
  | (Panic _, _) => False
  end.
Proof.
  unfold handleHandshake, bind.
  destruct (reads_only_ReadFull 2 c) as (Ht & _ & Hp).
  destruct (ReadFull 2 c) as [[buf | e | p] c1]; simpl in Ht, Hp;
    [| left; assumption | apply (Hp p); reflexivity].
  destruct (negb _); [left; assumption |].
  destruct (_ =? 0); [left; assumption |].
  match goal with |- context [ReadFull ?n c1] =>
    destruct (reads_only_ReadFull n c1) as (Ht2 & _ & Hp2);
    destruct (ReadFull n c1) as [[ms | e | p] c2]; simpl in Ht2, Hp2;
    [| left; congruence | apply (Hp2 p); reflexivity]
  end.
  destruct (Write_trace [socks5Version; noAuth] c2) as [[Hr Hw] | [Hr Hw]];
    destruct (Write [socks5Version; noAuth] c2) as [r c3]; simpl in Hr, Hw;
    subst r; rewrite Hw, Ht2, Ht; [reflexivity | right; reflexivity].
Qed.

Lemma GetHealthyConnection_no_panic (m : Manager) (index : Z) p :
  GetHealthyConnection m index <> Panic p.
Proof.
  destruct (Z.lt_ge_cases index 0) as [H | H].
  - rewrite GetHealthyConnection_invalid by (left; assumption). discriminate.
  - destruct (Z.lt_ge_cases index (Z.of_nat (List.length (connections m))))
      as [H' | H'].
    + destruct (GetHealthyConnection_in_range m index) as (conn & _ & E);
        [lia |].
      rewrite E. destruct (healthy conn); discriminate.
    + rewrite GetHealthyConnection_invalid by (right; assumption).
      discriminate.
Qed.

Lemma GetRandomHealthyConnection_no_panic (m : Manager) (now : Z) p :
  0 <= now -> GetRandomHealthyConnection m now <> Panic p.
Proof.
  intros Hnow. unfold GetRandomHealthyConnection.
  destruct (Z.of_nat (List.length (healthyConns m)) =? 0) eqn:E0;
    [discriminate |].
  apply Z.eqb_neq in E0.
  rewrite Z.rem_mod_nonneg by lia.
  destruct (index_in_range (healthyConns m)
              (now mod Z.of_nat (List.length (healthyConns m))))
    as (conn & _ & Hi).
  { apply Z.mod_pos_bound. lia. }
  rewrite Hi. discriminate.
Qed.

Lemma selectConnection_no_panic env index p :
  0 <= nowNano env -> selectConnection env index <> Panic p.
Proof.
  intros H. unfold selectConnection. destruct (index =? 0).
  - apply GetRandomHealthyConnection_no_panic. assumption.
  - apply GetHealthyConnection_no_panic.
Qed.

End Replies.

(** C4. On a fresh client connection, with the clock not before 1970:
    once the greeting and the request are read, the handler writes the
    method selection [05 00] and then one message of 10 bytes and nothing
    else: [05 00 00 01 00 00 00 00 00 00] when a tunnel is selected and the
    dial succeeds, [05 01 00 01 00 00 00 00 00 00] otherwise, and after this
    one the connection is closed at once. When the greeting is refused or
    cut short nothing is written, or only a method selection that fails;
    when the request is refused or cut short only the method selection is
    written: in both cases no byte of a reply, and the connection is
    closed. *)
Theorem handleConnection_reply :
  forall (env : Proxy.Env) (index : Z) (c : Proxy.Conn),
    Proxy.trace c = [] ->
    0 <= Proxy.nowNano env ->
    let events := Proxy.trace (Proxy.handleConnection env index c) in
    match Proxy.handleHandshake c with
    | (Ok _, c1) =>
        match Proxy.getTargetAddress c1 with
        | (Ok targetAddr, _) =>
            let upstream :=
              match Proxy.selectConnection env index with
              | Ok wgConn =>
                  Proxy.dialThroughInterface env (InterfaceName wgConn)
                                             targetAddr
              | _ => false
              end in
            Proxy.clientWrites events
            = [[x05; x00];
               [x05; if upstream then x00 else x01; x00; x01; x00; x00; x00;
                x00; x00; x00]]
            /\ (upstream = false ->
                exists before ok,
                  events
                  = (before
                     ++ [Proxy.ClientWrite
                           [x05; x01; x00; x01; x00; x00; x00; x00; x00; x00]
                           ok;
                         Proxy.ClientClose])%list)
        | (_, _) =>
            events = [Proxy.ClientWrite [x05; x00] true; Proxy.ClientClose]
        end
    | (_, _) =>
        events = [Proxy.ClientClose]
        \/ events = [Proxy.ClientWrite [x05; x00] false; Proxy.ClientClose]
    end.
Proof.
  intros env index c Htr Hnow events. subst events.
  unfold Proxy.handleConnection, Proxy.serve.
  pose proof (handleHandshake_trace c) as Hh.
  destruct (Proxy.handleHandshake c) as [[[] | e | p] c1];
    [| destruct Hh as [Hh | Hh]; simpl; rewrite Hh, Htr; auto | contradiction].
  rewrite Htr in Hh. simpl in Hh.
  destruct (reads_only_getTargetAddress c1) as (Ht & _ & Hp).
  destruct (Proxy.getTargetAddress c1) as [[targetAddr | e | p] c2];
    simpl in Ht, Hp;
    [| simpl; rewrite Ht, Hh; reflexivity | exfalso; apply (Hp p); reflexivity].
  rewrite Hh in Ht.
  pose proof (selectConnection_no_panic env index) as Hsel.
  destruct (Proxy.selectConnection env index) as [wgConn | e | p];
    [| | exfalso; apply (Hsel p); [assumption | reflexivity]].
  - destruct (Proxy.dialThroughInterface env (InterfaceName wgConn) targetAddr)
      eqn:Hdial.
    + split; [| discriminate].
      unfold Proxy.sendConnectResponse, Proxy.relay.
      match goal with |- context [Proxy.Write ?d ?cc] =>
        destruct (Write_trace d cc) as [[Hr Hw] | [Hr Hw]];
        destruct (Proxy.Write d cc) as [r c3]; simpl in Hr, Hw; subst r
      end;
        [destruct (Proxy.relayPanic env) |];
        simpl; rewrite Hw; simpl; rewrite Ht; reflexivity.
    + unfold Proxy.sendConnectResponse.
      match goal with |- context [Proxy.Write ?d ?cc] =>
        destruct (Write_trace d cc) as [[Hr Hw] | [Hr Hw]];
        destruct (Proxy.Write d cc) as [r c3]; simpl in Hr, Hw; subst r
      end; simpl; rewrite Hw; simpl; rewrite Ht; simpl;
        (split; [reflexivity | intros _; eexists [_; _], _; reflexivity]).
  - unfold Proxy.sendConnectResponse.
    match goal with |- context [Proxy.Write ?d ?cc] =>
      destruct (Write_trace d cc) as [[Hr Hw] | [Hr Hw]];
      destruct (Proxy.Write d cc) as [r c3]; simpl in Hr, Hw; subst r
    end; simpl; rewrite Hw, Ht; simpl;
      (split; [reflexivity | intros _; eexists [_], _; reflexivity]).
Qed.

Lemma handleConnection_reply_witness :
  Proxy.clientWrites
    (Proxy.trace
       (Proxy.handleConnection (Examples.proxyEnv Examples.managerA) 2
          (Examples.client (Examples.greeting ++ Examples.connectIPv4))))
  = [[x05; x00]; [x05; x01; x00; x01; x00; x00; x00; x00; x00; x00]].
Proof.
  pose proof (handleConnection_reply (Examples.proxyEnv Examples.managerA) 2
                (Examples.client (Examples.greeting ++ Examples.connectIPv4))
                eq_refl) as H.
  assert (Hnow : 0 <= Proxy.nowNano (Examples.proxyEnv Examples.managerA))
    by (vm_compute; discriminate).
  specialize (H Hnow). vm_compute in H. destruct H as [H _].
  vm_compute. exact H.
Defined.

(** ** The life of a client connection *)

Section Handler.

Import Proxy.

(** All the handler can do on a fresh connection. *)
Lemma handleConnection_shapes (env : Env) (index : Z) (c : Conn) :
  trace c = [] ->
  let tr := trace (handleConnection env index c) in
  let hello := ClientWrite [x05; x00] true in
  tr = [ClientClose]
  \/ tr = [ClientWrite [x05; x00] false; ClientClose]
  \/ tr = [hello; ClientClose]
  \/ (exists ok e,
         selectConnection env index = Err e
         /\ tr = [hello; ClientWrite (connectResponse repFailure) ok;
                  ClientClose])
  \/ (exists p,
         selectConnection env index = Panic p
         /\ tr = [hello; Crash p; ClientClose])
  \/ (exists conn target ok,
         selectConnection env index = Ok conn
         /\ dialThroughInterface env (InterfaceName conn) target = false
         /\ tr = [hello; Dial (InterfaceName conn) target false;
                  ClientWrite (connectResponse repFailure) ok; ClientClose])
  \/ (exists conn target,
         selectConnection env index = Ok conn
         /\ dialThroughInterface env (InterfaceName conn) target = true
         /\ relayPanic env = None
         /\ tr = [hello; Dial (InterfaceName conn) target true;
                  ClientWrite (connectResponse repSuccess) true;
                  StatsCall (Stats.IncrementRequests (Index conn)); Relay;
                  TargetClose; ClientClose])
  \/ (exists conn target,
         selectConnection env index = Ok conn
         /\ dialThroughInterface env (InterfaceName conn) target = true
         /\ tr = [hello; Dial (InterfaceName conn) target true;
                  ClientWrite (connectResponse repSuccess) false;
                  TargetClose; ClientClose])
  \/ (exists conn target msg,
         selectConnection env index = Ok conn
         /\ dialThroughInterface env (InterfaceName conn) target = true
         /\ relayPanic env = Some msg
         /\ tr = [hello; Dial (InterfaceName conn) target true;
                  ClientWrite (connectResponse repSuccess) true;
                  StatsCall (Stats.IncrementRequests (Index conn)); Relay;
                  Crash msg]).
Proof.
  intros Htr tr hello. subst tr hello.
  unfold handleConnection, serve.
  pose proof (handleHandshake_trace c) as Hh.
  destruct (handleHandshake c) as [[[] | e | p] c1];
    [| destruct Hh as [Hh | Hh]; simpl; rewrite Hh, Htr; auto | contradiction].
  rewrite Htr in Hh. simpl in Hh.
  destruct (reads_only_getTargetAddress c1) as (Ht & _ & Hp).
  destruct (getTargetAddress c1) as [[targetAddr | e | p] c2];
    simpl in Ht, Hp;
    [| simpl; rewrite Ht, Hh; auto | exfalso; apply (Hp p); reflexivity].
  rewrite Hh in Ht.
  destruct (selectConnection env index) as [wgConn | e | p].
  - destruct (dialThroughInterface env (InterfaceName wgConn) targetAddr)
      eqn:Hdial.
    + unfold sendConnectResponse, relay.
      match goal with |- context [Write ?d ?cc] =>
        destruct (Write_trace d cc) as [[Hr Hw] | [Hr Hw]];
        destruct (Write d cc) as [r c3]; simpl in Hr, Hw; subst r
      end;
        [destruct (relayPanic env) as [msg |] eqn:Hmk |];
        simpl; rewrite Hw; simpl; rewrite Ht; simpl.
      * do 8 right. exists wgConn, targetAddr, msg. auto.
      * do 6 right. left. exists wgConn, targetAddr. auto.
      * do 7 right. left. exists wgConn, targetAddr. auto.
    + unfold sendConnectResponse.
      match goal with |- context [Write ?d ?cc] =>
        destruct (Write_trace d cc) as [[Hr Hw] | [Hr Hw]];
        destruct (Write d cc) as [r c3]; simpl in Hr, Hw; subst r
      end; simpl; rewrite Hw; simpl; rewrite Ht; simpl;
        do 5 right; left; exists wgConn, targetAddr; eauto.
  - unfold sendConnectResponse.
    match goal with |- context [Write ?d ?cc] =>
      destruct (Write_trace d cc) as [[Hr Hw] | [Hr Hw]];
      destruct (Write d cc) as [r c3]; simpl in Hr, Hw; subst r
    end; simpl; rewrite Hw, Ht; simpl;
      do 3 right; left; eauto.
  - simpl. rewrite Ht. simpl. do 4 right. left. eauto.
Qed.

(** With the clock not before 1970 and a buffer for the relay the handler
    does not panic. *)
Lemma handleConnection_no_panic (env : Env) (index : Z) (c : Conn) :
  trace c = [] ->
  0 <= nowNano env ->
  relayPanic env = None ->
  panicked (trace (handleConnection env index c)) = false.
Proof.
  intros Htr Hnow Hmk.
  pose proof (selectConnection_no_panic env index) as Hsel.
  destruct (handleConnection_shapes env index c Htr)
    as [H | [H | [H | [(ok & e & _ & H) | [(p & Hs & H)
       | [(conn & target & ok & _ & _ & H)
       | [(conn & target & _ & _ & _ & H)
       | [(conn & target & _ & _ & H)
       | (conn & target & msg & _ & _ & Hmk' & H)]]]]]]]];
    try (rewrite H; reflexivity).
  - exfalso. apply (Hsel p); assumption.
  - congruence.
Qed.

End Handler.

(** ** Exit codes *)

Section ExitCodes.

Lemma tickerInterval_seconds (c : Config.WireGuardConfig) :
  -9223372036 <= Config.HealthCheckInterval c <= 9223372036 ->
  tickerInterval (NewManager c) = Config.HealthCheckInterval c * 1000000000.
Proof.
  intros H. unfold tickerInterval, NewManager, wrap_signed.
  cbn [checkInterval].
  change (2 ^ (64 - 1)) with 9223372036854775808.
  change (2 ^ 64) with 18446744073709551616.
  rewrite Z.mod_small; lia.
Qed.

Lemma warnings_count (host : Host) (l : list Connection) :
  List.length
    (flat_map (fun c =>
                 match bringUpConnection host c with
                 | Some err => ["connection " ++ Name c ++ ": " ++ err]
                 | None => []
                 end) l)
  = List.length
      (List.filter (fun c =>
                      match bringUpConnection host c with
                      | Some _ => true
                      | None => false
                      end) l).
Proof.
  induction l as [| c l IH]; [reflexivity |].
  cbn [flat_map List.filter]. rewrite length_app, IH.
  destruct (bringUpConnection host c); reflexivity.
Qed.

Lemma clients_do_not_panic (env : Main.Env) (cfg : Config.Config) :
  0 < Config.BufferSize (Config.Proxy cfg) ->
  (forall cl,
      In cl (Main.clients env) ->
      0 <= Main.clock cl
      /\ Main.memory cl (Config.BufferSize (Config.Proxy cfg)) = None) ->
  Main.handlerPanics env cfg = false.
Proof.
  intros Hb Hcl. unfold Main.handlerPanics.
  apply not_true_is_false. intros Hex.
  apply existsb_exists in Hex. destruct Hex as (cl & Hin & Hp).
  apply andb_prop in Hp. destruct Hp as [_ Hp].
  destruct (Hcl cl Hin) as [Hclock Hmem].
  unfold Main.handled in Hp.
  rewrite handleConnection_no_panic in Hp; [discriminate | reflexivity | |].
  - exact Hclock.
  - unfold Proxy.relayPanic, Proxy.makeslice.
    cbn [Main.handlerEnv Proxy.cfg Proxy.allocate].
    assert (E1 : (Config.BufferSize (Config.Proxy cfg) <? 0) = false)
      by (apply Z.ltb_ge; lia).
    assert (E2 : (Config.BufferSize (Config.Proxy cfg) =? 0) = false)
      by (apply Z.eqb_neq; lia).
    rewrite E1, Hmem, E2. reflexivity.
Qed.

Lemma Load_BufferSize (read : result Config.Config) (cfg : Config.Config) :
  Config.Load read = Ok cfg -> Config.BufferSize (Config.Proxy cfg) <> 0.
Proof.
  unfold Config.Load. destruct read as [raw | e | p]; try discriminate.
  intros H. inversion H. simpl. unfold Config.dflt.
  destruct (Z.eqb_spec (Config.BufferSize (Config.Proxy raw)) 0);
    [discriminate | assumption].
Qed.

End ExitCodes.

(** C7, as the code has it. The process exits with code 1 when the
    configuration cannot be loaded. Once it is loaded:
    - when the interval of the health checks, in nanoseconds on 64 bits, is
      not positive (a negative [health_check_interval]), the goroutine of
      the prober panics in [time.NewTicker] and the process ends with
      code 2;
    - otherwise the startup ends with the process running: a tunnel that
      fails to come up gives one warning, a proxy that cannot listen gives
      one error that is logged, whatever their number; the process then
      ends with code 0 when the signal comes, and before that only by a
      panic in the handler of a client, with code 2;
    - no handler panics when the buffer size is not negative (it is not 0:
      [Load] has put the default there), the buffer can be allocated and
      the clock is not before 1970. *)
Theorem main_exit_codes :
  forall (env : Main.Env),
    (forall e, Config.Load (Main.readConfig env) = Err e ->
               Main.main env = Main.Ended 1)
    /\ (forall cfg, Config.Load (Main.readConfig env) = Ok cfg ->
          let m := NewManager (Config.WireGuard cfg) in
          (-9223372036 <= Config.HealthCheckInterval (Config.WireGuard cfg)
                       <= 9223372036 ->
           tickerInterval m
           = Config.HealthCheckInterval (Config.WireGuard cfg) * 1000000000)
          /\ (tickerInterval m <= 0 -> Main.main env = Main.Ended 2)
          /\ (0 < tickerInterval m ->
              exists s,
                Main.main env
                = Main.Started s
                    (if Main.handlerPanics env cfg then Main.Exit 2
                     else if Main.signal env then Main.Exit 0
                     else Main.Waiting)
                /\ List.length (Main.initWarnings s)
                   = List.length
                       (List.filter
                          (fun c =>
                             match bringUpConnection (Main.host env) c with
                             | Some _ => true
                             | None => false
                             end)
                          (connections m))
                /\ (forall k port e,
                       In (k, port) (Main.proxies cfg) ->
                       Main.listen env k ("0.0.0.0:" ++ fmt_d port) = Some e ->
                       In ("failed to listen on 0.0.0.0:" ++ fmt_d port
                           ++ ": " ++ e)
                          (Main.proxyErrors s)))
          /\ (0 <= Config.BufferSize (Config.Proxy cfg) ->
              (forall cl,
                  In cl (Main.clients env) ->
                  0 <= Main.clock cl
                  /\ Main.memory cl (Config.BufferSize (Config.Proxy cfg))
                     = None) ->
              Main.handlerPanics env cfg = false)).
Proof.
  intros env. split.
  - intros e H. unfold Main.main. rewrite H. reflexivity.
  - intros cfg H m. subst m.
    split; [apply tickerInterval_seconds |].
    split; [| split].
    + intros Hi. unfold Main.main. rewrite H.
      cbn [Initialize]. unfold StartHealthChecks.
      apply Z.leb_le in Hi. rewrite Hi. reflexivity.
    + intros Hi. unfold Main.main. rewrite H.
      cbn [Initialize]. unfold StartHealthChecks.
      apply Z.leb_gt in Hi. rewrite Hi.
      eexists. split; [reflexivity |].
      cbn [Main.initWarnings Main.proxyErrors warnings].
      split; [apply warnings_count |].
      intros k port e Hin Hl.
      apply in_flat_map.
      exists (port, Proxy.StartProxy (Main.listen env k) k port).
      split.
      * apply in_map_iff. exists (k, port).
        split; [reflexivity | assumption].
      * unfold Proxy.StartProxy. rewrite Hl. simpl. left. reflexivity.
    + intros Hb. apply clients_do_not_panic.
      pose proof (Load_BufferSize _ _ H). lia.
Qed.

Lemma main_exit_codes_witness :
  Main.main Examples.noConfig = Main.Ended 1
  /\ Main.main Samples.negativeInterval = Main.Ended 2
  /\ exists s, Main.main Examples.goodStart = Main.Started s (Main.Exit 0).
Proof.
  split; [| split].
  - apply (proj1 (main_exit_codes Examples.noConfig)
             "reading config file: no such file").
    reflexivity.
  - apply (proj1 (proj2 (proj2 (main_exit_codes Samples.negativeInterval)
                           _ eq_refl))).
    vm_compute. discriminate.
  - destruct (proj1 (proj2 (proj2 (proj2 (main_exit_codes Examples.goodStart)
                                      _ eq_refl))))
      as (s & Hs & _).
    + vm_compute. reflexivity.
    + exists s. exact Hs.
Defined.

(** Every tunnel fails to come up and no listener can bind its port, and
    yet the process goes on and ends with code 0 when the signal comes. *)
Lemma main_startup_failures_exit_zero :
  (forall c, In c (connections Examples.manager) ->
             bringUpConnection Examples.badHost c <> None)
  /\ (exists s,
         Main.main Examples.failingStart = Main.Started s (Main.Exit 0)
         /\ Main.listening s = []
         /\ List.length (Main.proxyErrors s) = 3%nat
         /\ List.length (Main.initWarnings s) = 2%nat)
  /\ ~ (exists code,
           Main.outcome (Main.main Examples.failingStart) = Main.Exit code
           /\ code <> 0).
Proof.
  split; [| split].
  - intros c [H | [H | []]]; subst c; vm_compute; discriminate.
  - eexists. split; [vm_compute; reflexivity |]. repeat split.
  - vm_compute. intros (code & H & Hne). inversion H. congruence.
Qed.

(** ** The wg-quick parser *)

Section Parser.

Lemma string_app_assoc (a b c : string) : (a ++ b) ++ c = a ++ (b ++ c).
Proof. induction a; simpl; [| rewrite IHa]; reflexivity. Qed.

Lemma string_app_nil_r (a : string) : a ++ "" = a.
Proof. induction a; simpl; [| rewrite IHa]; reflexivity. Qed.

Lemma Contains_cut (s : string) (sep : ascii) :
  Contains s sep = match cut s sep with Some _ => true | None => false end.
Proof.
  induction s as [| c s IH]; simpl; [reflexivity |].
  destruct (Ascii.eqb c sep); simpl; [reflexivity |].
  rewrite IH. destruct (cut s sep) as [[a b] |]; reflexivity.
Qed.

Lemma appendAddresses_tokens (addrList : list string) : forall acc,
  appendAddresses acc addrList
  = (acc ++ List.filter (fun a => negb (String.eqb a ""))
                        (map TrimSpace addrList))%list.
Proof.
  unfold appendAddresses.
  induction addrList as [| a l IH]; intros acc; simpl.
  - rewrite app_nil_r. reflexivity.
  - rewrite IH. destruct (negb (String.eqb (TrimSpace a) "")); simpl;
      [rewrite <- app_assoc |]; reflexivity.
Qed.

(** One iteration of the loop, by the kind of the line. *)
Lemma parseLine_classify (st : ParseState) (line : string) :
  parseLine st line
  = match Spec.classify line with
    | Spec.InterfaceHeader => writeLine (setSection true st) line
    | Spec.OtherHeader => writeLine (setSection false st) line
    | Spec.CommentOrBlank | Spec.Other => writeLine st line
    | Spec.Setting key value =>
        if inInterface st && String.eqb key "Address" then
          addAddresses st value
        else if inInterface st && interfaceOnlySettings key then st
        else writeLine st line
    end.
Proof.
  unfold parseLine, Spec.classify.
  destruct (String.eqb (TrimSpace line) "[Interface]"); [reflexivity |].
  destruct (HasPrefix (TrimSpace line) "["); [reflexivity |].
  destruct (String.eqb (TrimSpace line) "" || HasPrefix (TrimSpace line) "#"
            || HasPrefix (TrimSpace line) ";"); [reflexivity |].
  rewrite Contains_cut. unfold SplitN2.
  destruct (cut (TrimSpace line) "=") as [[key value] |]; reflexivity.
Qed.

Lemma parseLine_step (st : ParseState) (line : string) :
  let l := (Spec.sectionOf (inInterface st) line, line) in
  wgConfig (parseLine st line)
  = wgConfig st ++ (if Spec.dropped l then "" else line ++ LF)
  /\ addresses (parseLine st line)
     = (addresses st ++ Spec.addressesOf l)%list
  /\ inInterface (parseLine st line) = fst l.
Proof.
  rewrite parseLine_classify.
  unfold Spec.dropped, Spec.addressesOf, Spec.sectionOf. cbn [fst snd].
  destruct (Spec.classify line) as [| | | key value |];
    try (cbn; rewrite app_nil_r; repeat split; reflexivity).
  change (Spec.wgQuickOnly key) with (interfaceOnlySettings key).
  destruct (inInterface st) eqn:Hin; cbn [andb].
  - destruct (String.eqb key "Address") eqn:Hk.
    + apply String.eqb_eq in Hk. subst key.
      change (interfaceOnlySettings "Address") with true.
      unfold addAddresses. cbn [wgConfig addresses inInterface].
      rewrite appendAddresses_tokens, string_app_nil_r.
      repeat split; try reflexivity; assumption.
    + destruct (interfaceOnlySettings key); cbn;
        rewrite ?string_app_nil_r, app_nil_r;
        repeat split; try reflexivity; assumption.
  - cbn. rewrite app_nil_r. repeat split; try reflexivity; assumption.
Qed.

Lemma parse_loop (lines : list string) : forall st,
  let st' := fold_left parseLine lines st in
  let marked := Spec.sections (inInterface st) lines in
  wgConfig st'
  = wgConfig st
    ++ Spec.joinLines
         (map snd (List.filter (fun l => negb (Spec.dropped l)) marked))
  /\ addresses st'
     = (addresses st ++ flat_map Spec.addressesOf marked)%list.
Proof.
  induction lines as [| line rest IH]; intros st; cbn zeta.
  - cbn. rewrite string_app_nil_r, app_nil_r. split; reflexivity.
  - cbn [fold_left Spec.sections List.filter flat_map].
    destruct (IH (parseLine st line)) as [IHc IHa]. rewrite IHc, IHa.
    destruct (parseLine_step st line) as (Hc & Ha & Hi).
    cbn [fst] in Hi. rewrite Hc, Ha, Hi.
    rewrite <- app_assoc, string_app_assoc. split; [| reflexivity].
    destruct (Spec.dropped _); cbn [negb map snd Spec.joinLines fold_right];
      [| rewrite string_app_assoc]; reflexivity.
Qed.

Lemma dropped_iff (l : bool * string) :
  Spec.dropped l = true
  <-> fst l = true
      /\ exists key value,
          Spec.classify (snd l) = Spec.Setting key value
          /\ In key ["Address"; "DNS"; "MTU"; "Table"; "PreUp"; "PostUp";
                     "PreDown"; "PostDown"; "SaveConfig"].
Proof.
  unfold Spec.dropped, Spec.wgQuickOnly. split.
  - destruct (Spec.classify (snd l)) as [| | | key value |];
      try discriminate.
    intros H. apply andb_prop in H. destruct H as [H1 H2].
    apply existsb_exists in H2. destruct H2 as (k & Hin & Hk).
    apply String.eqb_eq in Hk. subst k.
    split; [assumption |]. exists key, value. split; [reflexivity | exact Hin].
  - intros (H1 & key & value & Hc & Hin). rewrite Hc, H1.
    rewrite andb_true_l.
    apply existsb_exists. exists key. split; [exact Hin |].
    apply String.eqb_refl.
Qed.

(** Lines of a [Peer] section, headers, comments and blank lines stay. *)
Lemma kept_lines (l : bool * string) :
  fst l = false
  \/ Spec.classify (snd l) = Spec.InterfaceHeader
  \/ Spec.classify (snd l) = Spec.OtherHeader
  \/ Spec.classify (snd l) = Spec.CommentOrBlank
  \/ Spec.classify (snd l) = Spec.Other ->
  Spec.dropped l = false.
Proof.
  unfold Spec.dropped.
  intros [H | [H | [H | [H | H]]]]; rewrite H; try reflexivity.
  destruct (Spec.classify (snd l)); reflexivity.
Qed.

Example parse_interfaceConf :
  parseWireGuardConfig Examples.goodHost "/etc/wireguard/wg0.conf"
  = Ok ("[Interface]" ++ LF ++ "PrivateKey = kA=" ++ LF ++ LF
        ++ "[Peer]" ++ LF ++ "PublicKey = kB=" ++ LF
        ++ "AllowedIPs = 0.0.0.0/0" ++ LF ++ LF,
        ["10.0.0.2/32"; "fd00::2/128"]).
Proof. vm_compute. reflexivity. Qed.

Example parse_peer_address_kept :
  parseLines ("[Peer]" ++ LF ++ "Address = 10.9.9.9/32")
  = {| wgConfig := "[Peer]" ++ LF ++ "Address = 10.9.9.9/32" ++ LF;
       addresses := [];
       inInterface := false |}.
Proof. vm_compute. reflexivity. Qed.

End Parser.

(** C6. The parser gives the Address tokens of the [Interface] section
    (every Address value split on commas, trimmed, empty tokens left out,
    in order) and the file without the lines that set a wg-quick-only key
    inside [Interface], every other line as it is; it fails when the file
    cannot be read and when there is no Address token. *)
Theorem parseWireGuardConfig_filters :
  forall (host : Host) (configPath : string),
    parseWireGuardConfig host configPath
    = match ReadFile host configPath with
      | Ok data =>
          match Spec.addressTokens data with
          | [] => Err "no Address found in config"
          | tokens => Ok (Spec.filteredConfig data, tokens)
          end
      | Err e => Err e
      | Panic p => Panic p
      end.
Proof.
  intros host configPath. unfold parseWireGuardConfig.
  destruct (ReadFile host configPath) as [data | e | p]; try reflexivity.
  unfold parseLines.
  destruct (parse_loop (Split data "010") parseInit) as [Hc Ha].
  simpl in Hc, Ha. rewrite Hc, Ha.
  unfold Spec.addressTokens, Spec.filteredConfig, Spec.fileLines.
  destruct (flat_map Spec.addressesOf (Spec.sections false (Split data "010")));
    reflexivity.
Qed.

(** * Beyond the selection and parsing paths *)

(** ** The stats tracker *)

Section TrackerFacts.

Lemma int64_small (z : Z) :
  - 2 ^ 63 <= z <= Tracker.max_int64 -> Tracker.int64 z = z.
Proof.
  unfold Tracker.int64, wrap_signed, Tracker.max_int64.
  change (2 ^ (64 - 1)) with 9223372036854775808.
  change (2 ^ 64) with 18446744073709551616.
  change (2 ^ 63) with 9223372036854775808.
  intros H. rewrite Z.mod_small; lia.
Qed.

Lemma length_alter {A : Type} (f : A -> A) (l : list A) : forall i,
  List.length (Tracker.alter f i l) = List.length l.
Proof.
  induction l as [| x l IH]; intros [| i]; simpl; try reflexivity.
  rewrite IH. reflexivity.
Qed.

Lemma nth_alter {A : Type} (f : A -> A) (d : A) (l : list A) : forall i j,
  (i < List.length l)%nat ->
  nth j (Tracker.alter f i l) d
  = if Nat.eqb i j then f (nth j l d) else nth j l d.
Proof.
  induction l as [| x l IH]; intros i j Hi; simpl in Hi; [lia |].
  destruct i as [| i], j as [| j]; simpl; try reflexivity.
  apply IH. lia.
Qed.

Lemma inRange_spec (t : Tracker.Tracker) (i : Z) :
  Tracker.inRange t i = true
  <-> 0 <= i < Z.of_nat (List.length (Tracker.connections t)).
Proof.
  unfold Tracker.inRange. rewrite andb_true_iff, Z.geb_leb, Z.leb_le, Z.ltb_lt.
  tauto.
Qed.

Lemma NewTracker_shape (n now : Z) (t : Tracker.Tracker) :
  Tracker.NewTracker n now = Ok t ->
  0 <= n
  /\ Tracker.totalRequests t = 0
  /\ Tracker.connections t = repeat Tracker.zeroStats (Z.to_nat n).
Proof.
  unfold Tracker.NewTracker. destruct (n <? 0) eqn:E; [discriminate |].
  apply Z.ltb_ge in E. intros H. inversion H; subst. simpl. auto.
Qed.

Lemma at_index_new (n now : Z) (t : Tracker.Tracker) (j : Z) :
  Tracker.NewTracker n now = Ok t ->
  Tracker.at_index t j = Tracker.zeroStats.
Proof.
  intros H. apply NewTracker_shape in H. destruct H as (_ & _ & Hc).
  unfold Tracker.at_index. rewrite Hc.
  destruct (nth_in_or_default (Z.to_nat j)
              (repeat Tracker.zeroStats (Z.to_nat n)) Tracker.zeroStats)
    as [Hin | Hd]; [| exact Hd].
  apply repeat_spec in Hin. exact Hin.
Qed.

(** One request: the total grows by one, and so does the counter of the
    tunnel when the index is one. *)
Lemma IncrementRequests_step (t : Tracker.Tracker) (a : Z) :
  0 <= Tracker.totalRequests t < Tracker.max_int64 ->
  (forall j, 0 <= Tracker.RequestCount (Tracker.at_index t j)
             <= Tracker.totalRequests t) ->
  let t' := Tracker.IncrementRequests t a in
  Tracker.totalRequests t' = Tracker.totalRequests t + 1
  /\ List.length (Tracker.connections t')
     = List.length (Tracker.connections t)
  /\ (forall j : nat,
         Tracker.RequestCount (nth j (Tracker.connections t') Tracker.zeroStats)
         = Tracker.RequestCount (nth j (Tracker.connections t) Tracker.zeroStats)
           + (if Tracker.inRange t a && Nat.eqb (Z.to_nat a) j then 1 else 0)).
Proof.
  intros Htot Hrc. unfold Tracker.IncrementRequests.
  assert (Hr : Tracker.inRange
                 {| Tracker.totalRequests :=
                      Tracker.int64 (Tracker.totalRequests t + 1);
                    Tracker.connections := Tracker.connections t;
                    Tracker.startTime := Tracker.startTime t |} a
               = Tracker.inRange t a) by reflexivity.
  rewrite Hr. clear Hr.
  assert (Ht : Tracker.int64 (Tracker.totalRequests t + 1)
               = Tracker.totalRequests t + 1)
    by (apply int64_small; unfold Tracker.max_int64 in *; lia).
  destruct (Tracker.inRange t a) eqn:Hin; cbn [andb].
  - apply inRange_spec in Hin. simpl.
    split; [exact Ht |]. split; [apply length_alter |].
    intros j. rewrite nth_alter by lia.
    destruct (Nat.eqb (Z.to_nat a) j) eqn:E; [| lia].
    simpl. apply Nat.eqb_eq in E.
    specialize (Hrc (Z.of_nat j)). unfold Tracker.at_index in Hrc.
    rewrite Nat2Z.id in Hrc.
    apply int64_small. unfold Tracker.max_int64 in *. lia.
  - simpl. split; [exact Ht |]. split; [reflexivity |]. intros j. lia.
Qed.

Lemma countRequests_general (indexes : list Z) : forall t,
  0 <= Tracker.totalRequests t ->
  Tracker.totalRequests t + Z.of_nat (List.length indexes)
  <= Tracker.max_int64 ->
  (forall j, 0 <= Tracker.RequestCount (Tracker.at_index t j)
             <= Tracker.totalRequests t) ->
  let t' := Tracker.countRequests t indexes in
  Tracker.totalRequests t'
  = Tracker.totalRequests t + Z.of_nat (List.length indexes)
  /\ List.length (Tracker.connections t')
     = List.length (Tracker.connections t)
  /\ (forall i,
         Tracker.inRange t i = true ->
         Tracker.RequestCount (Tracker.at_index t' i)
         = Tracker.RequestCount (Tracker.at_index t i)
           + Z.of_nat (count_occ Z.eq_dec indexes i)).
Proof.
  induction indexes as [| a rest IH]; intros t H0 Hmax Hrc; cbn zeta.
  - simpl. repeat split; intros; lia.
  - simpl List.length in Hmax. unfold Tracker.countRequests. simpl fold_left.
    destruct (IncrementRequests_step t a) as (Ht & Hl & Hn);
      [lia | exact Hrc |].
    destruct (IH (Tracker.IncrementRequests t a)) as (IHt & IHl & IHn).
    + lia.
    + rewrite Ht. lia.
    + intros j. unfold Tracker.at_index. rewrite Hn, Ht.
      specialize (Hrc j). unfold Tracker.at_index in Hrc.
      destruct (_ && _); lia.
    + unfold Tracker.countRequests in IHt, IHl, IHn.
      split; [rewrite IHt, Ht; simpl List.length; lia |].
      split; [rewrite IHl; exact Hl |].
      intros i Hi.
      assert (Hi' : Tracker.inRange (Tracker.IncrementRequests t a) i = true).
      { apply inRange_spec. rewrite Hl. apply inRange_spec. exact Hi. }
      rewrite (IHn i Hi'). unfold Tracker.at_index at 1. rewrite Hn.
      fold (Tracker.at_index t i).
      apply inRange_spec in Hi.
      simpl count_occ. destruct (Z.eq_dec a i) as [-> | Hne].
      * rewrite (proj2 (inRange_spec t i)) by exact Hi.
        rewrite Nat.eqb_refl. simpl andb. lia.
      * destruct (Tracker.inRange t a) eqn:Ha; cbn [andb]; [| lia].
        apply inRange_spec in Ha.
        destruct (Nat.eqb (Z.to_nat a) (Z.to_nat i)) eqn:E; [| lia].
        apply Nat.eqb_eq in E. lia.
Qed.

End TrackerFacts.

(** X1. On a new tracker for n tunnels, after any calls of
    [IncrementRequests] (fewer than 2^63): the total is the number of calls,
    whatever their indexes; the counter of a tunnel in [0, n) is the number
    of calls with its index; outside [0, n) the counter reads 0. *)
Theorem tracker_counts_requests :
  forall (n now : Z) (t : Tracker.Tracker) (indexes : list Z),
    Tracker.NewTracker n now = Ok t ->
    Z.of_nat (List.length indexes) <= Tracker.max_int64 ->
    let t' := Tracker.countRequests t indexes in
    Tracker.GetTotalRequests t' = Z.of_nat (List.length indexes)
    /\ Tracker.GetNumConnections t' = n
    /\ (forall i, 0 <= i < n ->
                  Tracker.GetConnectionRequests t' i
                  = Z.of_nat (count_occ Z.eq_dec indexes i))
    /\ (forall i, i < 0 \/ n <= i -> Tracker.GetConnectionRequests t' i = 0).
Proof.
  intros n now t indexes Hnew Hlen t'. subst t'.
  pose proof (NewTracker_shape n now t Hnew) as (Hn & Htot & Hconn).
  assert (Hlen0 : Z.of_nat (List.length (Tracker.connections t)) = n)
    by (rewrite Hconn, repeat_length; lia).
  destruct (countRequests_general indexes t) as (Ht & Hl & Hc).
  - lia.
  - lia.
  - intros j. rewrite (at_index_new n now t j Hnew), Htot. simpl. lia.
  - unfold Tracker.GetTotalRequests, Tracker.GetNumConnections,
      Tracker.GetConnectionRequests.
    split; [rewrite Ht, Htot; lia |].
    split; [rewrite Hl; exact Hlen0 |].
    split.
    + intros i Hi.
      assert (Hin : Tracker.inRange t i = true)
        by (apply inRange_spec; lia).
      rewrite (proj2 (inRange_spec _ i)) by (rewrite Hl; lia).
      rewrite (Hc i Hin), (at_index_new n now t i Hnew). simpl. lia.
    + intros i Hi.
      destruct (Tracker.inRange (Tracker.countRequests t indexes) i) eqn:E;
        [| reflexivity].
      apply inRange_spec in E. rewrite Hl in E. lia.
Qed.

Section TrackerUpdates.

(** What an update at an index in range does to the entries. *)
Lemma at_index_alter (t : Tracker.Tracker) (f : Tracker.ConnectionStats ->
                                                Tracker.ConnectionStats)
      (i j : Z) :
  Tracker.inRange t i = true ->
  Tracker.at_index
    (Tracker.set_connections
       (Tracker.alter f (Z.to_nat i) (Tracker.connections t)) t) j
  = if Nat.eqb (Z.to_nat i) (Z.to_nat j) then f (Tracker.at_index t j)
    else Tracker.at_index t j.
Proof.
  intros Hi. apply inRange_spec in Hi.
  unfold Tracker.at_index, Tracker.set_connections. simpl.
  apply nth_alter. lia.
Qed.

Lemma inRange_alter (t : Tracker.Tracker) f (i j : Z) :
  Tracker.inRange
    (Tracker.set_connections
       (Tracker.alter f (Z.to_nat i) (Tracker.connections t)) t) j
  = Tracker.inRange t j.
Proof.
  unfold Tracker.inRange, Tracker.set_connections. simpl.
  rewrite length_alter. reflexivity.
Qed.

Lemma same_slot (t : Tracker.Tracker) (i j : Z) :
  Tracker.inRange t i = true -> Tracker.inRange t j = true ->
  Nat.eqb (Z.to_nat i) (Z.to_nat j) = Z.eqb i j.
Proof.
  intros Hi Hj. apply inRange_spec in Hi, Hj.
  destruct (Z.eqb_spec i j) as [-> | Hne].
  - apply Nat.eqb_refl.
  - apply Nat.eqb_neq. lia.
Qed.

Lemma RecordLatency_inRange t i l j :
  Tracker.inRange (Tracker.RecordLatency t i l) j = Tracker.inRange t j.
Proof.
  unfold Tracker.RecordLatency.
  destruct (Tracker.inRange t i); [apply inRange_alter | reflexivity].
Qed.

Lemma SetConnectionHealth_inRange t i h now j :
  Tracker.inRange (Tracker.SetConnectionHealth t i h now) j
  = Tracker.inRange t j.
Proof.
  unfold Tracker.SetConnectionHealth.
  destruct (Tracker.inRange t i); [apply inRange_alter | reflexivity].
Qed.

Lemma recordLatencies_general (latencies : list Z) : forall t i,
  Tracker.inRange t i = true ->
  Forall (fun l => 0 <= l) latencies ->
  0 <= Tracker.LatencySum (Tracker.at_index t i) ->
  0 <= Tracker.LatencyCount (Tracker.at_index t i) ->
  Tracker.LatencySum (Tracker.at_index t i) + Tracker.sumZ latencies
  <= Tracker.max_int64 ->
  Tracker.LatencyCount (Tracker.at_index t i)
  + Z.of_nat (List.length latencies) <= Tracker.max_int64 ->
  let t' := Tracker.recordLatencies t i latencies in
  Tracker.inRange t' i = true
  /\ Tracker.LatencySum (Tracker.at_index t' i)
     = Tracker.LatencySum (Tracker.at_index t i) + Tracker.sumZ latencies
  /\ Tracker.LatencyCount (Tracker.at_index t' i)
     = Tracker.LatencyCount (Tracker.at_index t i)
       + Z.of_nat (List.length latencies)
  /\ (forall j, Tracker.inRange t j = true -> j <> i ->
                Tracker.at_index t' j = Tracker.at_index t j).
Proof.
  induction latencies as [| l rest IH]; intros t i Hi Hpos Hs Hc Hsum Hlen;
    cbn zeta.
  - simpl. repeat split; intros; first [assumption | lia | reflexivity].
  - inversion Hpos as [| x xs Hl Hrest]; subst.
    simpl Tracker.sumZ in Hsum. simpl List.length in Hlen.
    assert (Hsr : 0 <= Tracker.sumZ rest).
    { clear - Hrest. induction Hrest; simpl; lia. }
    unfold Tracker.recordLatencies. simpl fold_left.
    fold (Tracker.recordLatencies (Tracker.RecordLatency t i l) i rest).
    assert (Hat : forall j,
               Tracker.at_index (Tracker.RecordLatency t i l) j
               = if Nat.eqb (Z.to_nat i) (Z.to_nat j)
                 then
                   {| Tracker.RequestCount :=
                        Tracker.RequestCount (Tracker.at_index t j);
                      Tracker.IsHealthy :=
                        Tracker.IsHealthy (Tracker.at_index t j);
                      Tracker.LatencySum :=
                        Tracker.int64
                          (Tracker.LatencySum (Tracker.at_index t j)
                           + Tracker.int64 l);
                      Tracker.LatencyCount :=
                        Tracker.int64
                          (Tracker.LatencyCount (Tracker.at_index t j) + 1);
                      Tracker.LastCheckTime :=
                        Tracker.LastCheckTime (Tracker.at_index t j) |}
                 else Tracker.at_index t j).
    { intros j. unfold Tracker.RecordLatency. rewrite Hi.
      apply at_index_alter. exact Hi. }
    assert (Hl64 : Tracker.int64 l = l)
      by (apply int64_small; unfold Tracker.max_int64 in *; lia).
    destruct (IH (Tracker.RecordLatency t i l) i) as (IHr & IHs & IHc & IHo).
    + rewrite RecordLatency_inRange. exact Hi.
    + exact Hrest.
    + rewrite Hat, Nat.eqb_refl. simpl. rewrite Hl64, int64_small;
        unfold Tracker.max_int64 in *; lia.
    + rewrite Hat, Nat.eqb_refl. simpl. rewrite int64_small;
        unfold Tracker.max_int64 in *; lia.
    + rewrite Hat, Nat.eqb_refl. simpl. rewrite Hl64, int64_small;
        unfold Tracker.max_int64 in *; lia.
    + rewrite Hat, Nat.eqb_refl. simpl. rewrite int64_small;
        unfold Tracker.max_int64 in *; lia.
    + split; [exact IHr |].
      rewrite IHs, IHc, Hat, Nat.eqb_refl. simpl.
      rewrite Hl64, !int64_small by (unfold Tracker.max_int64 in *; lia).
      split; [lia |]. split; [lia |].
      intros j Hj Hne. rewrite IHo.
      * rewrite Hat, (same_slot t i j Hi Hj).
        destruct (Z.eqb_spec i j); [congruence | reflexivity].
      * rewrite RecordLatency_inRange. exact Hj.
      * exact Hne.
Qed.

End TrackerUpdates.

(** X2. On a new tracker, after latencies (not negative, their sum and
    their number below 2^63) are recorded for a tunnel in range, the average
    latency of that tunnel is their sum divided by their number, rounded
    down, and 0 when there is none; the other tunnels still read 0. *)
Theorem tracker_average_latency :
  forall (n now : Z) (t : Tracker.Tracker) (i : Z) (latencies : list Z),
    Tracker.NewTracker n now = Ok t ->
    0 <= i < n ->
    Forall (fun l => 0 <= l) latencies ->
    Tracker.sumZ latencies <= Tracker.max_int64 ->
    Z.of_nat (List.length latencies) <= Tracker.max_int64 ->
    let t' := Tracker.recordLatencies t i latencies in
    Tracker.GetAverageLatency t' i
    = (if Nat.eqb (List.length latencies) 0 then 0
       else Tracker.sumZ latencies / Z.of_nat (List.length latencies))
    /\ (forall j, j <> i -> Tracker.GetAverageLatency t' j = 0).
Proof.
  intros n now t i latencies Hnew Hi Hpos Hsum Hlen t'. subst t'.
  pose proof (NewTracker_shape n now t Hnew) as (Hn & Htot & Hconn).
  assert (Hlen0 : Z.of_nat (List.length (Tracker.connections t)) = n)
    by (rewrite Hconn, repeat_length; lia).
  assert (Hin : Tracker.inRange t i = true) by (apply inRange_spec; lia).
  assert (Hsr : 0 <= Tracker.sumZ latencies).
  { clear - Hpos. induction Hpos; simpl; lia. }
  destruct (recordLatencies_general latencies t i Hin Hpos)
    as (Hr & Hs & Hc & Ho);
    rewrite ?(at_index_new n now t i Hnew); simpl; try lia.
  rewrite (at_index_new n now t i Hnew) in Hs, Hc. simpl in Hs, Hc.
  split.
  - unfold Tracker.GetAverageLatency. rewrite Hr, Hs, Hc.
    destruct latencies as [| l rest]; [reflexivity |].
    simpl List.length. simpl Nat.eqb.
    destruct (Z.of_nat (S (List.length rest)) =? 0) eqn:E;
      [apply Z.eqb_eq in E; lia |].
    rewrite Z.quot_div_nonneg by lia.
    apply int64_small.
    assert (0 <= Tracker.sumZ (l :: rest) / Z.of_nat (S (List.length rest))
            <= Tracker.sumZ (l :: rest)).
    { split; [apply Z.div_pos; lia |].
      apply Z.div_le_upper_bound; [lia |]. nia. }
    unfold Tracker.max_int64 in *. lia.
  - intros j Hne. unfold Tracker.GetAverageLatency.
    destruct (Tracker.inRange (Tracker.recordLatencies t i latencies) j)
      eqn:Hj; [| reflexivity].
    assert (Hj' : Tracker.inRange t j = true).
    { clear - Hj. revert t Hj. induction latencies as [| l rest IH];
        intros t Hj; [exact Hj |].
      unfold Tracker.recordLatencies in Hj. simpl in Hj.
      apply IH in Hj. rewrite RecordLatency_inRange in Hj. exact Hj. }
    rewrite (Ho j Hj' Hne), (at_index_new n now t j Hnew). reflexivity.
Qed.

(** ** What the prober tells the tracker *)

Section ProbeCalls.

Variable m : Manager.

(** The calls of one [performHealthCheck]: the latency of a 200 response,
    then the new health when it has changed. *)
Lemma performHealthCheck_calls conn o now :
  let conn' := fst (performHealthCheck m conn o now) in
  snd (performHealthCheck m conn o now)
  = ((match o with
      | ProbeResponse code latency =>
          if code =? 200 then [Stats.RecordLatency (Index conn) latency]
          else []
      | ProbeTransportError _ => []
      end)
     ++ (if Bool.eqb (healthy conn) (healthy conn') then []
         else [Stats.SetConnectionHealth (Index conn) (healthy conn')]))%list.
Proof.
  destruct conn as [idx name ifn path h fc lc].
  unfold performHealthCheck, checkHealth, recordOutcome.
  destruct o as [code latency | e]; [destruct (code =? 200) |];
    destruct h;
    cbn [set_lastCheck set_failureCount set_healthy healthy Index
         failureCount negb fst snd app];
    try match goal with
        | |- context [if ?a >=? ?b then _ else _] => destruct (a >=? b)
        end;
    reflexivity.
Qed.

End ProbeCalls.

(** X3. One [performHealthCheck] tells the tracker the new health exactly
    when the healthy flag has changed, and the latency exactly when the
    probe got a 200; it makes no other call, and never counts a request. *)
Theorem prober_reports_to_stats :
  forall (m : Manager) (conn : Connection) (o : ProbeOutcome) (now : Z),
    let conn' := fst (performHealthCheck m conn o now) in
    let calls := snd (performHealthCheck m conn o now) in
    (forall i h,
        In (Stats.SetConnectionHealth i h) calls
        <-> i = Index conn /\ h = healthy conn'
            /\ healthy conn' <> healthy conn)
    /\ (forall i latency,
           In (Stats.RecordLatency i latency) calls
           <-> i = Index conn /\ o = ProbeResponse 200 latency)
    /\ (forall i, ~ In (Stats.IncrementRequests i) calls)
    /\ (List.length calls <= 2)%nat.
Proof.
  intros m conn o now conn' calls. subst calls.
  rewrite performHealthCheck_calls. fold conn'.
  assert (Hl : forall c,
             In c (match o with
                   | ProbeResponse code latency =>
                       if code =? 200
                       then [Stats.RecordLatency (Index conn) latency]
                       else []
                   | ProbeTransportError _ => []
                   end)
             <-> exists latency,
                 c = Stats.RecordLatency (Index conn) latency
                 /\ o = ProbeResponse 200 latency).
  { intros c. destruct o as [code latency | e].
    - destruct (code =? 200) eqn:E.
      + apply Z.eqb_eq in E. subst code. simpl. split.
        * intros [H | []]. exists latency. split; [symmetry |]; auto.
        * intros (l & -> & H). inversion H. left. reflexivity.
      + simpl. split; [tauto |]. intros (l & _ & H). inversion H; subst.
        discriminate.
    - simpl. split; [tauto |]. intros (l & _ & H). discriminate. }
  assert (Ht : forall c,
             In c (if Bool.eqb (healthy conn) (healthy conn') then []
                   else [Stats.SetConnectionHealth (Index conn)
                                                   (healthy conn')])
             <-> c = Stats.SetConnectionHealth (Index conn) (healthy conn')
                 /\ healthy conn' <> healthy conn).
  { intros c. destruct (healthy conn), (healthy conn'); simpl; split;
      try tauto; try (intros [H | []]; split; [symmetry |]; auto;
                      discriminate); try (intros [_ H]; congruence);
      intros [-> _]; left; reflexivity. }
  split; [| split; [| split]].
  - intros i h. rewrite in_app_iff, Hl, Ht. split.
    + intros [(l & H & _) | [H Hne]]; [discriminate |].
      inversion H. auto.
    + intros (-> & -> & Hne). right. auto.
  - intros i latency. rewrite in_app_iff, Hl, Ht. split.
    + intros [(l & H & Ho) | [H _]]; [| discriminate].
      inversion H; subst. auto.
    + intros (-> & Ho). left. exists latency. auto.
  - intros i. rewrite in_app_iff, Hl, Ht.
    intros [(l & H & _) | [H _]]; discriminate.
  - rewrite length_app.
    destruct o as [code latency | e]; [destruct (code =? 200) |];
      destruct (Bool.eqb _ _); simpl; lia.
Qed.

Section TrackerFollows.

Lemma RecordLatency_keeps (t : Tracker.Tracker) (i l j : Z) :
  let c' := Tracker.at_index (Tracker.RecordLatency t i l) j in
  let c := Tracker.at_index t j in
  Tracker.IsHealthy c' = Tracker.IsHealthy c
  /\ Tracker.LastCheckTime c' = Tracker.LastCheckTime c
  /\ Tracker.RequestCount c' = Tracker.RequestCount c.
Proof.
  unfold Tracker.RecordLatency.
  destruct (Tracker.inRange t i) eqn:Hi; [| auto].
  rewrite at_index_alter by exact Hi.
  destruct (Nat.eqb _ _); simpl; auto.
Qed.

Lemma SetConnectionHealth_at (t : Tracker.Tracker) (i j : Z) h now :
  Tracker.inRange t i = true -> Tracker.inRange t j = true ->
  let c' := Tracker.at_index (Tracker.SetConnectionHealth t i h now) j in
  let c := Tracker.at_index t j in
  Tracker.IsHealthy c' = (if i =? j then h else Tracker.IsHealthy c)
  /\ Tracker.LastCheckTime c'
     = (if i =? j then now else Tracker.LastCheckTime c)
  /\ Tracker.RequestCount c' = Tracker.RequestCount c.
Proof.
  intros Hi Hj. unfold Tracker.SetConnectionHealth. rewrite Hi.
  rewrite at_index_alter by exact Hi.
  rewrite (same_slot t i j Hi Hj).
  destruct (i =? j); simpl; auto.
Qed.

Lemma IncrementRequests_keeps (t : Tracker.Tracker) (i j : Z) :
  let c' := Tracker.at_index (Tracker.IncrementRequests t i) j in
  let c := Tracker.at_index t j in
  Tracker.IsHealthy c' = Tracker.IsHealthy c
  /\ Tracker.LastCheckTime c' = Tracker.LastCheckTime c
  /\ Tracker.inRange (Tracker.IncrementRequests t i) j = Tracker.inRange t j.
Proof.
  destruct t as [tot conns st].
  unfold Tracker.IncrementRequests, Tracker.inRange, Tracker.at_index,
    Tracker.set_connections.
  cbn [Tracker.connections Tracker.totalRequests Tracker.startTime].
  destruct ((i >=? 0) && (i <? Z.of_nat (List.length conns))) eqn:Hi;
    cbn [Tracker.connections]; [| auto].
  apply andb_prop in Hi. destruct Hi as [H0 H1].
  rewrite Z.geb_leb in H0. apply Z.leb_le in H0. apply Z.ltb_lt in H1.
  rewrite length_alter, nth_alter by lia.
  destruct (Nat.eqb _ _); simpl; auto.
Qed.

(** The tracker after the calls of one [performHealthCheck]. *)
Lemma trackProbe_effect (m : Manager) (conn : Connection) o now nowT
      (t : Tracker.Tracker) :
  Tracker.inRange t (Index conn) = true ->
  let conn' := fst (performHealthCheck m conn o now) in
  let t' := System.trackProbe m o now nowT t conn in
  let changed := negb (Bool.eqb (healthy conn) (healthy conn')) in
  (forall j, Tracker.inRange t' j = Tracker.inRange t j)
  /\ (forall j, Tracker.inRange t j = true ->
        Tracker.IsHealthy (Tracker.at_index t' j)
        = (if changed && (Index conn =? j) then healthy conn'
           else Tracker.IsHealthy (Tracker.at_index t j))
        /\ Tracker.LastCheckTime (Tracker.at_index t' j)
           = (if changed && (Index conn =? j) then nowT
              else Tracker.LastCheckTime (Tracker.at_index t j))
        /\ Tracker.RequestCount (Tracker.at_index t' j)
           = Tracker.RequestCount (Tracker.at_index t j)).
Proof.
  intros Hi conn' t' changed. subst t' changed.
  unfold System.trackProbe. rewrite performHealthCheck_calls. fold conn'.
  unfold Tracker.applyCalls. rewrite fold_left_app.
  set (t1 := fold_left (Tracker.apply nowT) _ t).
  assert (H1 : (forall j, Tracker.inRange t1 j = Tracker.inRange t j)
               /\ forall j,
                   Tracker.IsHealthy (Tracker.at_index t1 j)
                   = Tracker.IsHealthy (Tracker.at_index t j)
                   /\ Tracker.LastCheckTime (Tracker.at_index t1 j)
                      = Tracker.LastCheckTime (Tracker.at_index t j)
                   /\ Tracker.RequestCount (Tracker.at_index t1 j)
                      = Tracker.RequestCount (Tracker.at_index t j)).
  { subst t1. destruct o as [code latency | e];
      [destruct (code =? 200) |]; simpl; try (split; auto; fail).
    split; [intros; apply RecordLatency_inRange |].
    intros j. apply RecordLatency_keeps. }
  destruct H1 as [Hr1 Hf1]. clearbody t1.
  destruct (Bool.eqb (healthy conn) (healthy conn')); simpl.
  - split; [exact Hr1 |]. intros j _. apply Hf1.
  - split; [intros j; rewrite SetConnectionHealth_inRange; apply Hr1 |].
    intros j Hj.
    destruct (SetConnectionHealth_at t1 (Index conn) j (healthy conn') nowT)
      as (Hh & Hl & Hq); [rewrite Hr1; exact Hi | rewrite Hr1; exact Hj |].
    destruct (Hf1 j) as (Hh1 & Hl1 & Hq1).
    rewrite Hh, Hl, Hq, Hh1, Hl1, Hq1. auto.
Qed.

End TrackerFollows.

(** X4. When the tracker agrees with a tunnel on its health before a
    [performHealthCheck], it agrees after it; what it holds for the other
    tunnels and the request counters do not change. The tunnel's index is
    one the tracker has. *)
Theorem tracker_follows_health :
  forall (m : Manager) (conn : Connection) (o : ProbeOutcome)
         (now nowT : Z) (t : Tracker.Tracker),
    Tracker.inRange t (Index conn) = true ->
    Tracker.IsConnectionHealthy t (Index conn) = healthy conn ->
    let conn' := fst (performHealthCheck m conn o now) in
    let t' := System.trackProbe m o now nowT t conn in
    Tracker.IsConnectionHealthy t' (Index conn) = healthy conn'
    /\ (forall j, j <> Index conn ->
          Tracker.IsConnectionHealthy t' j = Tracker.IsConnectionHealthy t j
          /\ Tracker.GetLastCheckTime t' j = Tracker.GetLastCheckTime t j)
    /\ (forall j, Tracker.GetConnectionRequests t' j
                  = Tracker.GetConnectionRequests t j)
    /\ Tracker.GetTotalRequests t' = Tracker.GetTotalRequests t.
Proof.
  intros m conn o now nowT t Hi Hagree conn' t'. subst t'.
  destruct (trackProbe_effect m conn o now nowT t Hi) as [Hr Hf].
  fold conn' in Hf.
  unfold Tracker.IsConnectionHealthy, Tracker.GetLastCheckTime,
    Tracker.GetConnectionRequests in *.
  rewrite Hi in Hagree.
  split; [| split; [| split]].
  - rewrite Hr, Hi. destruct (Hf (Index conn) Hi) as (Hh & _).
    rewrite Hh, Z.eqb_refl, andb_true_r.
    destruct (healthy conn) eqn:H1, (healthy conn') eqn:H2; simpl; congruence.
  - intros j Hne. rewrite !Hr.
    destruct (Tracker.inRange t j) eqn:Hj; [| auto].
    destruct (Hf j Hj) as (Hh & Hl & _).
    rewrite Hh, Hl.
    destruct (Z.eqb_spec (Index conn) j); [congruence |].
    rewrite andb_false_r. auto.
  - intros j. rewrite Hr.
    destruct (Tracker.inRange t j) eqn:Hj; [| reflexivity].
    apply (Hf j Hj).
  - unfold System.trackProbe, Tracker.GetTotalRequests.
    rewrite performHealthCheck_calls.
    destruct o as [code latency | e]; [destruct (code =? 200) |];
      destruct (Bool.eqb _ _); simpl;
      unfold Tracker.SetConnectionHealth, Tracker.RecordLatency;
      repeat match goal with
             | |- context [if ?b then _ else _] => destruct b
             end; reflexivity.
Qed.

(** X5. The tracker's time of the last check of a tunnel is set, to the
    clock the tracker reads, only by a [performHealthCheck] that changes the
    healthy flag; a probe that leaves the flag leaves that time, while the
    tunnel's own [lastCheck] is set by every probe. *)
Theorem tracker_last_check_on_transitions :
  forall (m : Manager) (conn : Connection) (o : ProbeOutcome)
         (now nowT : Z) (t : Tracker.Tracker),
    Tracker.inRange t (Index conn) = true ->
    let conn' := fst (performHealthCheck m conn o now) in
    let t' := System.trackProbe m o now nowT t conn in
    lastCheck conn' = now
    /\ Tracker.GetLastCheckTime t' (Index conn)
       = (if Bool.eqb (healthy conn) (healthy conn')
          then Tracker.GetLastCheckTime t (Index conn)
          else if nowT =? 0 then None else Some nowT).
Proof.
  intros m conn o now nowT t Hi conn' t'. subst t'.
  split; [apply performHealthCheck_lastCheck |].
  destruct (trackProbe_effect m conn o now nowT t Hi) as [Hr Hf].
  fold conn' in Hf.
  unfold Tracker.GetLastCheckTime. rewrite Hr, Hi.
  destruct (Hf (Index conn) Hi) as (_ & Hl & _).
  rewrite Hl, Z.eqb_refl, andb_true_r.
  destruct (Bool.eqb (healthy conn) (healthy conn')); reflexivity.
Qed.

(** ** The tracker and the tunnels over a whole run *)

Section Shapes.

Lemma well_indexed_NoDup (base : Z) (l : list Connection) :
  well_indexed base l -> NoDup (map Index l).
Proof.
  intros Hw. apply NoDup_nth_error. intros i j Hi Heq.
  rewrite length_map in Hi. rewrite !nth_error_map in Heq.
  destruct (nth_error l i) as [c |] eqn:Ei;
    [| apply nth_error_None in Ei; lia].
  destruct (nth_error l j) as [c' |] eqn:Ej; [| discriminate].
  simpl in Heq. inversion Heq as [Heq'].
  rewrite (Hw i c Ei), (Hw j c' Ej) in Heq'. lia.
Qed.

Lemma inRange_length (t1 t2 : Tracker.Tracker) :
  (forall j, Tracker.inRange t1 j = Tracker.inRange t2 j) ->
  List.length (Tracker.connections t1) = List.length (Tracker.connections t2).
Proof.
  intros H.
  destruct (Nat.lt_trichotomy (List.length (Tracker.connections t1))
                              (List.length (Tracker.connections t2)))
    as [Hlt | [Heq | Hgt]]; [| exact Heq |].
  - assert (Hin : Tracker.inRange t2
                    (Z.of_nat (List.length (Tracker.connections t1))) = true)
      by (apply inRange_spec; lia).
    rewrite <- H in Hin. apply inRange_spec in Hin. lia.
  - assert (Hin : Tracker.inRange t1
                    (Z.of_nat (List.length (Tracker.connections t2))) = true)
      by (apply inRange_spec; lia).
    rewrite H in Hin. apply inRange_spec in Hin. lia.
Qed.

Lemma new_connections_unhealthy l : forall i,
  Forall (fun x => healthy x = false) (new_connections i l).
Proof.
  induction l as [| a l IH]; intros i; simpl; constructor;
    [reflexivity | apply IH].
Qed.

End Shapes.

Section Interleaving.

(** [alter] on a list cut at the position. *)
Lemma alter_split {A : Type} (f : A -> A) (l1 : list A) (a : A) (l2 : list A) :
  Tracker.alter f (List.length l1) (l1 ++ a :: l2) = (l1 ++ f a :: l2)%list.
Proof.
  induction l1 as [| x l1 IH]; simpl; [reflexivity | rewrite IH; reflexivity].
Qed.

Lemma nth_error_alter {A : Type} (f : A -> A) (l : list A) : forall i j,
  nth_error (Tracker.alter f i l) j
  = if Nat.eqb i j then option_map f (nth_error l j) else nth_error l j.
Proof.
  induction l as [| x l IH]; intros i j.
  - destruct i, j; simpl; try reflexivity; destruct (Nat.eqb _ _); reflexivity.
  - destruct i as [| i], j as [| j]; simpl; try reflexivity. apply IH.
Qed.

Lemma flagOf_update (f : Tracker.ConnectionStats -> Tracker.ConnectionStats)
      (j : Z) (t : Tracker.Tracker) (i : nat) :
  (forall c, Tracker.IsHealthy (f c) = Tracker.IsHealthy c) ->
  Goroutines.flagOf (Goroutines.update f j t) i = Goroutines.flagOf t i.
Proof.
  intros Hf. unfold Goroutines.flagOf, Goroutines.update.
  destruct (Tracker.inRange t j) eqn:E; [| reflexivity].
  apply inRange_spec in E. simpl.
  rewrite nth_alter by lia.
  destruct (Nat.eqb (Z.to_nat j) i); [apply Hf | reflexivity].
Qed.

Lemma length_update f j t :
  List.length (Tracker.connections (Goroutines.update f j t))
  = List.length (Tracker.connections t).
Proof.
  unfold Goroutines.update. destruct (Tracker.inRange t j); [| reflexivity].
  simpl. apply length_alter.
Qed.

Lemma length_statOp op t :
  List.length (Tracker.connections (Goroutines.statOp op t))
  = List.length (Tracker.connections t).
Proof. destruct op; simpl; try apply length_update; reflexivity. Qed.

Lemma flagOf_store (t : Tracker.Tracker) (i i' : nat) (b : bool) :
  (i < List.length (Tracker.connections t))%nat ->
  Goroutines.flagOf (Goroutines.statOp (Goroutines.IsHealthyStore (Z.of_nat i) b) t) i'
  = if Nat.eqb i i' then b else Goroutines.flagOf t i'.
Proof.
  intros Hi. unfold Goroutines.flagOf. simpl. unfold Goroutines.update.
  assert (E : Tracker.inRange t (Z.of_nat i) = true)
    by (apply inRange_spec; lia).
  rewrite E. simpl. rewrite Nat2Z.id, nth_alter by assumption.
  destruct (Nat.eqb i i'); reflexivity.
Qed.

Lemma flagOf_other (op : Goroutines.StatOp) (t : Tracker.Tracker) (i : nat) :
  match op with Goroutines.IsHealthyStore _ _ => False | _ => True end ->
  Goroutines.flagOf (Goroutines.statOp op t) i = Goroutines.flagOf t i.
Proof.
  destruct op; simpl; intros H; try contradiction;
    try (apply flagOf_update; reflexivity).
  reflexivity.
Qed.

(** One operation of a goroutine that is harmless. *)
Lemma step_harmless now i p cs t :
  Goroutines.harmless p ->
  let '(p', cs', t') := Goroutines.step now i p cs t in
  Goroutines.harmless p' /\ cs' = cs
  /\ List.length (Tracker.connections t') = List.length (Tracker.connections t)
  /\ forall j, Goroutines.flagOf t' j = Goroutines.flagOf t j.
Proof.
  destruct p; simpl; intros H; try contradiction; auto.
  - destruct (nth_error cs i); simpl; auto.
  - destruct op; try contradiction;
      (split; [exact H |]; split; [reflexivity |];
       split; [apply length_statOp |];
       intros j; apply flagOf_other; exact I).
Qed.

(** One operation of a health check on its tunnel. *)
Lemma step_prober now (i : nat) p cs t conn :
  nth_error cs i = Some conn ->
  (i < List.length (Tracker.connections t))%nat ->
  Goroutines.agree (Z.of_nat i) p (healthy conn) (Goroutines.flagOf t i) ->
  let '(p', cs', t') := Goroutines.step now i p cs t in
  List.length cs' = List.length cs
  /\ List.length (Tracker.connections t') = List.length (Tracker.connections t)
  /\ (exists conn',
         nth_error cs' i = Some conn' /\ Index conn' = Index conn
         /\ Goroutines.agree (Z.of_nat i) p' (healthy conn') (Goroutines.flagOf t' i))
  /\ (forall j, j <> i ->
                nth_error cs' j = nth_error cs j /\ Goroutines.flagOf t' j = Goroutines.flagOf t j).
Proof.
  intros Hc Hi Ha.
  assert (Halt : forall f : Connection -> Connection,
             List.length (Tracker.alter f i cs) = List.length cs
             /\ nth_error (Tracker.alter f i cs) i = Some (f conn)
             /\ forall j, j <> i ->
                  nth_error (Tracker.alter f i cs) j = nth_error cs j).
  { intros f. split; [apply length_alter |]. split.
    - rewrite nth_error_alter, Nat.eqb_refl, Hc. reflexivity.
    - intros j Hj. rewrite nth_error_alter.
      destruct (Nat.eqb_spec i j); [congruence | reflexivity]. }
  destruct p; simpl in Ha |- *.
  - repeat split; eauto.
  - repeat split; eauto.
  - destruct (Halt (set_lastCheck v)) as (Hl & Hn & Ho).
    repeat split; eauto.
  - rewrite Hc. simpl.
    destruct (Halt (set_failureCount (int32 (failureCount conn + delta))))
      as (Hl & Hn & Ho).
    repeat split; eauto.
  - destruct (Halt (set_failureCount v)) as (Hl & Hn & Ho).
    repeat split; eauto.
  - rewrite Hc. simpl. repeat split; eauto.
  - destruct (Halt (set_healthy h)) as (Hl & Hn & Ho).
    repeat split; eauto.
  - destruct Ha as [-> Ha].
    assert (E : Tracker.inRange t (Z.of_nat i) = true)
      by (apply inRange_spec; lia).
    rewrite E. repeat split; eauto.
  - split; [reflexivity |]. split; [apply length_statOp |].
    destruct op; simpl in Ha;
      try (split; [exists conn; split; [exact Hc |]; split; [reflexivity |];
                   rewrite flagOf_other by exact I; exact Ha
                  | intros j Hj; split; [reflexivity |];
                    apply flagOf_other; exact I]).
    destruct Ha as [-> Ha]. split.
    + exists conn. split; [exact Hc |]. split; [reflexivity |].
      rewrite flagOf_store, Nat.eqb_refl by assumption. exact Ha.
    + intros j Hj. split; [reflexivity |].
      rewrite flagOf_store by assumption.
      destruct (Nat.eqb_spec i j); [congruence | reflexivity].
Qed.

(** A health check that starts when tunnel and tracker agree. *)
Lemma performHealthCheck_agree (m : Manager) (conn : Connection) o (i : nat)
      (h : bool) :
  Index conn = Z.of_nat i ->
  Goroutines.agree (Z.of_nat i) (Goroutines.performHealthCheck m conn o) h h.
Proof.
  intros Hidx.
  assert (Hrest : forall err : option string,
             Goroutines.agree (Z.of_nat i)
               (Goroutines.Now (fun now =>
                  Goroutines.LastCheckStore now
                    match err with
                    | Some _ =>
                        Goroutines.FailureCountAdd 1 (fun failures =>
                          if failures >=? int32 (failureThreshold m) then
                            Goroutines.HealthyLoad (fun h =>
                              if h then
                                Goroutines.HealthyStore false
                                  (Goroutines.SetConnectionHealth
                                     (Index conn) false Goroutines.Done)
                              else Goroutines.Done)
                          else Goroutines.Done)
                    | None =>
                        Goroutines.FailureCountStore 0
                          (Goroutines.HealthyLoad (fun h =>
                             if negb h then
                               Goroutines.HealthyStore true
                                 (Goroutines.SetConnectionHealth
                                    (Index conn) true Goroutines.Done)
                             else Goroutines.Done))
                    end)) h h).
  { intros [e |]; simpl; intros now.
    - intros v. destruct (v >=? _); simpl; [| reflexivity].
      destruct h; simpl; [| reflexivity]. rewrite Hidx. auto.
    - destruct h; simpl; [reflexivity |]. rewrite Hidx. auto. }
  unfold Goroutines.performHealthCheck, Goroutines.checkHealth.
  destruct o as [code latency | e]; [| exact (Hrest (Some e))].
  destruct (code =? 200);
    [| exact (Hrest (Some ("unexpected status code: " ++ fmt_d code)))].
  unfold Goroutines.RecordLatency.
  split; [exact Hidx |]. exact (Hrest None).
Qed.

Lemma performHealthCheck_live (m : Manager) (conn : Connection) o i :
  Goroutines.probes {| Goroutines.kind := Goroutines.Prober;
                       Goroutines.tunnel := i;
                       Goroutines.prog :=
                         Goroutines.performHealthCheck m conn o |} = true.
Proof.
  unfold Goroutines.probes, Goroutines.live. simpl.
  unfold Goroutines.performHealthCheck, Goroutines.checkHealth.
  destruct o as [code latency | e]; [| reflexivity].
  destruct (code =? 200); reflexivity.
Qed.

Lemma checkHealth_harmless (conn : Connection) o :
  Goroutines.harmless
    (Goroutines.checkHealth conn o (fun _ => Goroutines.Done)).
Proof.
  unfold Goroutines.checkHealth.
  destruct o as [code latency | e]; simpl; [| exact I].
  destruct (code =? 200); simpl; [| exact I].
  intros [|]; simpl; exact I.
Qed.

Lemma IncrementRequests_harmless (i : Z) :
  Goroutines.harmless (Goroutines.IncrementRequests i Goroutines.Done).
Proof. simpl. intros [|]; simpl; exact I. Qed.

Lemma probing_app (l1 l2 : list Goroutines.Goroutine) :
  Goroutines.probing (l1 ++ l2)
  = (Goroutines.probing l1 ++ Goroutines.probing l2)%list.
Proof. unfold Goroutines.probing. rewrite filter_app, map_app. reflexivity. Qed.

Lemma probing_cons (g : Goroutines.Goroutine) l :
  Goroutines.probing (g :: l)
  = ((if Goroutines.probes g then [Goroutines.tunnel g] else [])
     ++ Goroutines.probing l)%list.
Proof.
  unfold Goroutines.probing. simpl. destruct (Goroutines.probes g); reflexivity.
Qed.

Lemma probing_In (g : Goroutines.Goroutine) l :
  In g l -> Goroutines.probes g = true ->
  In (Goroutines.tunnel g) (Goroutines.probing l).
Proof.
  intros Hin Hp. unfold Goroutines.probing. apply in_map.
  apply filter_In. auto.
Qed.


Lemma settled_start (c : Config.WireGuardConfig) now t :
  Tracker.NewTracker (Z.of_nat (List.length (Config.Connections c))) now
  = Ok t ->
  Goroutines.settled (List.length (Config.Connections c))
                     (Goroutines.start c t).
Proof.
  intros Hn. pose proof (NewTracker_shape _ _ _ Hn) as (_ & _ & Hc).
  unfold Goroutines.settled, Goroutines.start. simpl.
  split; [apply new_connections_length |].
  split; [rewrite Hc, repeat_length, Nat2Z.id; reflexivity |].
  split; [apply new_connections_indexed |].
  split; [intros g [] |].
  split; [| constructor].
  intros i conn Hi _. unfold Goroutines.flagOf. rewrite Hc, nth_repeat. simpl.
  pose proof (new_connections_unhealthy (Config.Connections c) 0) as Hf.
  rewrite Forall_forall in Hf. apply Hf. apply nth_error_In with i. exact Hi.
Qed.

Lemma settled_spawn_harmless (n : nat) (s : Goroutines.State)
      (g : Goroutines.Goroutine) :
  Goroutines.settled n s ->
  match Goroutines.kind g with Goroutines.Prober => False | _ => True end ->
  Goroutines.harmless (Goroutines.prog g) ->
  Goroutines.settled n (Goroutines.spawn g s).
Proof.
  intros (Hlc & Hlt & Hwi & Hg & Hq & Hnd) Hk Hh.
  assert (Hp : Goroutines.probing (Goroutines.goroutines s ++ [g])
               = Goroutines.probing (Goroutines.goroutines s)).
  { rewrite probing_app, probing_cons. unfold Goroutines.probes.
    destruct (Goroutines.kind g); try contradiction; simpl;
      apply app_nil_r. }
  unfold Goroutines.settled, Goroutines.spawn. simpl. rewrite Hp.
  repeat (split; [assumption |]). split; [| split; assumption].
  intros g0 Hin. apply in_app_or in Hin. destruct Hin as [Hin | [<- | []]].
  - apply Hg. exact Hin.
  - destruct (Goroutines.kind g); try contradiction; exact Hh.
Qed.

Lemma settled_move (m : Manager) (n : nat) (mv : Goroutines.Move)
      (s : Goroutines.State) :
  Goroutines.settled n s ->
  NoDup (Goroutines.probing (Goroutines.goroutines (Goroutines.move m mv s))) ->
  Goroutines.settled n (Goroutines.move m mv s).
Proof.
  intros Hs Hnd'. pose proof Hs as (Hlc & Hlt & Hwi & Hg & Hq & Hnd).
  destruct mv as [i o | i o | idx | j now]; simpl in *.
  - (* a health check starts *)
    destruct (nth_error (Goroutines.conns s) i) as [conn |] eqn:Ec;
      [| exact Hs].
    simpl in Hnd'. rewrite probing_app, probing_cons in Hnd'.
    rewrite performHealthCheck_live in Hnd'. simpl in Hnd'.
    assert (Hni : ~ In i (Goroutines.probing (Goroutines.goroutines s))).
    { apply NoDup_remove_2 in Hnd'. rewrite app_nil_r in Hnd'. exact Hnd'. }
    unfold Goroutines.settled, Goroutines.spawn. simpl.
    rewrite probing_app, probing_cons, performHealthCheck_live. simpl.
    repeat (split; [assumption |]). split; [| split; [| exact Hnd']].
    + intros g Hin. apply in_app_or in Hin. destruct Hin as [Hin | [<- | []]].
      * apply Hg. exact Hin.
      * simpl. exists conn. split; [exact Ec |]. intros _.
        rewrite <- (Hq i conn Ec Hni).
        apply performHealthCheck_agree. rewrite (Hwi i conn Ec). lia.
    + intros i0 conn0 Hi0 Hn0. apply Hq; [exact Hi0 |].
      intros Hin. apply Hn0. apply in_or_app. left. exact Hin.
  - (* a startup probe *)
    destruct (nth_error (Goroutines.conns s) i) as [conn |] eqn:Ec;
      [| exact Hs].
    apply settled_spawn_harmless;
      [exact Hs | exact I | apply checkHealth_harmless].
  - (* a handler counts a request *)
    apply settled_spawn_harmless;
      [exact Hs | exact I | apply IncrementRequests_harmless].
  - (* the next operation of a goroutine *)
    destruct (nth_error (Goroutines.goroutines s) j) as [g |] eqn:Eg;
      [| exact Hs].
    pose proof (nth_error_In _ _ Eg) as Hing.
    apply nth_error_split in Eg. destruct Eg as (l1 & l2 & Hl & Hlen).
    destruct (Goroutines.step now (Goroutines.tunnel g) (Goroutines.prog g)
                (Goroutines.conns s) (Goroutines.stats s))
      as [[p' cs'] t'] eqn:Es.
    simpl in Hnd' |- *. rewrite Hl in Hnd' |- *. subst j.
    rewrite alter_split in Hnd' |- *.
    rewrite Hl in Hnd, Hq, Hg.
    rewrite probing_app, probing_cons in Hnd, Hnd', Hq.
    set (g' := {| Goroutines.kind := Goroutines.kind g;
                  Goroutines.tunnel := Goroutines.tunnel g;
                  Goroutines.prog := p' |}) in *.
    pose proof (Hg g (in_elt g l1 l2)) as Hgg.
    destruct (Goroutines.kind g) eqn:Ek.
    + (* of a health check *)
      destruct Hgg as (conn & Hc & Hag).
      destruct (Goroutines.live g) eqn:El.
      * (* under way *)
        assert (Hi : (Goroutines.tunnel g
                      < List.length
                          (Tracker.connections (Goroutines.stats s)))%nat).
        { rewrite Hlt, <- Hlc. apply nth_error_Some. congruence. }
        pose proof (step_prober now _ _ _ _ _ Hc Hi (Hag eq_refl)) as Hst.
        rewrite Es in Hst.
        destruct Hst as (Hlc' & Hlt' & (conn' & Hc' & Hidx' & Hag') & Hoth).
        assert (Hpg : Goroutines.probes g = true)
          by (unfold Goroutines.probes; rewrite Ek; exact El).
        rewrite Hpg in Hnd, Hq. simpl in Hnd, Hq.
        assert (Hn1 : ~ In (Goroutines.tunnel g) (Goroutines.probing l1)
                      /\ ~ In (Goroutines.tunnel g) (Goroutines.probing l2)).
        { apply NoDup_remove_2 in Hnd. split; intros Hin; apply Hnd;
            apply in_or_app; auto. }
        unfold Goroutines.settled. simpl. rewrite probing_app, probing_cons.
        split; [congruence |]. split; [congruence |].
        split; [| split; [| split; [| exact Hnd']]].
        -- (* indexes *)
           intros i0 conn0 Hi0.
           destruct (Nat.eq_dec i0 (Goroutines.tunnel g)) as [-> | Hne].
           ++ rewrite Hc' in Hi0. inversion Hi0; subst conn0.
              rewrite Hidx'. apply Hwi. exact Hc.
           ++ destruct (Hoth i0 Hne) as [Hsame _]. rewrite Hsame in Hi0.
              apply Hwi. exact Hi0.
        -- (* the goroutines *)
           intros g0 Hin.
           assert (Hcases : g0 = g' \/ In g0 l1 \/ In g0 l2).
           { apply in_app_or in Hin. destruct Hin as [Hin | [<- | Hin]];
               auto. }
           destruct Hcases as [-> | Hold].
           ++ simpl. try rewrite Ek. exists conn'. split; [exact Hc' |].
              intros _. exact Hag'.
           ++ assert (Hin0 : In g0 (l1 ++ g :: l2)).
              { apply in_or_app. destruct Hold; [left | right; right];
                  assumption. }
              pose proof (Hg g0 Hin0) as Hg0.
              destruct (Goroutines.kind g0) eqn:Ek0; try exact Hg0.
              destruct Hg0 as (conn0 & Hc0 & Hag0).
              destruct (Nat.eq_dec (Goroutines.tunnel g0) (Goroutines.tunnel g))
                as [Heq | Hne].
              ** exists conn'. split; [rewrite Heq; exact Hc' |].
                 intros El0. exfalso.
                 assert (Hp0 : Goroutines.probes g0 = true)
                   by (unfold Goroutines.probes; rewrite Ek0; exact El0).
                 destruct Hn1 as [Hn1 Hn2].
                 destruct Hold as [Hold | Hold];
                   [apply Hn1 | apply Hn2]; rewrite <- Heq;
                   apply probing_In; assumption.
              ** destruct (Hoth _ Hne) as [Hsame Hflag].
                 exists conn0. split; [rewrite Hsame; exact Hc0 |].
                 rewrite Hflag. exact Hag0.
        -- (* the tunnels no check is under way on *)
           intros i0 conn0 Hi0 Hn0.
           destruct (Nat.eq_dec i0 (Goroutines.tunnel g)) as [-> | Hne].
           ++ rewrite Hc' in Hi0. inversion Hi0; subst conn0.
              destruct (Goroutines.probes g') eqn:Hpg'.
              ** exfalso. apply Hn0. apply in_or_app. right. left.
                 reflexivity.
              ** unfold Goroutines.probes, Goroutines.live in Hpg'.
                 subst g'. simpl in Hpg'. try rewrite Ek in Hpg'.
                 destruct p'; try discriminate. exact Hag'.
           ++ destruct (Hoth _ Hne) as [Hsame Hflag].
              rewrite Hsame in Hi0. rewrite Hflag.
              apply Hq; [exact Hi0 |].
              intros Hin. apply Hn0.
              apply in_app_or in Hin. apply in_or_app.
              destruct Hin as [Hin | [Hin | Hin]]; [left; exact Hin | |].
              --- exfalso. apply Hne. symmetry. exact Hin.
              --- right. apply in_or_app. right. exact Hin.
      * (* that has ended *)
        unfold Goroutines.live in El.
        destruct (Goroutines.prog g) eqn:Ep; try discriminate.
        simpl in Es. inversion Es; subst p' cs' t'.
        assert (Hsame : g' = g).
        { subst g'. destruct g; simpl in *. subst. reflexivity. }
        rewrite Hsame in *. rewrite <- Hl.
        destruct s; exact Hs.
    + (* of a startup probe *)
      pose proof (step_harmless now (Goroutines.tunnel g) _
                    (Goroutines.conns s) (Goroutines.stats s) Hgg) as Hst.
      rewrite Es in Hst. destruct Hst as (Hh' & -> & Hlt' & Hflag).
      assert (Hp : Goroutines.probes g = false /\ Goroutines.probes g' = false)
        by (unfold Goroutines.probes; subst g'; simpl; try rewrite Ek; auto).
      destruct Hp as [Hp Hp']. rewrite Hp in Hnd, Hq. rewrite Hp' in Hnd'.
      unfold Goroutines.settled. simpl. rewrite probing_app, probing_cons, Hp'.
      split; [exact Hlc |]. split; [congruence |]. split; [exact Hwi |].
      split; [| split; [| exact Hnd']].
      -- intros g0 Hin.
         assert (Hcases : g0 = g' \/ In g0 (l1 ++ g :: l2)).
         { apply in_app_or in Hin. destruct Hin as [Hin | [<- | Hin]]; auto;
             right; apply in_or_app; [left | right; right]; assumption. }
         destruct Hcases as [-> | Hold].
         ++ simpl. try rewrite Ek. exact Hh'.
         ++ pose proof (Hg g0 Hold) as Hg0.
            destruct (Goroutines.kind g0); try exact Hg0.
            destruct Hg0 as (conn0 & Hc0 & Hag0).
            exists conn0. split; [exact Hc0 |]. rewrite Hflag. exact Hag0.
      -- intros i0 conn0 Hi0 Hn0. rewrite Hflag. apply Hq; assumption.
    + (* of a handler *)
      pose proof (step_harmless now (Goroutines.tunnel g) _
                    (Goroutines.conns s) (Goroutines.stats s) Hgg) as Hst.
      rewrite Es in Hst. destruct Hst as (Hh' & -> & Hlt' & Hflag).
      assert (Hp : Goroutines.probes g = false /\ Goroutines.probes g' = false)
        by (unfold Goroutines.probes; subst g'; simpl; try rewrite Ek; auto).
      destruct Hp as [Hp Hp']. rewrite Hp in Hnd, Hq. rewrite Hp' in Hnd'.
      unfold Goroutines.settled. simpl. rewrite probing_app, probing_cons, Hp'.
      split; [exact Hlc |]. split; [congruence |]. split; [exact Hwi |].
      split; [| split; [| exact Hnd']].
      -- intros g0 Hin.
         assert (Hcases : g0 = g' \/ In g0 (l1 ++ g :: l2)).
         { apply in_app_or in Hin. destruct Hin as [Hin | [<- | Hin]]; auto;
             right; apply in_or_app; [left | right; right]; assumption. }
         destruct Hcases as [-> | Hold].
         ++ simpl. try rewrite Ek. exact Hh'.
         ++ pose proof (Hg g0 Hold) as Hg0.
            destruct (Goroutines.kind g0); try exact Hg0.
            destruct Hg0 as (conn0 & Hc0 & Hag0).
            exists conn0. split; [exact Hc0 |]. rewrite Hflag. exact Hag0.
      -- intros i0 conn0 Hi0 Hn0. rewrite Hflag. apply Hq; assumption.
Qed.

Lemma runs_settled (c : Config.WireGuardConfig) (s : Goroutines.State) :
  Goroutines.runs c s ->
  Goroutines.settled (List.length (Config.Connections c)) s.
Proof.
  induction 1 as [now t Hn | s mv Hr IH Hnd].
  - apply (settled_start c now t Hn).
  - apply settled_move; assumption.
Qed.


(** *** A health check with no other goroutine in between *)

Lemma alter_alter {A : Type} (f g : A -> A) (l : list A) : forall i,
  Tracker.alter f i (Tracker.alter g i l)
  = Tracker.alter (fun x => f (g x)) i l.
Proof.
  induction l as [| x l IH]; intros [| i]; simpl; try reflexivity.
  rewrite IH. reflexivity.
Qed.

Lemma alter_ext {A : Type} (f g : A -> A) (l : list A) : forall i,
  (forall x, f x = g x) -> Tracker.alter f i l = Tracker.alter g i l.
Proof.
  intros i H. revert i.
  induction l as [| x l IH]; intros [| i]; simpl; try reflexivity.
  - rewrite H. reflexivity.
  - rewrite IH. reflexivity.
Qed.

Lemma alter_at {A : Type} (f : A -> A) (l : list A) (a : A) : forall i,
  nth_error l i = Some a ->
  Tracker.alter f i l = Tracker.alter (fun _ => f a) i l.
Proof.
  revert l. induction l as [| x l IH]; intros [| i] H; simpl in *;
    try discriminate.
  - inversion H. reflexivity.
  - rewrite (IH i H). reflexivity.
Qed.

Lemma alter_same {A : Type} (l : list A) (a : A) : forall i,
  nth_error l i = Some a -> Tracker.alter (fun _ => a) i l = l.
Proof.
  revert l. induction l as [| x l IH]; intros [| i] H; simpl in *;
    try discriminate.
  - inversion H. reflexivity.
  - rewrite (IH i H). reflexivity.
Qed.

Lemma inRange_update f j t k :
  Tracker.inRange (Goroutines.update f j t) k = Tracker.inRange t k.
Proof.
  unfold Tracker.inRange. rewrite length_update. reflexivity.
Qed.

Lemma RecordLatency_ops (t : Tracker.Tracker) (i latency : Z) :
  Tracker.inRange t i = true ->
  Goroutines.statOp (Goroutines.LatencyCountAdd i)
    (Goroutines.statOp (Goroutines.LatencySumAdd i latency) t)
  = Tracker.RecordLatency t i latency.
Proof.
  intros Hi. unfold Tracker.RecordLatency. rewrite Hi. simpl.
  unfold Goroutines.update at 1. rewrite inRange_update, Hi.
  unfold Goroutines.update. rewrite Hi.
  unfold Tracker.set_connections. simpl. rewrite alter_alter. reflexivity.
Qed.

Lemma SetConnectionHealth_ops (t : Tracker.Tracker) (i : Z) (h : bool)
      (now : Z) :
  Tracker.inRange t i = true ->
  Goroutines.statOp (Goroutines.LastCheckTimeStore i now)
    (Goroutines.statOp (Goroutines.IsHealthyStore i h) t)
  = Tracker.SetConnectionHealth t i h now.
Proof.
  intros Hi. unfold Tracker.SetConnectionHealth. rewrite Hi. simpl.
  unfold Goroutines.update at 1. rewrite inRange_update, Hi.
  unfold Goroutines.update. rewrite Hi.
  unfold Tracker.set_connections. simpl. rewrite alter_alter. reflexivity.
Qed.

Lemma IncrementRequests_ops (t : Tracker.Tracker) (i now : Z) (n : nat)
      cs :
  Goroutines.alone now n (Goroutines.IncrementRequests i Goroutines.Done) cs t
  = (cs, Tracker.IncrementRequests t i).
Proof.
  unfold Goroutines.IncrementRequests, Tracker.IncrementRequests. simpl.
  unfold Tracker.inRange at 1 2. simpl.
  destruct ((i >=? 0) && (i <? Z.of_nat (List.length (Tracker.connections t))))
    eqn:E; simpl; [| reflexivity].
  unfold Goroutines.update, Tracker.inRange. simpl. rewrite E. reflexivity.
Qed.

Lemma alone_SetConnectionHealth now n (i : Z) (h : bool) cs t :
  Goroutines.alone now n (Goroutines.SetConnectionHealth i h Goroutines.Done)
                   cs t
  = (cs, Tracker.SetConnectionHealth t i h now).
Proof.
  unfold Goroutines.SetConnectionHealth. cbn [Goroutines.alone].
  destruct (Tracker.inRange t i) eqn:E; cbn [Goroutines.alone].
  - rewrite SetConnectionHealth_ops by exact E. reflexivity.
  - unfold Tracker.SetConnectionHealth. rewrite E. reflexivity.
Qed.

Lemma alone_RecordLatency now n (i latency : Z) (k : Goroutines.Prog) cs t :
  Goroutines.alone now n (Goroutines.RecordLatency i latency k) cs t
  = Goroutines.alone now n k cs (Tracker.RecordLatency t i latency).
Proof.
  unfold Goroutines.RecordLatency. cbn [Goroutines.alone].
  destruct (Tracker.inRange t i) eqn:E; cbn [Goroutines.alone].
  - rewrite RecordLatency_ops by exact E. reflexivity.
  - unfold Tracker.RecordLatency. rewrite E. reflexivity.
Qed.

(** Run with no other goroutine in between, and with the clock standing
    still, a health check does to its tunnel and to the tracker what
    [performHealthCheck] says for the sequential prober. *)
Lemma alone_performHealthCheck (m : Manager) (conn : Connection) o now
      (i : nat) cs t :
  nth_error cs i = Some conn ->
  Goroutines.alone now i (Goroutines.performHealthCheck m conn o) cs t
  = (Tracker.alter (fun _ => fst (performHealthCheck m conn o now)) i cs,
     Tracker.applyCalls now t (snd (performHealthCheck m conn o now))).
Proof.
  intros Hc.
  assert (Hnth : forall x, nth_error (Tracker.alter (fun _ => x) i cs) i
                           = Some x).
  { intros x. rewrite nth_error_alter, Nat.eqb_refl, Hc. reflexivity. }
  assert (Hrest : forall (err : option string) t0,
             Goroutines.alone now i
               (Goroutines.Now (fun now =>
                  Goroutines.LastCheckStore now
                    match err with
                    | Some _ =>
                        Goroutines.FailureCountAdd 1 (fun failures =>
                          if failures >=? int32 (failureThreshold m) then
                            Goroutines.HealthyLoad (fun h =>
                              if h then
                                Goroutines.HealthyStore false
                                  (Goroutines.SetConnectionHealth
                                     (Index conn) false Goroutines.Done)
                              else Goroutines.Done)
                          else Goroutines.Done)
                    | None =>
                        Goroutines.FailureCountStore 0
                          (Goroutines.HealthyLoad (fun h =>
                             if negb h then
                               Goroutines.HealthyStore true
                                 (Goroutines.SetConnectionHealth
                                    (Index conn) true Goroutines.Done)
                             else Goroutines.Done))
                    end)) cs t0
             = (Tracker.alter (fun _ => fst (recordOutcome m conn err now)) i cs,
                Tracker.applyCalls now t0 (snd (recordOutcome m conn err now)))).
  { intros err t0. unfold recordOutcome.
    cbn [Goroutines.alone].
    rewrite (alter_at (set_lastCheck now) cs conn i Hc).
    destruct err as [e |].
    - cbn [Goroutines.alone]. rewrite Hnth. cbn zeta.
      rewrite alter_alter.
      change (failureCount (set_lastCheck now conn)) with (failureCount conn).
      destruct (int32 (failureCount conn + 1) >=? int32 (failureThreshold m));
        [| reflexivity].
      cbn [Goroutines.alone]. rewrite Hnth.
      change (healthy (set_failureCount (int32 (failureCount conn + 1))
                         (set_lastCheck now conn)))
        with (healthy conn).
      destruct (healthy conn); [| reflexivity].
      cbn [Goroutines.alone]. rewrite alter_alter.
      rewrite alone_SetConnectionHealth. reflexivity.
    - cbn [Goroutines.alone]. rewrite alter_alter, Hnth.
      change (healthy (set_failureCount 0 (set_lastCheck now conn)))
        with (healthy conn).
      destruct (healthy conn); cbn [negb]; [reflexivity |].
      cbn [Goroutines.alone]. rewrite alter_alter.
      rewrite alone_SetConnectionHealth. reflexivity. }
  unfold Goroutines.performHealthCheck, Goroutines.checkHealth,
    performHealthCheck, checkHealth.
  destruct o as [code latency | e].
  - destruct (code =? 200).
    + rewrite alone_RecordLatency, (Hrest None).
      destruct (recordOutcome m conn None now) as [conn' calls'].
      reflexivity.
    + rewrite (Hrest (Some ("unexpected status code: " ++ fmt_d code))).
      destruct (recordOutcome m conn _ now) as [conn' calls']. reflexivity.
  - rewrite (Hrest (Some e)).
    destruct (recordOutcome m conn _ now) as [conn' calls']. reflexivity.
Qed.

End Interleaving.

Section Schedules.

Lemma distinct_NoDup (l : list nat) :
  Goroutines.distinct l = true -> NoDup l.
Proof.
  induction l as [| x l IH]; simpl; intros H; constructor.
  - apply andb_prop in H. destruct H as [H _].
    intros Hin. apply negb_true_iff in H.
    assert (Hex : existsb (Nat.eqb x) l = true).
    { apply existsb_exists. exists x. split; [exact Hin |].
      apply Nat.eqb_refl. }
    congruence.
  - apply IH. apply andb_prop in H. tauto.
Qed.

Lemma orderly_runs (c : Config.WireGuardConfig) (mvs : list Goroutines.Move) :
  forall s,
    Goroutines.runs c s ->
    Goroutines.orderly (NewManager c) mvs s = true ->
    Goroutines.runs c (Goroutines.play (NewManager c) mvs s).
Proof.
  induction mvs as [| mv mvs IH]; intros s Hr Ho; [exact Hr |].
  simpl in Ho. apply andb_prop in Ho. destruct Ho as [Hd Ho].
  simpl. apply IH; [| exact Ho].
  apply Goroutines.runs_move; [exact Hr |].
  apply distinct_NoDup. exact Hd.
Qed.

End Schedules.

(** X6. The goroutines of the prober, of the startup probes and of the
    handlers interleave their atomic operations as they like; only the
    health checks of one and the same tunnel do not overlap. Then the
    tracker keeps one entry per tunnel, every tunnel keeps its index, and
    whenever no health check of a tunnel is under way the tracker holds for
    it the healthy flag the tunnel has. (Between the store on the tunnel
    and the store on the tracker, inside a check, the two differ; and two
    checks of one tunnel that overlap can leave them different for good,
    see [overlapping_checks_disagree].) *)
Theorem running_tracker_mirrors_health :
  forall (c : Config.WireGuardConfig) (s : Goroutines.State),
    Goroutines.runs c s ->
    Tracker.GetNumConnections (Goroutines.stats s)
    = Z.of_nat (List.length (Config.Connections c))
    /\ List.length (Goroutines.conns s) = List.length (Config.Connections c)
    /\ (forall i conn,
           nth_error (Goroutines.conns s) i = Some conn ->
           Index conn = Z.of_nat i
           /\ (~ In i (Goroutines.probing (Goroutines.goroutines s)) ->
               Tracker.IsConnectionHealthy (Goroutines.stats s) (Z.of_nat i)
               = healthy conn)).
Proof.
  intros c s Hr.
  destruct (runs_settled c s Hr) as (Hlc & Hlt & Hwi & _ & Hq & _).
  unfold Tracker.GetNumConnections. rewrite Hlt.
  split; [reflexivity |]. split; [exact Hlc |].
  intros i conn Hi. split; [rewrite (Hwi i conn Hi); lia |].
  intros Hn. unfold Tracker.IsConnectionHealthy.
  assert (Hin : Tracker.inRange (Goroutines.stats s) (Z.of_nat i) = true).
  { apply inRange_spec. rewrite Hlt, <- Hlc.
    assert (i < List.length (Goroutines.conns s))%nat
      by (apply nth_error_Some; congruence).
    lia. }
  rewrite Hin. unfold Tracker.at_index. rewrite Nat2Z.id.
  symmetry. apply (Hq i conn Hi Hn).
Qed.

Lemma running_tracker_mirrors_health_witness :
  let s := Goroutines.play Examples.manager Samples.interleaved
             (Goroutines.start Examples.wgConfig Samples.tracker) in
  Tracker.IsConnectionHealthy (Goroutines.stats s) 0 = true
  /\ Tracker.IsConnectionHealthy (Goroutines.stats s) 1 = false.
Proof.
  intros s.
  assert (Hr : Goroutines.runs Examples.wgConfig s).
  { apply (orderly_runs Examples.wgConfig Samples.interleaved).
    - apply (Goroutines.runs_start Examples.wgConfig 1700000000).
      reflexivity.
    - vm_compute. reflexivity. }
  destruct (running_tracker_mirrors_health Examples.wgConfig s Hr)
    as (_ & _ & H).
  split.
  - destruct (H 0%nat (nth 0 (Goroutines.conns s) Examples.connB) eq_refl)
      as [_ H0].
    change (Z.of_nat 0) with 0 in H0. rewrite H0; [reflexivity |].
    vm_compute. tauto.
  - destruct (H 1%nat (nth 1 (Goroutines.conns s) Examples.connB) eq_refl)
      as [_ H1].
    change (Z.of_nat 1) with 1 in H1. rewrite H1; [reflexivity |].
    vm_compute. tauto.
Defined.

(** Two health checks of one tunnel that overlap: after two failures the
    tunnel is probed twice at once, one probe answering and one not. The
    one that answers marks the tunnel healthy, the other then marks it
    unhealthy and tells the tracker, and the first tells the tracker last.
    Both have ended, the tunnel is unhealthy and the tracker says
    healthy. *)
Lemma overlapping_checks_disagree :
  let s := Goroutines.play Examples.manager Samples.overlapping
             (Goroutines.start Examples.wgConfig Samples.tracker) in
  Goroutines.probing (Goroutines.goroutines s) = []
  /\ map healthy (Goroutines.conns s) = [false; false]
  /\ Tracker.IsConnectionHealthy (Goroutines.stats s) 0 = true
  /\ Goroutines.orderly Examples.manager Samples.overlapping
       (Goroutines.start Examples.wgConfig Samples.tracker) = false.
Proof. vm_compute. repeat split. Qed.


(** ** Loading the configuration *)

(** X7. When [Load] succeeds the file was read and decoded, and the
    configuration returned is the one of the file with the defaults
    filled in: the tunnels are those of the file; each of the nine options
    with a default keeps the value of the file when that is not zero (not
    empty, for the URL), a negative one too, and otherwise gets its
    default: http://1.1.1.1/cdn-cgi/trace, 30 and 3 for the health checks,
    9930, 30, 30, 580 and 32768 for the proxy, 9929 for the web server. So
    no zero is left in these options, and loading the result again changes
    nothing. *)
Theorem Load_fills_defaults :
  forall (read : result Config.Config) (cfg : Config.Config),
    Config.Load read = Ok cfg ->
    let filled (d v v' : Z) := (v = 0 -> v' = d) /\ (v <> 0 -> v' = v) in
    (exists raw,
        read = Ok raw
        /\ Config.Connections (Config.WireGuard cfg)
           = Config.Connections (Config.WireGuard raw)
        /\ (Config.HealthCheckURL (Config.WireGuard raw) = "" ->
            Config.HealthCheckURL (Config.WireGuard cfg)
            = "http://1.1.1.1/cdn-cgi/trace")
        /\ (Config.HealthCheckURL (Config.WireGuard raw) <> "" ->
            Config.HealthCheckURL (Config.WireGuard cfg)
            = Config.HealthCheckURL (Config.WireGuard raw))
        /\ filled 30 (Config.HealthCheckInterval (Config.WireGuard raw))
                  (Config.HealthCheckInterval (Config.WireGuard cfg))
        /\ filled 3 (Config.FailureThreshold (Config.WireGuard raw))
                  (Config.FailureThreshold (Config.WireGuard cfg))
        /\ filled 9930 (Config.BasePort (Config.Proxy raw))
                  (Config.BasePort (Config.Proxy cfg))
        /\ filled 30 (Config.ReadTimeout (Config.Proxy raw))
                  (Config.ReadTimeout (Config.Proxy cfg))
        /\ filled 30 (Config.WriteTimeout (Config.Proxy raw))
                  (Config.WriteTimeout (Config.Proxy cfg))
        /\ filled 580 (Config.FailureHTTPCode (Config.Proxy raw))
                  (Config.FailureHTTPCode (Config.Proxy cfg))
        /\ filled 32768 (Config.BufferSize (Config.Proxy raw))
                  (Config.BufferSize (Config.Proxy cfg))
        /\ filled 9929 (Config.Port (Config.WebServer raw))
                  (Config.Port (Config.WebServer cfg)))
    /\ Config.HealthCheckURL (Config.WireGuard cfg) <> ""
    /\ Config.HealthCheckInterval (Config.WireGuard cfg) <> 0
    /\ Config.FailureThreshold (Config.WireGuard cfg) <> 0
    /\ Config.BasePort (Config.Proxy cfg) <> 0
    /\ Config.ReadTimeout (Config.Proxy cfg) <> 0
    /\ Config.WriteTimeout (Config.Proxy cfg) <> 0
    /\ Config.FailureHTTPCode (Config.Proxy cfg) <> 0
    /\ Config.BufferSize (Config.Proxy cfg) <> 0
    /\ Config.Port (Config.WebServer cfg) <> 0
    /\ Config.Load (Ok cfg) = Ok cfg.
Proof.
  intros read cfg H filled. unfold Config.Load in H.
  destruct read as [raw | e | p]; try discriminate.
  inversion H as [Hcfg]. clear H.
  assert (Hf : forall d v, filled d v (Config.dflt d v)).
  { intros d v. unfold filled, Config.dflt.
    destruct (Z.eqb_spec v 0); split; intros; congruence. }
  assert (Hd : forall d v, d <> 0 -> Config.dflt d v <> 0).
  { intros d v Hd. unfold Config.dflt.
    destruct (Z.eqb_spec v 0); [exact Hd | assumption]. }
  assert (Hk : forall d v, v <> 0 -> Config.dflt d v = v).
  { intros d v Hv. unfold Config.dflt.
    destruct (Z.eqb_spec v 0); [contradiction | reflexivity]. }
  assert (Hi : forall d v, d <> 0 ->
                           Config.dflt d (Config.dflt d v) = Config.dflt d v).
  { intros d v Hd0. apply Hk. apply Hd. exact Hd0. }
  assert (Hu : (if String.eqb (Config.HealthCheckURL (Config.WireGuard raw)) ""
                then "http://1.1.1.1/cdn-cgi/trace"
                else Config.HealthCheckURL (Config.WireGuard raw)) <> "").
  { destruct (String.eqb_spec (Config.HealthCheckURL (Config.WireGuard raw)) "");
      [discriminate | assumption]. }
  unfold Config.set_defaults; simpl.
  split; [| repeat (split; [try (apply Hd; discriminate); try exact Hu |])].
  - exists raw. split; [reflexivity |]. split; [reflexivity |].
    split; [| split].
    + intros E. rewrite E. reflexivity.
    + intros E.
      destruct (String.eqb_spec
                  (Config.HealthCheckURL (Config.WireGuard raw)) "");
        [contradiction | reflexivity].
    + repeat split; apply Hf.
  - f_equal. unfold Config.set_defaults. simpl.
    rewrite !Hi by discriminate.
    destruct (String.eqb_spec
                (if String.eqb (Config.HealthCheckURL (Config.WireGuard raw)) ""
                 then "http://1.1.1.1/cdn-cgi/trace"
                 else Config.HealthCheckURL (Config.WireGuard raw)) "")
      as [E | E]; [contradiction | reflexivity].
Qed.

Lemma Load_fills_defaults_witness :
  Config.BufferSize (Config.Proxy (Config.set_defaults Samples.sparseConfig))
  = 32768
  /\ Config.BasePort (Config.Proxy (Config.set_defaults Samples.sparseConfig))
     = 1080.
Proof.
  destruct (Load_fills_defaults (Ok Samples.sparseConfig)
              (Config.set_defaults Samples.sparseConfig) eq_refl)
    as [(raw & Hraw & _ & _ & _ & _ & _ & Hbase & _ & _ & _ & Hbuf & _) _].
  inversion Hraw; subst raw. split.
  - apply (proj1 Hbuf). reflexivity.
  - apply (proj2 Hbase). discriminate.
Defined.

(** ** What the prober keeps *)

Section Kept.

Lemma new_connections_identity l : forall i,
  map Name (new_connections i l) = map Config.cc_Name l
  /\ map InterfaceName (new_connections i l) = map Config.cc_InterfaceName l
  /\ map ConfigPath (new_connections i l) = map Config.cc_ConfigPath l.
Proof.
  induction l as [| a l IH]; intros i; simpl; [auto |].
  destruct (IH (i + 1)) as (H1 & H2 & H3). rewrite H1, H2, H3. auto.
Qed.

Lemma new_connections_indexes l : forall i,
  map Index (new_connections i l)
  = map (fun k => i + Z.of_nat k) (seq 0 (List.length l)).
Proof.
  induction l as [| a l IH]; intros i; simpl; [reflexivity |].
  rewrite IH, <- seq_shift, map_map. f_equal; [lia |].
  apply map_ext. intros k. lia.
Qed.

Lemma round_identity probe now (m : Manager) :
  let m' := fst (healthCheckRound probe now m) in
  map Name (connections m') = map Name (connections m)
  /\ map InterfaceName (connections m') = map InterfaceName (connections m)
  /\ map ConfigPath (connections m') = map ConfigPath (connections m)
  /\ map Index (connections m') = map Index (connections m)
  /\ failureThreshold m' = failureThreshold m
  /\ checkInterval m' = checkInterval m.
Proof.
  cbn zeta. rewrite round_connections. rewrite !map_map.
  repeat split; try reflexivity; apply map_ext; intros c;
    rewrite performHealthCheck_recordOutcome;
    apply (step_identity m c (fst (checkHealth c (probe c))) (now c)).
Qed.


End Kept.

(** X8. Whatever the prober does, the tunnels of the manager stay those of
    the configuration, in its order: same number, names, interface names
    and configuration paths, indexes 0, 1, 2, ..., and the threshold of the
    configuration. *)
Theorem tunnels_keep_identity :
  forall (c : Config.WireGuardConfig) (m : Manager),
    reachable c m ->
    map Name (connections m) = map Config.cc_Name (Config.Connections c)
    /\ map InterfaceName (connections m)
       = map Config.cc_InterfaceName (Config.Connections c)
    /\ map ConfigPath (connections m)
       = map Config.cc_ConfigPath (Config.Connections c)
    /\ map Index (connections m)
       = map Z.of_nat (seq 0 (List.length (Config.Connections c)))
    /\ failureThreshold m = Config.FailureThreshold c.
Proof.
  intros c m Hr. induction Hr as [| m probe now Hr IH].
  - destruct (new_connections_identity (Config.Connections c) 0)
      as (H1 & H2 & H3).
    simpl. repeat split; try assumption.
    rewrite new_connections_indexes. apply map_ext. intros k. lia.
  - destruct IH as (H1 & H2 & H3 & H4 & H5).
    destruct (round_identity probe now m) as (R1 & R2 & R3 & R4 & R5 & _).
    rewrite R1, R2, R3, R4, R5. auto.
Qed.

Lemma tunnels_keep_identity_witness :
  map InterfaceName (connections Examples.managerA) = ["wg0"; "wg1"].
Proof.
  apply (tunnels_keep_identity Examples.wgConfig Examples.managerA).
  apply reach_round. apply reach_new.
Defined.



(** ** What selection can return *)

Section Selection.

Lemma index_Ok {A : Type} (s : list A) (i : Z) (a : A) :
  Go.index s i = Ok a ->
  0 <= i < Z.of_nat (List.length s) /\ nth_error s (Z.to_nat i) = Some a.
Proof.
  unfold Go.index.
  destruct (i <? 0) eqn:E1; [discriminate |].
  destruct (Z.of_nat (List.length s) <=? i) eqn:E2; [discriminate |].
  simpl. apply Z.ltb_ge in E1. apply Z.leb_gt in E2.
  destruct (nth_error s (Z.to_nat i)) as [x |]; [| discriminate].
  intros H. inversion H; subst. split; [lia | reflexivity].
Qed.

Lemma GetHealthyConnection_Ok (m : Manager) (index : Z) conn :
  GetHealthyConnection m index = Ok conn ->
  nth_error (connections m) (Z.to_nat index) = Some conn
  /\ 0 <= index < Z.of_nat (List.length (connections m))
  /\ healthy conn = true.
Proof.
  unfold GetHealthyConnection.
  destruct ((index <? 0) || (index >=? Z.of_nat (List.length (connections m))));
    [discriminate |].
  destruct (Go.index (connections m) index) as [c | e | p] eqn:E;
    try discriminate.
  destruct (healthy c) eqn:Hh; simpl; [| discriminate].
  intros H. inversion H; subst.
  apply index_Ok in E. tauto.
Qed.

Lemma GetRandomHealthyConnection_Ok (m : Manager) (now : Z) conn :
  GetRandomHealthyConnection m now = Ok conn ->
  In conn (connections m) /\ healthy conn = true.
Proof.
  unfold GetRandomHealthyConnection.
  destruct (Z.of_nat (List.length (healthyConns m)) =? 0); [discriminate |].
  intros H. apply index_Ok in H. destruct H as [_ H].
  apply nth_error_In in H. rewrite healthyConns_filter in H.
  apply filter_In in H. exact H.
Qed.

Lemma no_healthy_no_selection (env : Proxy.Env) (index : Z) :
  Forall (fun c => healthy c = false) (connections (Proxy.wgManager env)) ->
  exists e, Proxy.selectConnection env index = Err e.
Proof.
  intros Hall. rewrite Forall_forall in Hall.
  unfold Proxy.selectConnection. destruct (index =? 0).
  - unfold GetRandomHealthyConnection.
    rewrite healthyConns_filter.
    assert (E : List.filter healthy (connections (Proxy.wgManager env)) = []).
    { destruct (List.filter healthy (connections (Proxy.wgManager env)))
        as [| c l] eqn:E; [reflexivity |].
      assert (Hin : In c (List.filter healthy
                            (connections (Proxy.wgManager env))))
        by (rewrite E; left; reflexivity).
      apply filter_In in Hin. destruct Hin as [Hin Hh].
      rewrite (Hall c Hin) in Hh. discriminate. }
    rewrite E. simpl. eexists. reflexivity.
  - destruct (GetHealthyConnection (Proxy.wgManager env) (index - 1))
      as [c | e | p] eqn:E.
    + apply GetHealthyConnection_Ok in E. destruct E as (Hn & _ & Hh).
      apply nth_error_In in Hn. rewrite (Hall c Hn) in Hh. discriminate.
    + eexists. reflexivity.
    + exfalso. apply (GetHealthyConnection_no_panic _ _ _ E).
Qed.

End Selection.

(** X10. A tunnel that selection returns, on the random port or on a
    pinned one, is a tunnel of the manager and is healthy; on a pinned port
    (index other than 0) it is the tunnel at position index - 1. *)
Theorem selection_returns_healthy_tunnel :
  forall (env : Proxy.Env) (index : Z) (conn : Connection),
    Proxy.selectConnection env index = Ok conn ->
    In conn (connections (Proxy.wgManager env))
    /\ healthy conn = true
    /\ (index <> 0 ->
        nth_error (connections (Proxy.wgManager env)) (Z.to_nat (index - 1))
        = Some conn).
Proof.
  intros env index conn H. unfold Proxy.selectConnection in H.
  destruct (Z.eqb_spec index 0) as [E | E].
  - apply GetRandomHealthyConnection_Ok in H. destruct H as [Hin Hh].
    repeat split; try assumption. intros Hne. contradiction.
  - apply GetHealthyConnection_Ok in H. destruct H as (Hn & _ & Hh).
    repeat split; try assumption; [| intros _; exact Hn].
    apply nth_error_In in Hn. exact Hn.
Qed.

Lemma selection_returns_healthy_tunnel_witness :
  healthy (nth 0 (connections Examples.managerA) Examples.connB) = true.
Proof.
  apply (selection_returns_healthy_tunnel
           (Examples.proxyEnv Examples.managerA) 1).
  reflexivity.
Defined.

(** X11. When no tunnel is healthy (and so when there is no tunnel at all)
    selection fails with an error on every port and at every clock: it
    returns no tunnel and does not panic. *)
Theorem selection_fails_without_healthy_tunnel :
  forall (env : Proxy.Env) (index : Z),
    Forall (fun c => healthy c = false) (connections (Proxy.wgManager env)) ->
    exists e, Proxy.selectConnection env index = Err e.
Proof. intros env index H. apply no_healthy_no_selection. exact H. Qed.

Lemma selection_fails_without_healthy_tunnel_witness :
  exists e,
    Proxy.selectConnection (Examples.proxyEnv Examples.manager) 0 = Err e.
Proof.
  apply (selection_fails_without_healthy_tunnel
           (Examples.proxyEnv Examples.manager) 0).
  repeat constructor.
Defined.

(** X12. Right after [Initialize], whatever the startup probes observed,
    every selection fails: no tunnel can be selected before a round of the
    prober has found it healthy. *)
Theorem no_selection_after_Initialize :
  forall (c : Config.WireGuardConfig) (host : Host)
         (probe : Connection -> ProbeOutcome) (env : Proxy.Env) (index : Z),
    Proxy.wgManager env = fst (fst (Initialize host probe (NewManager c))) ->
    exists e, Proxy.selectConnection env index = Err e.
Proof.
  intros c host probe env index Hm.
  apply no_healthy_no_selection. rewrite Hm. simpl.
  apply new_connections_unhealthy.
Qed.

Lemma no_selection_after_Initialize_witness :
  exists e,
    Proxy.selectConnection (Examples.proxyEnv Examples.manager) 1 = Err e.
Proof.
  apply (no_selection_after_Initialize Examples.wgConfig Examples.goodHost
           (fun _ => Examples.ok200) (Examples.proxyEnv Examples.manager) 1).
  reflexivity.
Defined.

(** ** The greeting *)

Section Greeting.

Import GoNet Proxy.

Lemma Write_ok data (bs : list byte) (w : nat) (tr : list Event) :
  Write data {| unread := bs; writable := S w; trace := tr |}
  = (Ok tt, {| unread := bs; writable := w;
               trace := (tr ++ [ClientWrite data true])%list |}).
Proof. reflexivity. Qed.

Lemma handshake_accepts (n : byte) (methods rest : list byte) (w : nat)
      (tr : list Event) :
  u8 n = Z.of_nat (List.length methods) ->
  (1 <= List.length methods)%nat ->
  handleHandshake
    {| unread := ([x05; n] ++ methods ++ rest)%list; writable := S w;
       trace := tr |}
  = (Ok tt, {| unread := rest; writable := w;
               trace := (tr ++ [ClientWrite [x05; x00] true])%list |}).
Proof.
  intros Hn Hlen. unfold handleHandshake, bind.
  rewrite (ReadFull_app 2 [x05; n] (methods ++ rest) (S w) tr) by reflexivity.
  cbn [nth]. unfold socks5Version, noAuth.
  change (Byte.eqb x05 x05) with true. cbn [negb].
  destruct (u8 n =? 0) eqn:E; [apply Z.eqb_eq in E; lia |].
  rewrite Hn, Nat2Z.id.
  rewrite (ReadFull_app (List.length methods) methods rest (S w) tr)
    by reflexivity.
  apply Write_ok.
Qed.

Lemma handshake_rejects (ver n : byte) (rest : list byte) (w : nat)
      (tr : list Event) :
  ver <> x05 \/ n = x00 ->
  exists e,
    handleHandshake
      {| unread := ver :: n :: rest; writable := w; trace := tr |}
    = (Err e, {| unread := rest; writable := w; trace := tr |}).
Proof.
  intros H. unfold handleHandshake, bind.
  change (ver :: n :: rest) with ([ver; n] ++ rest)%list.
  rewrite (ReadFull_app 2 [ver; n] rest w tr) by reflexivity.
  cbn [nth]. unfold socks5Version.
  destruct (Byte.eqb ver x05) eqn:E; cbn [negb]; [| eexists; reflexivity].
  apply Byte.byte_dec_bl in E.
  destruct H as [H | ->]; [contradiction |].
  change (u8 x00 =? 0) with true. cbv iota. eexists. reflexivity.
Qed.

End Greeting.

(** X13. A greeting of version 5 with one to 255 methods is accepted
    whatever the methods are, also when "no authentication" (0x00) is not
    among them: the answer written is [05 00], and exactly the greeting is
    read, the bytes after it are left. The client connection takes the
    write. *)
Theorem handleHandshake_accepts_any_methods :
  forall (methods rest : list byte) (w : nat) (tr : list Proxy.Event),
    (1 <= List.length methods <= 255)%nat ->
    exists n : byte,
      GoNet.u8 n = Z.of_nat (List.length methods)
      /\ Proxy.handleHandshake
           {| Proxy.unread := ([x05; n] ++ methods ++ rest)%list;
              Proxy.writable := S w; Proxy.trace := tr |}
         = (Ok tt,
            {| Proxy.unread := rest; Proxy.writable := w;
               Proxy.trace :=
                 (tr ++ [Proxy.ClientWrite [x05; x00] true])%list |}).
Proof.
  intros methods rest w tr [H1 H2].
  destruct (length_byte methods H2) as [n Hn].
  exists n. split; [symmetry; exact Hn |].
  apply handshake_accepts; [symmetry; exact Hn | exact H1].
Qed.

Lemma handleHandshake_accepts_any_methods_witness :
  exists n : byte,
    GoNet.u8 n = 2
    /\ fst (Proxy.handleHandshake
              {| Proxy.unread := ([x05; n] ++ [x02; x80] ++ [x05])%list;
                 Proxy.writable := 1; Proxy.trace := [] |})
       = Ok tt.
Proof.
  destruct (handleHandshake_accepts_any_methods [x02; x80] [x05] 0 [])
    as (n & Hn & H).
  - simpl. lia.
  - exists n. split; [exact Hn |]. rewrite H. reflexivity.
Defined.

(** X14. A greeting whose version is not 5, or that offers no method, is
    refused with an error after its first two bytes are read, and nothing
    is written to the client. *)
Theorem handleHandshake_refuses :
  forall (ver n : byte) (rest : list byte) (w : nat) (tr : list Proxy.Event),
    ver <> x05 \/ n = x00 ->
    exists e,
      Proxy.handleHandshake
        {| Proxy.unread := ver :: n :: rest; Proxy.writable := w;
           Proxy.trace := tr |}
      = (Err e, {| Proxy.unread := rest; Proxy.writable := w;
                   Proxy.trace := tr |}).
Proof. intros. apply handshake_rejects. assumption. Qed.

Lemma handleHandshake_refuses_witness :
  exists e,
    Proxy.handleHandshake
      {| Proxy.unread := [x04; x01; x00]; Proxy.writable := 1;
         Proxy.trace := [] |}
    = (Err e, {| Proxy.unread := [x00]; Proxy.writable := 1;
                 Proxy.trace := [] |}).
Proof.
  apply (handleHandshake_refuses x04 x01 [x00] 1 []).
  left. discriminate.
Defined.

(** ** What the handler closes and counts *)

(** X15. On a fresh client connection, when the relay has its buffer (a
    buffer size above 0, and memory for it), the handler closes the client
    exactly once, as the last thing it does; it dials at most once, and it
    closes a target exactly as many times as a dial succeeded: no target is
    left open and none is closed that was not opened. When the relay
    panics for its buffer, as with a buffer size that is negative or 0,
    this holds for every request that is not served; a request that is
    served ends the process in the relay, after the success reply and the
    count, and neither connection is closed by the handler. *)
Theorem handleConnection_closes :
  forall (env : Proxy.Env) (index : Z) (c : Proxy.Conn),
    Proxy.trace c = [] ->
    let tr := Proxy.trace (Proxy.handleConnection env index c) in
    let closes :=
      (exists before, tr = (before ++ [Proxy.ClientClose])%list)
      /\ Handling.count Handling.isClientClose tr = 1%nat
      /\ (Handling.count Handling.isDial tr <= 1)%nat
      /\ Handling.count Handling.isTargetClose tr
         = Handling.count Handling.isDialOk tr in
    (Proxy.relayPanic env = None -> closes)
    /\ (forall msg,
          Proxy.relayPanic env = Some msg ->
          (~ In Handling.served tr -> closes)
          /\ (In Handling.served tr ->
              (exists conn before,
                  Proxy.selectConnection env index = Ok conn
                  /\ tr = (before
                           ++ [Handling.served;
                               Proxy.StatsCall
                                 (Stats.IncrementRequests (Index conn));
                               Proxy.Relay; Proxy.Crash msg])%list)
              /\ Handling.count Handling.isClientClose tr = 0%nat
              /\ Handling.count Handling.isTargetClose tr = 0%nat)).
Proof.
  intros env index c Htr tr closes. subst closes tr. unfold Handling.served.
  destruct (handleConnection_shapes env index c Htr)
    as [H | [H | [H | [(ok & e & _ & H) | [(p & _ & H)
       | [(conn & target & ok & _ & _ & H)
       | [(conn & target & _ & _ & Hmk & H)
       | [(conn & target & _ & _ & H)
       | (conn & target & msg' & Hs & _ & Hmk & H)]]]]]]]];
    rewrite H; clear H.
  all: try (split;
            [ intros _; split;
              [ match goal with
                | |- exists before, ?l = _ =>
                    exists (removelast l); reflexivity
                end
              | unfold Handling.count; simpl; repeat split; lia ]
            | intros msg Hm; split;
              [ intros _; split;
                [ match goal with
                  | |- exists before, ?l = _ =>
                      exists (removelast l); reflexivity
                  end
                | unfold Handling.count; simpl; repeat split; lia ]
              | simpl; intros Hin; exfalso;
                intuition (try discriminate; try congruence) ] ]).
  (* the buffer cannot be made and the request is served *)
  split; [intros Hn; congruence |].
  intros msg Hm. rewrite Hm in Hmk. inversion Hmk; subst msg'.
  split.
  - intros Hno. exfalso. apply Hno. simpl. tauto.
  - intros _. split.
    + exists conn, [Proxy.ClientWrite [x05; x00] true;
                    Proxy.Dial (InterfaceName conn) target true].
      split; [exact Hs | reflexivity].
    + unfold Handling.count. simpl. split; reflexivity.
Qed.

Lemma handleConnection_closes_witness :
  Handling.count Handling.isTargetClose
    (Proxy.trace
       (Proxy.handleConnection (Examples.proxyEnv Examples.managerA) 1
          (Examples.client (Examples.greeting ++ Examples.connectIPv4))))
  = Handling.count Handling.isDialOk
      (Proxy.trace
         (Proxy.handleConnection (Examples.proxyEnv Examples.managerA) 1
            (Examples.client (Examples.greeting ++ Examples.connectIPv4))))
  /\ Handling.count Handling.isClientClose
       (Proxy.trace
          (Proxy.handleConnection Samples.negativeBuffer 1
             (Examples.client (Examples.greeting ++ Examples.connectIPv4))))
     = 0%nat.
Proof.
  split.
  - apply (proj1 (handleConnection_closes
                    (Examples.proxyEnv Examples.managerA) 1
                    (Examples.client
                       (Examples.greeting ++ Examples.connectIPv4))
                    eq_refl)).
    reflexivity.
  - apply (proj2 (handleConnection_closes Samples.negativeBuffer 1
                    (Examples.client
                       (Examples.greeting ++ Examples.connectIPv4))
                    eq_refl)
             "runtime error: makeslice: len out of range").
    + reflexivity.
    + vm_compute. tauto.
Defined.

Section Served.

Import Proxy.

Lemma selectConnection_Ok (env : Env) (index : Z) (conn : Connection) :
  selectConnection env index = Ok conn ->
  In conn (connections (wgManager env)) /\ healthy conn = true.
Proof.
  unfold selectConnection. destruct (index =? 0); intros H.
  - apply GetRandomHealthyConnection_Ok in H. exact H.
  - apply GetHealthyConnection_Ok in H. destruct H as (Hn & _ & Hh).
    apply nth_error_In in Hn. auto.
Qed.

End Served.

(** X16. On a fresh client connection a request is counted in the stats,
    once and for the tunnel selected, exactly when the reply that reports
    success was written and taken by the client; the relay runs in that
    case and in no other. *)
Theorem request_counted_when_served :
  forall (env : Proxy.Env) (index : Z) (c : Proxy.Conn),
    Proxy.trace c = [] ->
    let tr := Proxy.trace (Proxy.handleConnection env index c) in
    (forall i,
        In (Proxy.StatsCall (Stats.IncrementRequests i)) tr
        <-> In Handling.served tr
            /\ exists conn,
                Proxy.selectConnection env index = Ok conn /\ i = Index conn)
    /\ (In Proxy.Relay tr <-> In Handling.served tr)
    /\ (Handling.count Handling.isCounted tr <= 1)%nat.
Proof.
  intros env index c Htr tr. subst tr. unfold Handling.served.
  destruct (handleConnection_shapes env index c Htr)
    as [H | [H | [H | [(ok & e & Hs & H) | [(p & Hs & H)
       | [(conn & target & ok & Hs & _ & H)
       | [(conn & target & Hs & _ & _ & H)
       | [(conn & target & Hs & _ & H)
       | (conn & target & msg & Hs & _ & _ & H)]]]]]]]];
    rewrite H; clear H; unfold Handling.count; simpl;
    (split; [intros i; split;
             [ intros Hin; intuition (try discriminate)
             | intros [Hin (conn' & Hc & Hi)];
               intuition (try discriminate) ]
            | split; [split; intros Hin; intuition (try discriminate) | lia]]).
  all: try (match goal with
            | Heq : Proxy.StatsCall _ = Proxy.StatsCall _ |- _ =>
                inversion Heq
            end;
            exists conn; auto).
  all: rewrite Hs in Hc; inversion Hc; subst; auto.
Qed.

Lemma request_counted_when_served_witness :
  In Proxy.Relay
     (Proxy.trace
        (Proxy.handleConnection (Examples.proxyEnv Examples.managerA) 1
           (Examples.client (Examples.greeting ++ Examples.connectIPv4)))).
Proof.
  apply (request_counted_when_served (Examples.proxyEnv Examples.managerA) 1
           (Examples.client (Examples.greeting ++ Examples.connectIPv4))).
  - reflexivity.
  - vm_compute. tauto.
Defined.

(** X17. On a fresh client connection every dial the handler makes goes
    through the interface of the tunnel that selection returned, a healthy
    tunnel of the manager; without a selected tunnel there is no dial. *)
Theorem dial_only_through_selected_tunnel :
  forall (env : Proxy.Env) (index : Z) (c : Proxy.Conn),
    Proxy.trace c = [] ->
    forall iface target ok,
      In (Proxy.Dial iface target ok)
         (Proxy.trace (Proxy.handleConnection env index c)) ->
      exists conn,
        Proxy.selectConnection env index = Ok conn
        /\ iface = InterfaceName conn
        /\ In conn (connections (Proxy.wgManager env))
        /\ healthy conn = true
        /\ ok = Proxy.dialThroughInterface env iface target.
Proof.
  intros env index c Htr iface target ok Hin.
  destruct (handleConnection_shapes env index c Htr)
    as [H | [H | [H | [(ok' & e & Hs & H) | [(p & Hs & H)
       | [(conn & tg & ok' & Hs & Hd & H)
       | [(conn & tg & Hs & Hd & _ & H)
       | [(conn & tg & Hs & Hd & H)
       | (conn & tg & msg & Hs & Hd & _ & H)]]]]]]]];
    rewrite H in Hin; clear H; simpl in Hin;
    intuition (try discriminate);
    match goal with
    | Heq : Proxy.Dial _ _ _ = Proxy.Dial _ _ _ |- _ =>
        inversion Heq; subst; clear Heq
    end;
    exists conn; destruct (selectConnection_Ok env index conn Hs);
    rewrite Hd; auto.
Qed.

Lemma dial_only_through_selected_tunnel_witness :
  exists conn,
    Proxy.selectConnection (Examples.proxyEnv Examples.managerA) 1 = Ok conn
    /\ "wg0" = InterfaceName conn
    /\ In conn (connections
                  (Proxy.wgManager (Examples.proxyEnv Examples.managerA)))
    /\ healthy conn = true
    /\ true
       = Proxy.dialThroughInterface (Examples.proxyEnv Examples.managerA)
                                    "wg0" "93.184.216.34:443".
Proof.
  apply (dial_only_through_selected_tunnel
           (Examples.proxyEnv Examples.managerA) 1
           (Examples.client (Examples.greeting ++ Examples.connectIPv4))).
  - reflexivity.
  - vm_compute. tauto.
Defined.

(** ** The addresses and the filtered file *)

Section Tokens.

Lemma Contains_In (s : string) (c : ascii) :
  Contains s c = true <-> In c (list_ascii_of_string s).
Proof.
  induction s as [| a s IH]; simpl; [split; [discriminate | tauto] |].
  rewrite orb_true_iff, IH, Ascii.eqb_eq. reflexivity.
Qed.

Lemma trim_runes_sub (back : bool) (n : nat) : forall l x,
  (List.length l <= n)%nat -> In x (trim_runes back l) -> In x l.
Proof.
  induction n as [| n IH]; intros l x Hlen Hin.
  - destruct l; [exact Hin | simpl in Hlen; lia].
  - destruct l as [| a l1]; [exact Hin |].
    simpl in Hlen. simpl in Hin.
    destruct (asciiSpace a).
    { right. apply (IH l1 x); [lia | exact Hin]. }
    destruct l1 as [| b l2]; [exact Hin |].
    simpl in Hlen.
    destruct (if back then space2 (code b) (code a)
              else space2 (code a) (code b)).
    { right. right. apply (IH l2 x); [lia | exact Hin]. }
    destruct l2 as [| c l3]; [exact Hin |].
    simpl in Hlen.
    destruct (if back then space3 (code c) (code b) (code a)
              else space3 (code a) (code b) (code c)); [| exact Hin].
    right. right. right. apply (IH l3 x); [lia | exact Hin].
Qed.

Lemma TrimSpace_sub (s : string) (c : ascii) :
  Contains (TrimSpace s) c = true -> Contains s c = true.
Proof.
  rewrite !Contains_In. unfold TrimSpace.
  rewrite list_ascii_of_string_of_list_ascii.
  intros H. apply in_rev in H.
  apply (trim_runes_sub true _ _ _ (Nat.le_refl _)) in H.
  apply in_rev in H.
  apply (trim_runes_sub false _ _ _ (Nat.le_refl _)) in H. exact H.
Qed.

(** The pieces of [Split] do not contain the separator, and contain
    nothing the string did not. *)
Lemma Split_pieces (sep : ascii) (s : string) :
  forall piece, In piece (Split s sep) ->
    Contains piece sep = false
    /\ forall c, Contains piece c = true -> Contains s c = true.
Proof.
  induction s as [| a s IH]; simpl; intros piece Hin.
  - destruct Hin as [<- | []]. split; [reflexivity | auto].
  - destruct (Ascii.eqb a sep) eqn:E.
    + destruct Hin as [<- | Hin].
      * split; [reflexivity | discriminate].
      * destruct (IH piece Hin) as [H1 H2]. split; [exact H1 |].
        intros c Hc. rewrite (H2 c Hc). apply orb_true_r.
    + destruct (Split s sep) as [| p ps] eqn:Es.
      * destruct Hin as [<- | []]. simpl. rewrite E.
        split; [reflexivity |]. intros c Hc. simpl in Hc.
        rewrite orb_false_r in Hc. rewrite Hc. reflexivity.
      * destruct Hin as [<- | Hin].
        -- destruct (IH p (or_introl eq_refl)) as [H1 H2].
           simpl. rewrite E, H1. split; [reflexivity |].
           intros c Hc. apply orb_true_iff in Hc.
           destruct Hc as [Hc | Hc]; [rewrite Hc; reflexivity |].
           rewrite (H2 c Hc). apply orb_true_r.
        -- destruct (IH piece (or_intror Hin)) as [H1 H2].
           split; [exact H1 |]. intros c Hc. rewrite (H2 c Hc).
           apply orb_true_r.
Qed.

Lemma cut_sub (sep : ascii) (s : string) : forall before after,
  cut s sep = Some (before, after) ->
  forall c,
    (Contains before c = true -> Contains s c = true)
    /\ (Contains after c = true -> Contains s c = true).
Proof.
  induction s as [| a s IH]; simpl; intros before after H c; [discriminate |].
  destruct (Ascii.eqb a sep).
  - inversion H; subst. split; [discriminate |].
    intros Hc. rewrite Hc. apply orb_true_r.
  - destruct (cut s sep) as [[b0 a0] |]; [| discriminate].
    inversion H; subst. destruct (IH b0 after eq_refl c) as [H1 H2].
    split; simpl; intros Hc.
    + apply orb_true_iff in Hc. destruct Hc as [Hc | Hc];
        [rewrite Hc; reflexivity |].
      rewrite (H1 Hc). apply orb_true_r.
    + rewrite (H2 Hc). apply orb_true_r.
Qed.

Lemma classify_value_sub (line key value : string) (c : ascii) :
  Spec.classify line = Spec.Setting key value ->
  Contains value c = true -> Contains line c = true.
Proof.
  unfold Spec.classify.
  destruct (String.eqb (TrimSpace line) "[Interface]"); [discriminate |].
  destruct (HasPrefix (TrimSpace line) "["); [discriminate |].
  destruct (String.eqb (TrimSpace line) "" || HasPrefix (TrimSpace line) "#"
            || HasPrefix (TrimSpace line) ";"); [discriminate |].
  destruct (cut (TrimSpace line) "=") as [[k v] |] eqn:E; [| discriminate].
  intros H Hc. inversion H; subst.
  apply TrimSpace_sub in Hc.
  apply TrimSpace_sub. apply (cut_sub _ _ _ _ E c). exact Hc.
Qed.

Lemma tokens_clean (value : string) :
  forall a, In a (Spec.tokens value) ->
    a <> ""
    /\ Contains a "," = false
    /\ forall c, Contains a c = true -> Contains value c = true.
Proof.
  intros a Hin. unfold Spec.tokens in Hin. apply filter_In in Hin.
  destruct Hin as [Hin Hne]. apply in_map_iff in Hin.
  destruct Hin as (piece & <- & Hp).
  destruct (Split_pieces "," value piece Hp) as [H1 H2].
  split; [| split].
  - intros E. rewrite E in Hne. discriminate.
  - destruct (Contains (TrimSpace piece) ",") eqn:E; [| reflexivity].
    apply TrimSpace_sub in E. congruence.
  - intros c Hc. apply H2. apply TrimSpace_sub. exact Hc.
Qed.

Lemma sections_lines (lines : list string) : forall b l,
  In l (Spec.sections b lines) -> In (snd l) lines.
Proof.
  induction lines as [| line rest IH]; intros b l Hin; simpl in *; [tauto |].
  destruct Hin as [<- | Hin]; [left; reflexivity |].
  right. apply (IH _ _ Hin).
Qed.

End Tokens.

(** X18. Every address the parser returns is a token that is not empty and
    holds neither a comma nor a line feed, and there is at least one. *)
Theorem parsed_addresses_are_tokens :
  forall (host : Host) (configPath wgConfig : string)
         (addresses : list string),
    parseWireGuardConfig host configPath = Ok (wgConfig, addresses) ->
    addresses <> []
    /\ Forall (fun a => a <> ""
                        /\ Contains a "," = false
                        /\ Contains a "010" = false) addresses.
Proof.
  intros host configPath cfg addrs H. unfold parseWireGuardConfig in H.
  destruct (ReadFile host configPath) as [data | e | p]; try discriminate.
  destruct (Z.of_nat (List.length (Wireguard.addresses (parseLines data))) =? 0)
    eqn:E; [discriminate |].
  inversion H; subst. clear H.
  split.
  - intros Hnil. rewrite Hnil in E. discriminate.
  - unfold parseLines.
    destruct (parse_loop (Split data "010") parseInit) as [_ Ha].
    simpl in Ha. rewrite Ha. apply Forall_forall. intros a Hin.
    apply in_flat_map in Hin. destruct Hin as (l & Hl & Hin).
    unfold Spec.addressesOf in Hin.
    destruct (Spec.classify (snd l)) as [| | | key value |] eqn:K;
      try contradiction.
    destruct (fst l && String.eqb key "Address"); [| contradiction].
    destruct (tokens_clean value a Hin) as (H1 & H2 & H3).
    split; [exact H1 |]. split; [exact H2 |].
    destruct (Contains a "010") eqn:Ec; [| reflexivity].
    apply H3 in Ec. apply (classify_value_sub _ _ _ _ K) in Ec.
    apply sections_lines in Hl.
    destruct (Split_pieces "010" data (snd l) Hl) as [Hno _]. congruence.
Qed.

Lemma parsed_addresses_are_tokens_witness :
  Forall (fun a => a <> ""
                   /\ Contains a "," = false
                   /\ Contains a "010" = false)
         ["10.0.0.2/32"; "fd00::2/128"].
Proof.
  apply (parsed_addresses_are_tokens Examples.goodHost
           "/etc/wireguard/wg0.conf"
           ("[Interface]" ++ LF ++ "PrivateKey = kA=" ++ LF ++ LF
            ++ "[Peer]" ++ LF ++ "PublicKey = kB=" ++ LF
            ++ "AllowedIPs = 0.0.0.0/0" ++ LF ++ LF)).
  vm_compute. reflexivity.
Defined.

Section Refilter.

Lemma Split_app_sep (sep : ascii) (l r : string) :
  Contains l sep = false ->
  Split (l ++ String sep r) sep = l :: Split r sep.
Proof.
  induction l as [| a l IH]; simpl; intros H.
  - rewrite Ascii.eqb_refl. reflexivity.
  - apply orb_false_iff in H. destruct H as [Ha Hl].
    rewrite Ha, (IH Hl). reflexivity.
Qed.

Lemma Split_joinLines (ls : list string) :
  Forall (fun l => Contains l "010" = false) ls ->
  Split (Spec.joinLines ls) "010" = (ls ++ [""])%list.
Proof.
  induction 1 as [| l ls Hl _ IH]; [reflexivity |].
  simpl. change (l ++ LF ++ Spec.joinLines ls)
    with (l ++ String "010" (Spec.joinLines ls)).
  rewrite (Split_app_sep "010" l _ Hl), IH. reflexivity.
Qed.

Lemma joinLines_app (a b : list string) :
  Spec.joinLines (a ++ b) = Spec.joinLines a ++ Spec.joinLines b.
Proof.
  induction a as [| x a IH]; simpl; [reflexivity |].
  rewrite IH, !string_app_assoc. reflexivity.
Qed.

Lemma kept_no_addresses (l : bool * string) :
  Spec.dropped l = false -> Spec.addressesOf l = [].
Proof.
  unfold Spec.dropped, Spec.addressesOf.
  destruct (Spec.classify (snd l)) as [| | | key value |]; try reflexivity.
  destruct (fst l); [| reflexivity]. simpl.
  destruct (String.eqb_spec key "Address") as [-> | Hne]; [| reflexivity].
  discriminate.
Qed.

Lemma dropped_same_section (b : bool) (line : string) :
  Spec.dropped (Spec.sectionOf b line, line) = true ->
  Spec.sectionOf b line = b.
Proof.
  unfold Spec.dropped, Spec.sectionOf. simpl.
  destruct (Spec.classify line); try discriminate. reflexivity.
Qed.

(** The kept lines fall in the sections they were in. *)
Lemma sections_kept (lines : list string) : forall b,
  Spec.sections b
    (map snd (List.filter (fun l => negb (Spec.dropped l))
                          (Spec.sections b lines)))
  = List.filter (fun l => negb (Spec.dropped l)) (Spec.sections b lines).
Proof.
  induction lines as [| line rest IH]; intros b; [reflexivity |].
  cbn [Spec.sections List.filter].
  destruct (Spec.dropped (Spec.sectionOf b line, line)) eqn:E; cbn [negb].
  - rewrite <- (dropped_same_section b line E) at 1. apply IH.
  - cbn [map snd Spec.sections]. rewrite IH. reflexivity.
Qed.

Lemma sections_snoc (lines : list string) (x : string) : forall b,
  exists b',
    Spec.sections b (lines ++ [x])
    = (Spec.sections b lines ++ [(Spec.sectionOf b' x, x)])%list.
Proof.
  induction lines as [| line rest IH]; intros b.
  - exists b. reflexivity.
  - destruct (IH (Spec.sectionOf b line)) as [b' Hb'].
    exists b'. simpl. rewrite Hb'. reflexivity.
Qed.

Lemma filter_twice {A : Type} (f : A -> bool) (l : list A) :
  List.filter f (List.filter f l) = List.filter f l.
Proof.
  induction l as [| a l IH]; simpl; [reflexivity |].
  destruct (f a) eqn:E; simpl; rewrite ?E, IH; reflexivity.
Qed.

Lemma all_kept_no_addresses (l : list (bool * string)) :
  flat_map Spec.addressesOf
           (List.filter (fun l => negb (Spec.dropped l)) l) = [].
Proof.
  induction l as [| a l IH]; simpl; [reflexivity |].
  destruct (Spec.dropped a) eqn:E; simpl; [exact IH |].
  rewrite (kept_no_addresses a E), IH. reflexivity.
Qed.

Lemma refilter (data : string) :
  let filtered := wgConfig (parseLines data) in
  addresses (parseLines filtered) = []
  /\ wgConfig (parseLines filtered) = filtered ++ LF.
Proof.
  cbn zeta.
  set (K := List.filter (fun l => negb (Spec.dropped l))
                        (Spec.sections false (Split data "010"))).
  assert (Hf : wgConfig (parseLines data) = Spec.joinLines (map snd K)).
  { unfold parseLines.
    destruct (parse_loop (Split data "010") parseInit) as [Hc _].
    exact Hc. }
  rewrite Hf.
  assert (Hlines : Forall (fun l => Contains l "010" = false) (map snd K)).
  { apply Forall_forall. intros l Hl. apply in_map_iff in Hl.
    destruct Hl as (e & <- & He). subst K. apply filter_In in He.
    destruct He as [He _]. apply sections_lines in He.
    apply (Split_pieces "010" data (snd e) He). }
  unfold parseLines. rewrite (Split_joinLines _ Hlines).
  destruct (parse_loop (map snd K ++ [""]) parseInit) as [Hc2 Ha2].
  simpl in Hc2, Ha2. rewrite Hc2, Ha2. clear Hc2 Ha2.
  destruct (sections_snoc (map snd K) "" false) as [b' Hs].
  assert (Hsk : Spec.sections false (map snd K) = K)
    by (unfold K; apply sections_kept).
  assert (HfK : List.filter (fun l => negb (Spec.dropped l)) K = K)
    by (unfold K; apply filter_twice).
  rewrite Hs, Hsk.
  assert (Hd : Spec.dropped (Spec.sectionOf b' "", "") = false)
    by reflexivity.
  assert (Hna : Spec.addressesOf (Spec.sectionOf b' "", "") = [])
    by reflexivity.
  split.
  - rewrite flat_map_app. cbn [flat_map]. rewrite Hna, !app_nil_r.
    unfold K. apply all_kept_no_addresses.
  - rewrite filter_app. cbn [List.filter]. rewrite Hd. cbn [negb].
    rewrite HfK, map_app, joinLines_app. reflexivity.
Qed.

End Refilter.

(** X19. What the parser gives as filtered configuration holds no address
    for the parser: parsing it again finds no Address and fails, and
    filters nothing more out of it, the text comes back with one more line
    feed. *)
Theorem filtered_config_has_no_address :
  forall (host : Host) (configPath wgConfig : string)
         (addresses : list string),
    parseWireGuardConfig host configPath = Ok (wgConfig, addresses) ->
    Wireguard.wgConfig (parseLines wgConfig) = wgConfig ++ LF
    /\ forall (host' : Host) (configPath' : string),
        ReadFile host' configPath' = Ok wgConfig ->
        parseWireGuardConfig host' configPath'
        = Err "no Address found in config".
Proof.
  intros host configPath cfg addrs H. unfold parseWireGuardConfig in H.
  destruct (ReadFile host configPath) as [data | e | p]; try discriminate.
  destruct (Z.of_nat (List.length (Wireguard.addresses (parseLines data))) =? 0);
    [discriminate |].
  inversion H; subst. clear H.
  destruct (refilter data) as [Ha Hc].
  split; [exact Hc |].
  intros host' configPath' Hread. unfold parseWireGuardConfig.
  rewrite Hread, Ha. reflexivity.
Qed.

Lemma filtered_config_has_no_address_witness :
  parseWireGuardConfig Samples.filteredHost "/tmp/wg-1.conf"
  = Err "no Address found in config".
Proof.
  apply (filtered_config_has_no_address Examples.goodHost
           "/etc/wireguard/wg0.conf"
           (Wireguard.wgConfig (parseLines Examples.interfaceConf))
           ["10.0.0.2/32"; "fd00::2/128"]).
  - vm_compute. reflexivity.
  - reflexivity.
Defined.

Section Headers.

Lemma sections_without_header (lines : list string) :
  Forall (fun line => TrimSpace line <> "[Interface]") lines ->
  flat_map Spec.addressesOf (Spec.sections false lines) = [].
Proof.
  induction 1 as [| line rest Hl _ IH]; [reflexivity |].
  cbn [Spec.sections flat_map].
  assert (Hs : Spec.sectionOf false line = false).
  { unfold Spec.sectionOf, Spec.classify.
    destruct (String.eqb_spec (TrimSpace line) "[Interface]");
      [contradiction |].
    destruct (HasPrefix (TrimSpace line) "["); [reflexivity |].
    destruct (String.eqb (TrimSpace line) "" || HasPrefix (TrimSpace line) "#"
              || HasPrefix (TrimSpace line) ";"); [reflexivity |].
    destruct (cut (TrimSpace line) "=") as [[k v] |]; reflexivity. }
  rewrite Hs, IH, app_nil_r.
  unfold Spec.addressesOf. cbn [fst snd andb].
  destruct (Spec.classify line); reflexivity.
Qed.

End Headers.

(** X20. The section header counts only as the exact text [Interface]
    (white space around it apart). A file with no such line, for one with
    the header in lower case, gives no address whatever Address lines it
    has: the parser fails, and bringing the tunnel up returns that failure,
    so no configuration is set on the interface. The file can be read. *)
Theorem no_Interface_header_no_tunnel :
  forall (host : Host) (conn : Connection) (perm : Z) (data : string),
    Stat host (ConfigPath conn) = Ok perm ->
    ReadFile host (ConfigPath conn) = Ok data ->
    Forall (fun line => TrimSpace line <> "[Interface]") (Split data "010") ->
    parseWireGuardConfig host (ConfigPath conn)
    = Err "no Address found in config"
    /\ bringUpConnection host conn
       = Some "failed to parse config: no Address found in config".
Proof.
  intros host conn perm data Hstat Hread Hno.
  assert (Hp : parseWireGuardConfig host (ConfigPath conn)
               = Err "no Address found in config").
  { unfold parseWireGuardConfig. rewrite Hread. unfold parseLines.
    destruct (parse_loop (Split data "010") parseInit) as [_ Ha].
    simpl in Ha. rewrite Ha, (sections_without_header _ Hno). reflexivity. }
  split; [exact Hp |].
  unfold bringUpConnection. rewrite Hstat, Hp. reflexivity.
Qed.

Lemma no_Interface_header_no_tunnel_witness :
  bringUpConnection Samples.lowerCaseHost Examples.connA
  = Some "failed to parse config: no Address found in config".
Proof.
  apply (no_Interface_header_no_tunnel Samples.lowerCaseHost Examples.connA
           384 Samples.lowerCaseConf).
  - reflexivity.
  - reflexivity.
  - vm_compute. repeat constructor; discriminate.
Defined.

(** ** The listeners *)

Lemma NoDup_map_filter {A B : Type} (f : A -> B) (q : A -> bool)
      (l : list A) :
  NoDup (map f l) -> NoDup (map f (List.filter q l)).
Proof.
  induction l as [| a l IH]; [trivial |].
  cbn [map List.filter]. intros Hnd. inversion Hnd as [| x xs Hni Hrest].
  subst. destruct (q a); [| apply IH; assumption].
  cbn [map]. constructor; [| apply IH; assumption].
  intros Hin. apply Hni. apply in_map_iff in Hin.
  destruct Hin as (b & Hb & Hf). apply filter_In in Hf.
  apply in_map_iff. exists b. tauto.
Qed.

Lemma ports_NoDup (base : Z) (n : nat) : forall s,
  NoDup (map (fun i => base + Z.of_nat i) (seq s n)).
Proof.
  induction n as [| n IH]; intros s; simpl; constructor; [| apply IH].
  intros Hin. apply in_map_iff in Hin. destruct Hin as (i & Heq & Hi).
  apply in_seq in Hi. lia.
Qed.

Section Listeners.

Variable listen : Z -> string -> option string.

(** Whether the proxy of this index and port gets its listener. *)
Let bound (ip : Z * Z) : bool :=
  match listen (fst ip) ("0.0.0.0:" ++ fmt_d (snd ip)) with
  | None => true
  | Some _ => false
  end.

Lemma started_listening (ps : list (Z * Z)) :
  let started :=
    map (fun ip =>
           (snd ip, Proxy.StartProxy (listen (fst ip)) (fst ip) (snd ip)))
        ps in
  flat_map (fun pr : Z * option string =>
              match snd pr with Some _ => [] | None => [fst pr] end) started
  = map snd (List.filter bound ps)
  /\ (List.length
        (flat_map (fun pr : Z * option string =>
                     match snd pr with Some e => [e] | None => [] end)
                  started)
      + List.length (List.filter bound ps)
      = List.length ps)%nat.
Proof.
  induction ps as [| [k port] ps [IH1 IH2]]; [split; reflexivity |].
  assert (Hb : bound (k, port)
               = match listen k ("0.0.0.0:" ++ fmt_d port) with
                 | None => true
                 | Some _ => false
                 end) by reflexivity.
  cbn [map flat_map fst snd List.filter]. rewrite Hb.
  unfold Proxy.StartProxy at 1 3.
  destruct (listen k ("0.0.0.0:" ++ fmt_d port));
    cbn [app List.length map snd]; rewrite IH1;
    (split; [reflexivity |]).
  - rewrite <- IH2. reflexivity.
  - rewrite <- IH2. rewrite Nat.add_succ_r. reflexivity.
Qed.

End Listeners.

(** X21. A process that gets through its startup (the configuration is
    loaded and the interval of the prober is positive) has started N + 1
    proxies, the proxy of index k asking for the port base_port + k. The
    ports on which a proxy listens are those of them whose listener was
    given, each once and no other; every proxy either listens or has
    logged that it could not. The web server is started beside them on its
    own port, and when it cannot listen that is an error logged and no
    more. *)
Theorem main_listens_on_its_ports :
  forall (env : Main.Env) (cfg : Config.Config),
    Config.Load (Main.readConfig env) = Ok cfg ->
    0 < tickerInterval (NewManager (Config.WireGuard cfg)) ->
    let N := Z.of_nat (List.length (Config.Connections (Config.WireGuard cfg))) in
    let base := Config.BasePort (Config.Proxy cfg) in
    exists s o,
      Main.main env = Main.Started s o
      /\ (forall port,
             In port (Main.listening s)
             <-> exists k,
                 0 <= k <= N /\ port = base + k
                 /\ Main.listen env k ("0.0.0.0:" ++ fmt_d port) = None)
      /\ NoDup (Main.listening s)
      /\ Z.of_nat (List.length (Main.listening s))
         + Z.of_nat (List.length (Main.proxyErrors s)) = N + 1
      /\ Main.webError s
         = Main.listenWeb env
             ("0.0.0.0:" ++ fmt_d (Config.Port (Config.WebServer cfg))).
Proof.
  intros env cfg Hload Hi N base. subst N base.
  unfold Main.main. rewrite Hload. cbn [Initialize].
  unfold StartHealthChecks. apply Z.leb_gt in Hi. rewrite Hi.
  eexists. eexists. split; [reflexivity |].
  cbn [Main.listening Main.proxyErrors Main.webError].
  destruct (started_listening (Main.listen env) (Main.proxies cfg))
    as [Hl He].
  cbn zeta in Hl, He. rewrite Hl.
  assert (Hports : map snd (Main.proxies cfg)
                   = map (fun i => Config.BasePort (Config.Proxy cfg)
                                   + Z.of_nat i)
                         (seq 0 (List.length
                                   (Config.Connections (Config.WireGuard cfg))
                                 + 1))).
  { unfold Main.proxies. rewrite map_map. reflexivity. }
  split; [| split; [| split]].
  - intros port. rewrite in_map_iff. split.
    + intros ([k q] & Hq & Hf). cbn [snd] in Hq. subst q.
      apply filter_In in Hf. destruct Hf as [Hin Hb]. cbn [fst snd] in Hb.
      unfold Main.proxies in Hin. apply in_map_iff in Hin.
      destruct Hin as (i & Heq & Hin). inversion Heq; subst.
      apply in_seq in Hin. exists (Z.of_nat i).
      split; [lia |]. split; [reflexivity |].
      destruct (Main.listen env (Z.of_nat i) _); [discriminate | reflexivity].
    + intros (k & Hk & Hp & Hlisten). subst port.
      exists (k, Config.BasePort (Config.Proxy cfg) + k).
      split; [reflexivity |]. apply filter_In. split.
      * unfold Main.proxies. apply in_map_iff. exists (Z.to_nat k).
        split; [f_equal; f_equal; lia |]. apply in_seq. lia.
      * cbn [fst snd]. rewrite Hlisten. reflexivity.
  - apply NoDup_map_filter. rewrite Hports. apply ports_NoDup.
  - assert (Hlen : List.length (Main.proxies cfg)
                   = (List.length (Config.Connections (Config.WireGuard cfg))
                      + 1)%nat)
      by (unfold Main.proxies; rewrite length_map, length_seq; reflexivity).
    rewrite Hlen in He. rewrite length_map. lia.
  - reflexivity.
Qed.

Lemma main_listens_on_its_ports_witness :
  exists s o,
    Main.main Samples.onePortTaken = Main.Started s o
    /\ Main.listening s = [9930; 9932]
    /\ NoDup (Main.listening s).
Proof.
  destruct (main_listens_on_its_ports Samples.onePortTaken
              (Config.set_defaults Examples.config) eq_refl)
    as (s & o & Hs & _ & Hnd & _).
  - vm_compute. reflexivity.
  - exists s, o. split; [exact Hs |]. split; [| exact Hnd].
    vm_compute in Hs. inversion Hs. reflexivity.
Defined.

(** ** Reading the request *)

Section ReadingFacts.

Import Proxy.

Lemma leaves_suffix_ReadFull n : Reading.leaves_suffix (ReadFull n).
Proof.
  intros c. unfold ReadFull.
  destruct (n <=? List.length (unread c))%nat; simpl.
  - exists (firstn n (unread c)). symmetry. apply firstn_skipn.
  - exists (unread c). rewrite app_nil_r. reflexivity.
Qed.

Lemma leaves_suffix_ret {A : Type} (a : A) : Reading.leaves_suffix (ret a).
Proof. intros c. exists []. reflexivity. Qed.

Lemma leaves_suffix_fail {A : Type} (e : string) :
  Reading.leaves_suffix (@fail A e).
Proof. intros c. exists []. reflexivity. Qed.

Lemma leaves_suffix_bind {A B : Type} (x : IO A) (k : A -> IO B) :
  Reading.leaves_suffix x -> (forall a, Reading.leaves_suffix (k a)) ->
  Reading.leaves_suffix (bind x k).
Proof.
  intros Hx Hk c. unfold bind. destruct (Hx c) as [p1 H1].
  destruct (x c) as [[a | e | p] c']; simpl in H1.
  - destruct (Hk a c') as [p2 H2]. exists (p1 ++ p2)%list.
    rewrite H1, H2, app_assoc. reflexivity.
  - exists p1. exact H1.
  - exists p1. exact H1.
Qed.

Lemma leaves_suffix_readPort addr : Reading.leaves_suffix (readPort addr).
Proof.
  unfold readPort. apply leaves_suffix_bind; [apply leaves_suffix_ReadFull |].
  intros. apply leaves_suffix_ret.
Qed.

Lemma leaves_suffix_getTargetAddress : Reading.leaves_suffix getTargetAddress.
Proof.
  unfold getTargetAddress.
  apply leaves_suffix_bind; [apply leaves_suffix_ReadFull |]. intros buf.
  destruct (negb _); [apply leaves_suffix_fail |].
  destruct (negb _); [apply leaves_suffix_fail |].
  destruct (Byte.eqb _ atypIPv4).
  { apply leaves_suffix_bind; [apply leaves_suffix_ReadFull |].
    intros. apply leaves_suffix_readPort. }
  destruct (Byte.eqb _ atypDomain).
  { apply leaves_suffix_bind; [apply leaves_suffix_ReadFull |]. intros.
    apply leaves_suffix_bind; [apply leaves_suffix_ReadFull |].
    intros. apply leaves_suffix_readPort. }
  destruct (Byte.eqb _ atypIPv6).
  { apply leaves_suffix_bind; [apply leaves_suffix_ReadFull |].
    intros. apply leaves_suffix_readPort. }
  apply leaves_suffix_fail.
Qed.

End ReadingFacts.

(** X22. Reading the request writes nothing to the client and does not
    panic, whatever the bytes; what it leaves unread is an end piece of what
    was unread, so bytes the client sends after the request reach the
    relay in order. *)
Theorem getTargetAddress_only_reads :
  forall (c : Proxy.Conn),
    let c' := snd (Proxy.getTargetAddress c) in
    Proxy.trace c' = Proxy.trace c
    /\ Proxy.writable c' = Proxy.writable c
    /\ (forall p, fst (Proxy.getTargetAddress c) <> Panic p)
    /\ exists consumed, Proxy.unread c = (consumed ++ Proxy.unread c')%list.
Proof.
  intros c. cbn zeta.
  destruct (reads_only_getTargetAddress c) as (Ht & Hw & Hp).
  repeat split; try assumption.
  apply leaves_suffix_getTargetAddress.
Qed.

(** ** The statements above on sample values *)

Lemma tracker_counts_requests_witness :
  Tracker.GetTotalRequests
    (Tracker.countRequests Samples.tracker [0; 5; 0; 1]) = 4
  /\ Tracker.GetConnectionRequests
       (Tracker.countRequests Samples.tracker [0; 5; 0; 1]) 0 = 2.
Proof.
  assert (Hlen : Z.of_nat (List.length [0; 5; 0; 1]) <= Tracker.max_int64)
    by (vm_compute; discriminate).
  destruct (tracker_counts_requests 2 1700000000 Samples.tracker [0; 5; 0; 1]
              eq_refl Hlen) as (Ht & _ & Hc & _).
  split; [exact Ht |]. apply (Hc 0). lia.
Defined.

Lemma tracker_average_latency_witness :
  Tracker.GetAverageLatency
    (Tracker.recordLatencies Samples.tracker 1 [10; 21]) 1 = 15.
Proof.
  assert (Hpos : Forall (fun l => 0 <= l) [10; 21])
    by (repeat constructor; lia).
  assert (Hsum : Tracker.sumZ [10; 21] <= Tracker.max_int64)
    by (vm_compute; discriminate).
  assert (Hlen : Z.of_nat (List.length [10; 21]) <= Tracker.max_int64)
    by (vm_compute; discriminate).
  assert (Hi : 0 <= 1 < 2) by lia.
  destruct (tracker_average_latency 2 1700000000 Samples.tracker 1 [10; 21]
              eq_refl Hi Hpos Hsum Hlen) as [H _].
  exact H.
Defined.

Lemma tracker_follows_health_witness :
  Tracker.IsConnectionHealthy
    (System.trackProbe Examples.manager Examples.ok200 1700000030 1700000031
                       Samples.tracker Examples.connB) 1
  = true.
Proof.
  apply (tracker_follows_health Examples.manager Examples.connB Examples.ok200
           1700000030 1700000031 Samples.tracker); reflexivity.
Defined.

Lemma tracker_last_check_on_transitions_witness :
  Tracker.GetLastCheckTime
    (System.trackProbe Examples.manager Examples.ok200 1700000030 1700000031
                       Samples.tracker Examples.connB) 1
  = Some 1700000031.
Proof.
  apply (tracker_last_check_on_transitions Examples.manager Examples.connB
           Examples.ok200 1700000030 1700000031 Samples.tracker).
  reflexivity.
Defined.


(** ** A CONNECT from the first byte to the close *)

Section EndToEnd.

Import GoNet Proxy.

Lemma emit_trace (e : Event) (bs : list byte) (w : nat) (tr : list Event) :
  emit e {| unread := bs; writable := w; trace := tr |}
  = {| unread := bs; writable := w; trace := (tr ++ [e])%list |}.
Proof. reflexivity. Qed.

Lemma connect_IPv4 (env : Env) (index : Z) (n : byte)
      (methods : list byte) (rsv a b c d p1 p2 : byte) (payload : list byte)
      (w : nat) :
  u8 n = Z.of_nat (List.length methods) ->
  (1 <= List.length methods)%nat ->
  let target := string4 a b c d ++ ":" ++ fmt_d (256 * u8 p1 + u8 p2) in
  let hello := ClientWrite [x05; x00] true in
  let refused := ClientWrite (connectResponse repFailure) true in
  handleConnection env index
    {| unread := ([x05; n] ++ methods
                  ++ [x05; x01; rsv; x01; a; b; c; d; p1; p2] ++ payload)%list;
       writable := S (S w); trace := [] |}
  = {| unread := payload;
       writable :=
         match selectConnection env index with Panic _ => S w | _ => w end;
       trace :=
         match selectConnection env index with
         | Ok conn =>
             if dialThroughInterface env (InterfaceName conn) target then
               ([hello; Dial (InterfaceName conn) target true;
                 ClientWrite (connectResponse repSuccess) true;
                 StatsCall (Stats.IncrementRequests (Index conn)); Relay]
                ++ match relayPanic env with
                   | None => [TargetClose; ClientClose]
                   | Some msg => [Crash msg]
                   end)%list
             else
               [hello; Dial (InterfaceName conn) target false; refused;
                ClientClose]
         | Err _ => [hello; refused; ClientClose]
         | Panic p => [hello; Crash p; ClientClose]
         end |}.
Proof.
  intros Hn Hlen target hello refused. subst target hello refused.
  unfold handleConnection, serve.
  rewrite (handshake_accepts n methods _ (S w) [] Hn Hlen).
  cbn [app].
  change (x05 :: x01 :: rsv :: x01 :: a :: b :: c :: d :: p1 :: p2 :: payload)
    with ([x05; x01; rsv; x01; a; b; c; d; p1; p2] ++ payload)%list.
  rewrite request_IPv4.
  destruct (selectConnection env index) as [conn | e | p].
  - rewrite emit_trace.
    destruct (dialThroughInterface env (InterfaceName conn) _);
      unfold sendConnectResponse; rewrite Write_ok; [| reflexivity].
    unfold relay.
    destruct (relayPanic env); reflexivity.
  - unfold sendConnectResponse. rewrite Write_ok. reflexivity.
  - reflexivity.
Qed.

End EndToEnd.

(** X23. A client that sends a greeting of version 5 with one to 255
    methods and then a CONNECT to an IPv4 address, and takes two writes, is
    served in one of these ways, the payload after the request left unread
    for the relay. With a tunnel selected and the dial through its
    interface to a.b.c.d:port succeeding: [05 00], the success reply, one
    request counted for that tunnel and the relay; then both closes when
    the relay has its buffer, and the end of the process with no close when
    it panics for it (a buffer size that is negative or 0, or no memory).
    With the dial failing,
    or no tunnel selected: [05 00], the failure reply, close, and nothing
    counted. *)
Theorem connect_IPv4_end_to_end :
  forall (env : Proxy.Env) (index : Z) (methods : list byte)
         (rsv a b c d p1 p2 : byte) (payload : list byte) (w : nat),
    (1 <= List.length methods <= 255)%nat ->
    exists n : byte,
      GoNet.u8 n = Z.of_nat (List.length methods)
      /\ let target :=
           GoNet.string4 a b c d ++ ":"
           ++ fmt_d (256 * GoNet.u8 p1 + GoNet.u8 p2) in
         let hello := Proxy.ClientWrite [x05; x00] true in
         let refused :=
           Proxy.ClientWrite
             [x05; x01; x00; x01; x00; x00; x00; x00; x00; x00] true in
         let after :=
           Proxy.handleConnection env index
             {| Proxy.unread :=
                  ([x05; n] ++ methods
                   ++ [x05; x01; rsv; x01; a; b; c; d; p1; p2]
                   ++ payload)%list;
                Proxy.writable := S (S w); Proxy.trace := [] |} in
         Proxy.unread after = payload
         /\ Proxy.trace after
            = match Proxy.selectConnection env index with
              | Ok conn =>
                  if Proxy.dialThroughInterface env (InterfaceName conn)
                                                target
                  then
                    ([hello; Proxy.Dial (InterfaceName conn) target true;
                      Proxy.ClientWrite
                        [x05; x00; x00; x01; x00; x00; x00; x00; x00; x00]
                        true;
                      Proxy.StatsCall (Stats.IncrementRequests (Index conn));
                      Proxy.Relay]
                     ++ (if Config.BufferSize (Proxy.cfg env) <? 0 then
                           [Proxy.Crash
                              "runtime error: makeslice: len out of range"]
                         else
                           match Proxy.allocate env
                                   (Config.BufferSize (Proxy.cfg env)) with
                           | Some msg => [Proxy.Crash msg]
                           | None =>
                               if Config.BufferSize (Proxy.cfg env) =? 0 then
                                 [Proxy.Crash "empty buffer in CopyBuffer"]
                               else [Proxy.TargetClose; Proxy.ClientClose]
                           end))%list
                  else
                    [hello; Proxy.Dial (InterfaceName conn) target false;
                     refused; Proxy.ClientClose]
              | Err _ => [hello; refused; Proxy.ClientClose]
              | Panic p => [hello; Proxy.Crash p; Proxy.ClientClose]
              end.
Proof.
  intros env index methods rsv a b c d p1 p2 payload w [H1 H2].
  destruct (length_byte methods H2) as [n Hn].
  exists n. split; [symmetry; exact Hn |]. cbn zeta.
  rewrite (connect_IPv4 env index n methods rsv a b c d p1 p2 payload w)
    by (try (symmetry; exact Hn); exact H1).
  split; [reflexivity |]. cbn [Proxy.trace].
  unfold Proxy.relayPanic, Proxy.makeslice.
  destruct (Proxy.selectConnection env index); try reflexivity.
  destruct (Proxy.dialThroughInterface env _ _); try reflexivity.
  destruct (Config.BufferSize (Proxy.cfg env) <? 0); [reflexivity |].
  destruct (Proxy.allocate env _); [reflexivity |].
  destruct (Config.BufferSize (Proxy.cfg env) =? 0); reflexivity.
Qed.

Lemma connect_IPv4_end_to_end_witness :
  exists n : byte,
    GoNet.u8 n = 1
    /\ Proxy.trace
         (Proxy.handleConnection Samples.negativeBuffer 1
            {| Proxy.unread :=
                 ([x05; n] ++ [x00]
                  ++ [x05; x01; x00; x01; x5d; xb8; xd8; x22; x01; xbb]
                  ++ [x16; x03])%list;
               Proxy.writable := 2; Proxy.trace := [] |})
       = [Proxy.ClientWrite [x05; x00] true;
          Proxy.Dial "wg0" "93.184.216.34:443" true;
          Proxy.ClientWrite
            [x05; x00; x00; x01; x00; x00; x00; x00; x00; x00] true;
          Proxy.StatsCall (Stats.IncrementRequests 0);
          Proxy.Relay;
          Proxy.Crash "runtime error: makeslice: len out of range"].
Proof.
  destruct (connect_IPv4_end_to_end Samples.negativeBuffer 1
              [x00] x00 x5d xb8 xd8 x22 x01 xbb [x16; x03] 0)
    as (n & Hn & _ & Htr).
  - simpl. lia.
  - exists n. split; [exact Hn |]. rewrite Htr. reflexivity.
Defined.
